(** * Swift code generation and the service check command of apollo-tooling

    A shallow embedding of

    - [packages/apollo-codegen-swift/src/codeGeneration.ts]: the Swift back
      end, which walks the compiler's intermediate representation and drives
      the printing methods of its base class [SwiftGenerator];
    - the [ServiceCheck] command ([run] and [validateHistoricParams]);
    - [packages/apollo/src/git.ts]: the git context that the command sends
      along ([findGitRoot] and [gitInfo]).

    The back end is a printer: every method of [SwiftAPIGenerator] ends in
    calls of the base class ([printOnNewline], [withinBlock],
    [structDeclaration], ...).  The base class, the [Helpers] class, the
    printing utilities and the compiler visitors are not part of the sources
    that are verified here, so the embedding records the calls that reach the
    base class as a tree ([Emit]) and takes the other collaborators as the
    fields of interface classes. *)

From Stdlib Require Import ZArith.
From Stdlib Require Ascii Floats.
From stdpp Require Import gmap strings list.
Import (notations) PrimFloat.

Set Warnings "-register-all".

(** ** JavaScript values used by the generator *)

(** A string in a boolean position: the empty string is falsy. *)
Definition truthy (s : string) : bool := negb (String.eqb s "").

(** [!!namespace] for an optional string: [undefined] and [""] are falsy. *)
Definition truthyOpt (s : option string) : bool :=
  match s with
  | Some s => truthy s
  | None => false
  end.

(** [a || b] on strings. *)
Definition orElse (a b : string) : string := if truthy a then a else b.

(** [description || undefined]. *)
Definition orUndefined (s : option string) : option string :=
  match s with
  | Some s => if truthy s then Some s else None
  | None => None
  end.

(** [s.slice(0, -1)]: the string without its last character. *)
Definition slice_0_m1 (s : string) : string :=
  String.substring 0 (String.length s - 1) s.

(** ** Types of the graphql library *)

Module GraphQLObjectType.
Record t : Type := make { name : string }.
End GraphQLObjectType.

Module GraphQLEnumValue.
Record t : Type := make {
  name : string;
  value : string;
  description : option string;
  isDeprecated : option bool;
  deprecationReason : option string }.
End GraphQLEnumValue.

Module GraphQLEnumType.
Record t : Type := make {
  name : string;
  description : option string;
  getValues : list GraphQLEnumValue.t }.
End GraphQLEnumType.

Module GraphQLInputField.
Record t (T : Type) : Type := make {
  name : string;
  description : option string;
  type : T }.
Arguments make {T}.
Arguments name {T}.
Arguments description {T}.
Arguments type {T}.
End GraphQLInputField.

Module GraphQLInputObjectType.
Record t (T : Type) : Type := make {
  name : string;
  description : option string;
  getFields : list (string * GraphQLInputField.t T) }.
Arguments make {T}.
Arguments name {T}.
Arguments description {T}.
Arguments getFields {T}.
End GraphQLInputObjectType.

(** [GraphQLType]: the named types and the two wrappers. *)
Inductive GraphQLType : Type :=
| ScalarType (name : string)
| ObjectType (o : GraphQLObjectType.t)
| InterfaceType (name : string)
| UnionType (name : string)
| EnumType (e : GraphQLEnumType.t)
| InputObjectType (i : GraphQLInputObjectType.t GraphQLType)
| GraphQLList (ofType : GraphQLType)
| GraphQLNonNull (ofType : GraphQLType).

Definition isNonNullType (type : GraphQLType) : bool :=
  match type with
  | GraphQLNonNull _ => true
  | _ => false
  end.

Definition isListType (type : GraphQLType) : bool :=
  match type with
  | GraphQLList _ => true
  | _ => false
  end.

(** [type.ofType], read on a type that need not be a wrapper. *)
Definition ofType (type : GraphQLType) : option GraphQLType :=
  match type with
  | GraphQLList t | GraphQLNonNull t => Some t
  | _ => None
  end.

Fixpoint getNamedType (type : GraphQLType) : GraphQLType :=
  match type with
  | GraphQLList t | GraphQLNonNull t => getNamedType t
  | named => named
  end.

Definition isCompositeType (type : GraphQLType) : bool :=
  match type with
  | ObjectType _ | InterfaceType _ | UnionType _ => true
  | _ => false
  end.

(** A type is nullable when its outermost wrapper is not [GraphQLNonNull]. *)
Definition isNullableType (type : GraphQLType) : bool := negb (isNonNullType type).

(** ** The compiler's intermediate representation *)

Module Argument.
Record t : Type := make { name : string; value : string }.
End Argument.

Module Field.
Record t (SS : Type) : Type := make {
  responseKey : string;
  name : string;
  alias : option string;
  args : option (list Argument.t);
  type : GraphQLType;
  description : option string;
  isDeprecated : option bool;
  deprecationReason : option string;
  isConditional : option bool;
  selectionSet : option SS }.
Arguments make {SS}.
Arguments responseKey {SS}.
Arguments name {SS}.
Arguments alias {SS}.
Arguments args {SS}.
Arguments type {SS}.
Arguments description {SS}.
Arguments isDeprecated {SS}.
Arguments deprecationReason {SS}.
Arguments isConditional {SS}.
Arguments selectionSet {SS}.
End Field.

Module TypeCondition.
Record t (SS : Type) : Type := make {
  type : GraphQLType;
  selectionSet : SS }.
Arguments make {SS}.
Arguments type {SS}.
Arguments selectionSet {SS}.
End TypeCondition.

Module BooleanCondition.
Record t (SS : Type) : Type := make {
  variableName : string;
  inverted : bool;
  selectionSet : SS }.
Arguments make {SS}.
Arguments variableName {SS}.
Arguments inverted {SS}.
Arguments selectionSet {SS}.
End BooleanCondition.

Module FragmentSpread.
Record t (SS : Type) : Type := make {
  fragmentName : string;
  isConditional : option bool;
  selectionSet : SS }.
Arguments make {SS}.
Arguments fragmentName {SS}.
Arguments isConditional {SS}.
Arguments selectionSet {SS}.
End FragmentSpread.

(** [Selection]: the union discriminated by [kind]. *)
Inductive Selection_ (SS : Type) : Type :=
| KField (selection : Field.t SS)
| KTypeCondition (selection : TypeCondition.t SS)
| KBooleanCondition (selection : BooleanCondition.t SS)
| KFragmentSpread (selection : FragmentSpread.t SS).
Arguments KField {SS}.
Arguments KTypeCondition {SS}.
Arguments KBooleanCondition {SS}.
Arguments KFragmentSpread {SS}.

Module SelectionSet.
Inductive t : Type := make {
  possibleTypes : list GraphQLObjectType.t;
  selections : list (Selection_ t) }.
End SelectionSet.

Abbreviation Selection := (Selection_ SelectionSet.t).

(** [Variant implements SelectionSet], with the fragment spreads that apply. *)
Module Variant.
Record t : Type := make {
  possibleTypes : list GraphQLObjectType.t;
  selections : list Selection;
  fragmentSpreads : list (FragmentSpread.t SelectionSet.t) }.
Definition asSelectionSet (v : t) : SelectionSet.t :=
  SelectionSet.make (possibleTypes v) (selections v).
End Variant.

Module TypeCase.
Record t : Type := make {
  default : Variant.t;
  variants : list Variant.t;
  remainder : option Variant.t }.
End TypeCase.

Module VariableDefinition.
Record t : Type := make { name : string; type : GraphQLType }.
End VariableDefinition.

Module Operation.
Record t : Type := make {
  filePath : string;
  operationName : string;
  operationType : string;
  variables : option (list VariableDefinition.t);
  source : string;
  selectionSet : SelectionSet.t;
  operationId : option string }.
End Operation.

Module Fragment.
Record t : Type := make {
  filePath : string;
  fragmentName : string;
  source : string;
  selectionSet : SelectionSet.t }.
End Fragment.

Module CompilerOptions.
Record t : Type := make {
  namespace : option string;
  mergeInFieldsFromFragmentSpreads : bool;
  generateOperationIds : bool }.
End CompilerOptions.

(** [operations] and [fragments] are objects keyed by name; the generator
    walks them with [Object.values], in insertion order. *)
Module CompilerContext.
Record t : Type := make {
  typesUsed : list GraphQLType;
  operations : list (string * Operation.t);
  fragments : list (string * Fragment.t);
  options : CompilerOptions.t }.
End CompilerContext.

Definition Object_values {A : Type} (o : list (string * A)) : list A := o.*2.

(** A JavaScript [Set] of strings keeps insertion order and no duplicates. *)
Definition Set_add (s : list string) (x : string) : list string :=
  if bool_decide (x ∈ s) then s else s ++ [x].

#[global] Instance GraphQLObjectType_eq_dec : EqDecision GraphQLObjectType.t.
Proof. solve_decision. Defined.

(** [possibleTypes.includes(type)]. *)
Definition includes (l : list GraphQLObjectType.t) (type : GraphQLObjectType.t) : bool :=
  bool_decide (type ∈ l).

(** The double quote character, and a string between double quotes. *)
Definition dq : string :=
  String (Ascii.Ascii false true false false false true false false) EmptyString.
Definition quoted (s : string) : string := dq +:+ s +:+ dq.

(** ** The interface of the Swift language generator ([./language])

    [Property], [Struct] and [Class] are the argument records of the base
    class; [Emit] has one constructor per method of [SwiftGenerator] (and of
    its own base [CodeGenerator]) that the back end calls.  A method that
    takes a closure carries what the closure printed. *)

Module Property.
Record t : Type := make {
  propertyName : string;
  typeName : string;
  isOptional : bool }.
End Property.

Module Struct.
Record t : Type := make {
  structName : string;
  description : option string;
  adoptedProtocols : option (list string);
  namespace : option string }.
End Struct.

Module SwiftClass.
Record t : Type := make {
  className : string;
  modifiers : list string;
  adoptedProtocols : list string }.
End SwiftClass.

Inductive Emit : Type :=
| printOnNewline (s : string)
| print (s : string)
| printNewline
| printNewlineIfNeeded
| comment (s : option string)
| commentWithoutTrimming (s : string)
| multilineString (s : string)
| deprecationAttributes (isDeprecated : option bool) (deprecationReason : option string)
| propertyDeclarations (properties : list Property.t)
| withIndent (closure : list Emit)
| withinBlock (closure : list Emit)
| withinFile (fileName : string) (closure : list Emit)
| namespaceDeclaration (namespace : option string) (closure : list Emit)
| namespaceExtensionDeclaration (namespace : option string) (closure : list Emit)
| classDeclaration (c : SwiftClass.t) (closure : list Emit)
| structDeclaration (s : Struct.t) (outputIndividualFiles : bool) (closure : list Emit).

(** ** Properties built by [Helpers] *)

(** [Field & Property & Struct]. *)
Module FieldProperty.
Record t : Type := make {
  field : Field.t SelectionSet.t;
  property : Property.t;
  structName : string }.
End FieldProperty.

(** [Variant & Property & Struct]. *)
Module VariantProperty.
Record t : Type := make {
  variant : Variant.t;
  property : Property.t;
  structName : string }.
End VariantProperty.

(** [FragmentSpread & Property & Struct], with the [isConditional] that
    [propertyFromFragmentSpread] was given or computed. *)
Module FragmentSpreadProperty.
Record t : Type := make {
  fragmentSpread : FragmentSpread.t SelectionSet.t;
  property : Property.t;
  structName : string;
  isConditional : bool }.
End FragmentSpreadProperty.

(** [GraphQLInputField & Property]. *)
Module InputFieldProperty.
Record t : Type := make {
  name : string;
  description : option string;
  property : Property.t }.
End InputFieldProperty.

(** The property object the operation class builds for each variable. *)
Module VariableProperty.
Record t : Type := make {
  name : string;
  type : GraphQLType;
  property : Property.t }.
End VariableProperty.

(** ** Collaborators outside the verified sources *)

(** [apollo-codegen-core/lib/utilities/printing] and [.../utilities/graphql].
    An element of the array given to [join] that is [null], [false] or
    [undefined] is [None]. *)
Class Printing : Type := {
  join : list (option string) → option string → string;
  wrap : string → string → string → string;
  isList : GraphQLType → bool }.

(** [escapeIdentifierIfNeeded] of [./language]; [scopeTypeName structName] is
    [this.scope.typeName] as read inside the closure of the declaration of
    [structName]; [basename] is [path.basename]. *)
Class Language : Type := {
  escapeIdentifierIfNeeded : string → string;
  scopeTypeName : string → string;
  basename : string → string }.

(** The methods of [./helpers] that the back end calls. *)
Class Helpers : Type := {
  operationClassName : string → string;
  structNameForFragmentName : string → string;
  structNameForPropertyName : string → string;
  structNameForVariant : Variant.t → string;
  typeNameFromGraphQLType : GraphQLType → option string → option bool → string;
  fieldTypeEnum : GraphQLType → string → string;
  enumCaseName : string → string;
  enumDotCaseName : string → string;
  dictionaryLiteralForFieldArguments : list Argument.t → string;
  mapExpressionForType :
    GraphQLType → option bool → (string → string) → string → string → string → string;
  propertyFromField : Field.t SelectionSet.t → FieldProperty.t;
  propertyFromVariant : Variant.t → VariantProperty.t;
  propertyFromFragmentSpread :
    FragmentSpread.t SelectionSet.t → bool → FragmentSpreadProperty.t;
  propertyFromInputField : GraphQLInputField.t GraphQLType → InputFieldProperty.t;
  propertiesForSelectionSet :
    SelectionSet.t → option string → option (list FieldProperty.t) }.

Module GeneratedOperationId.
Record t : Type := make { operationId : string }.
End GeneratedOperationId.

(** The visitors of [apollo-codegen-core/lib/compiler/visitors].
    [collectFragmentsReferenced] returns a [Set] of fragment names, read
    here in its iteration order.  It follows the fragment spreads through
    the table of fragments and throws where it cannot: a call throws the
    error [collectFragmentsReferencedError] gives, when it gives one, and
    returns the set otherwise. *)
Class Visitors : Type := {
  typeCaseForSelectionSet : SelectionSet.t → bool → TypeCase.t;
  collectAndMergeFields : Variant.t → bool → list (Field.t SelectionSet.t);
  collectFragmentsReferenced :
    SelectionSet.t → list (string * Fragment.t) → list string;
  collectFragmentsReferencedError :
    SelectionSet.t → list (string * Fragment.t) → option string;
  generateOperationId :
    Operation.t → list (string * Fragment.t) → list string → GeneratedOperationId.t }.

(** ** Results

    [classDeclarationForOperation] throws a [GraphQLError] on an operation
    type it does not know, and an error of [collectFragmentsReferenced]
    passes through it.  Struct declarations nest as deep as the merged
    fields of the selection sets do; the embedding bounds that depth by a
    number and ends with [DepthExceeded] beyond it. *)
Inductive Failure : Type :=
| GraphQLError (message : string)
| VisitorError (message : string)
| DepthExceeded.

Inductive Result (A : Type) : Type :=
| Ok (a : A)
| Throw (failure : Failure).
Arguments Ok {A}.
Arguments Throw {A}.

#[global] Instance Result_ret : MRet Result := @Ok.
#[global] Instance Result_bind : MBind Result := λ A B f m,
  match m with
  | Ok a => f a
  | Throw e => Throw e
  end.
#[global] Instance Result_fmap : FMap Result := λ A B f m,
  match m with
  | Ok a => Ok (f a)
  | Throw e => Throw e
  end.

(** ** The generator: [SwiftAPIGenerator] *)

Section SwiftAPIGenerator.
Context {printing : Printing} {language : Language}.
Context {helpers : Helpers} {visitors : Visitors}.

(** [this.context], set by the constructor. *)
Variable context : CompilerContext.t.

Definition fileHeader : list Emit :=
  [ printOnNewline "//  This file was automatically generated and should not be edited.";
    printNewline;
    printOnNewline "import Apollo" ].

(** The text of one parameter: the name, the type name and, for an optional
    property, the default [ = nil]. *)
Definition parameterForProperty (p : Property.t) : string :=
  join [ Some (escapeIdentifierIfNeeded (Property.propertyName p) +:+ ": "
                 +:+ Property.typeName p);
         if Property.isOptional p then Some " = nil" else None ] None.

Definition parametersForProperties (properties : list Property.t) : list Emit :=
  [ print "(";
    print (join (map (λ p, Some (parameterForProperty p)) properties) (Some ", "));
    print ")" ].

Definition initializerDeclarationForProperties (properties : list Property.t)
  : list Emit :=
  [ printOnNewline "public init" ]
  ++ parametersForProperties properties
  ++ [ withinBlock
         (map (λ p, printOnNewline
                      ("self." +:+ Property.propertyName p +:+ " = "
                       +:+ escapeIdentifierIfNeeded (Property.propertyName p)))
              properties) ].

Definition propertyAssignmentForField (field : FieldProperty.t) : string :=
  let responseKey := Field.responseKey (FieldProperty.field field) in
  let propertyName := Property.propertyName (FieldProperty.property field) in
  let type := Field.type (FieldProperty.field field) in
  let isConditional := Field.isConditional (FieldProperty.field field) in
  let structName := FieldProperty.structName field in
  let valueExpression :=
    if isCompositeType (getNamedType type)
    then mapExpressionForType type isConditional
           (λ expression, expression +:+ ".resultMap")
           (escapeIdentifierIfNeeded propertyName) structName "ResultMap"
    else escapeIdentifierIfNeeded propertyName in
  quoted responseKey +:+ ": " +:+ valueExpression.

(** [initializersForVariant]; [enclosing] names the declaration whose closure
    is running, for [this.scope.typeName]. *)
Definition initializersForVariant (enclosing : string) (variant : Variant.t)
    (namespace : option string) (useInitializerIfPossible : bool) : list Emit :=
  match useInitializerIfPossible, Variant.possibleTypes variant with
  | true, [possibleType0] =>
      match propertiesForSelectionSet (Variant.asSelectionSet variant) None with
      | None => []
      | Some properties =>
          [ printNewlineIfNeeded; printOnNewline "public init" ]
          ++ parametersForProperties (map FieldProperty.property properties)
          ++ [ withinBlock
                 [ printOnNewline
                     (wrap "self.init(unsafeResultMap: ["
                        (orElse
                           (join
                              (Some (quoted "__typename" +:+ ": "
                                     +:+ quoted (GraphQLObjectType.name possibleType0))
                               :: map (λ p, Some (propertyAssignmentForField p)) properties)
                              (Some ", "))
                           ":")
                        "])") ] ]
      end
  | _, _ =>
      let structName := scopeTypeName enclosing in
      flat_map
        (λ possibleType,
           match propertiesForSelectionSet
                   (SelectionSet.make [possibleType] (Variant.selections variant))
                   namespace with
           | None => []
           | Some properties =>
               [ printNewlineIfNeeded;
                 printOnNewline
                   ("public static func make" +:+ GraphQLObjectType.name possibleType) ]
               ++ parametersForProperties (map FieldProperty.property properties)
               ++ [ print (" -> " +:+ structName);
                    withinBlock
                      [ printOnNewline
                          (wrap ("return " +:+ structName +:+ "(unsafeResultMap: [")
                             (orElse
                                (join
                                   (Some (quoted "__typename" +:+ ": "
                                          +:+ quoted (GraphQLObjectType.name possibleType))
                                    :: map (λ p, Some (propertyAssignmentForField p))
                                         properties)
                                   (Some ", "))
                                ":")
                             "])") ] ]
           end)
        (Variant.possibleTypes variant)
  end.

(** [initializersForTypeCase].  The remainder is a variant of its own, not
    one of [variants], so [variant === remainder] holds for it alone. *)
Definition initializersForTypeCase (enclosing : string) (typeCase : TypeCase.t)
  : list Emit :=
  let variants := TypeCase.variants typeCase in
  if length variants =? 0
  then initializersForVariant enclosing (TypeCase.default typeCase) None true
  else
    match TypeCase.remainder typeCase with
    | Some remainder => initializersForVariant enclosing remainder None false
    | None => []
    end
    ++ flat_map
         (λ variant,
            initializersForVariant enclosing variant
              (Some (structNameForVariant variant)) false)
         variants.

Definition propertyDeclarationForField (field : FieldProperty.t) : list Emit :=
  let responseKey := Field.responseKey (FieldProperty.field field) in
  let propertyName := Property.propertyName (FieldProperty.property field) in
  let typeName := Property.typeName (FieldProperty.property field) in
  let type := Field.type (FieldProperty.field field) in
  let isOptional := Property.isOptional (FieldProperty.property field) in
  let isConditional := Field.isConditional (FieldProperty.field field) in
  let unmodifiedFieldType := getNamedType type in
  [ printNewlineIfNeeded;
    comment (Field.description (FieldProperty.field field));
    deprecationAttributes (Field.isDeprecated (FieldProperty.field field))
      (Field.deprecationReason (FieldProperty.field field));
    printOnNewline
      ("public var " +:+ escapeIdentifierIfNeeded propertyName +:+ ": " +:+ typeName);
    withinBlock
      (if isCompositeType unmodifiedFieldType then
         let structName :=
           escapeIdentifierIfNeeded (structNameForPropertyName propertyName) in
         if isList type then
           [ printOnNewline "get";
             withinBlock
               (let resultMapTypeName :=
                  typeNameFromGraphQLType type (Some "ResultMap") (Some false) in
                let expression :=
                  if isOptional
                  then "(resultMap[" +:+ quoted responseKey +:+ "] as? "
                       +:+ resultMapTypeName +:+ ")"
                  else "(resultMap[" +:+ quoted responseKey +:+ "] as! "
                       +:+ resultMapTypeName +:+ ")" in
                [ printOnNewline
                    ("return "
                     +:+ mapExpressionForType type isConditional
                           (λ expression,
                              structName +:+ "(unsafeResultMap: " +:+ expression +:+ ")")
                           expression "ResultMap" structName) ]);
             printOnNewline "set";
             withinBlock
               (let newValueExpression :=
                  mapExpressionForType type isConditional
                    (λ expression, expression +:+ ".resultMap")
                    "newValue" structName "ResultMap" in
                [ printOnNewline
                    ("resultMap.updateValue(" +:+ newValueExpression +:+ ", forKey: "
                     +:+ quoted responseKey +:+ ")") ]) ]
         else
           [ printOnNewline "get";
             withinBlock
               (if isOptional
                then [ printOnNewline
                         ("return (resultMap[" +:+ quoted responseKey
                          +:+ "] as? ResultMap).flatMap { " +:+ structName
                          +:+ "(unsafeResultMap: $0) }") ]
                else [ printOnNewline
                         ("return " +:+ structName +:+ "(unsafeResultMap: resultMap["
                          +:+ quoted responseKey +:+ "]! as! ResultMap)") ]);
             printOnNewline "set";
             withinBlock
               (let newValueExpression :=
                  if isOptional then "newValue?.resultMap" else "newValue.resultMap" in
                [ printOnNewline
                    ("resultMap.updateValue(" +:+ newValueExpression +:+ ", forKey: "
                     +:+ quoted responseKey +:+ ")") ]) ]
       else
         [ printOnNewline "get";
           withinBlock
             (if isOptional
              then [ printOnNewline
                       ("return resultMap[" +:+ quoted responseKey +:+ "] as? "
                        +:+ slice_0_m1 typeName) ]
              else [ printOnNewline
                       ("return resultMap[" +:+ quoted responseKey +:+ "]! as! "
                        +:+ typeName) ]);
           printOnNewline "set";
           withinBlock
             [ printOnNewline
                 ("resultMap.updateValue(newValue, forKey: " +:+ quoted responseKey
                  +:+ ")") ] ]) ].

(** The two statements of the getter of a variant's accessor. *)
Definition getterForVariant (structName : string) : list Emit :=
  [ printOnNewline
      ("if !" +:+ structName +:+ ".possibleTypes.contains(__typename) { return nil }");
    printOnNewline ("return " +:+ structName +:+ "(unsafeResultMap: resultMap)") ].

Definition propertyDeclarationForVariant (variant : VariantProperty.t) : list Emit :=
  let propertyName := Property.propertyName (VariantProperty.property variant) in
  let typeName := Property.typeName (VariantProperty.property variant) in
  let structName := VariantProperty.structName variant in
  [ printNewlineIfNeeded;
    printOnNewline
      ("public var " +:+ escapeIdentifierIfNeeded propertyName +:+ ": " +:+ typeName);
    withinBlock
      [ printOnNewline "get";
        withinBlock (getterForVariant structName);
        printOnNewline "set";
        withinBlock
          [ printOnNewline "guard let newValue = newValue else { return }";
            printOnNewline "resultMap = newValue.resultMap" ] ] ].

Definition boolToString (b : bool) : string := if b then "true" else "false".

Fixpoint selectionSetInitialization (selectionSet : SelectionSet.t) : list Emit :=
  [ print "[";
    withIndent
      (flat_map
         (λ selection : Selection,
            match selection with
            | KField selection =>
                let name := Field.name selection in
                let alias := Field.alias selection in
                let args := Field.args selection in
                let type := Field.type selection in
                let responseKey :=
                  if truthyOpt alias then default name alias else name in
                let structName := structNameForPropertyName responseKey in
                [ printOnNewline "GraphQLField(";
                  print
                    (join
                       [ Some (quoted name);
                         if truthyOpt alias
                         then Some ("alias: " +:+ quoted (default name alias))
                         else None;
                         match args with
                         | Some (arg :: args') =>
                             Some ("arguments: "
                                   +:+ dictionaryLiteralForFieldArguments (arg :: args'))
                         | _ => None
                         end;
                         Some ("type: " +:+ fieldTypeEnum type structName) ]
                       (Some ", "));
                  print ")," ]
            | KBooleanCondition selection =>
                [ printOnNewline "GraphQLBooleanCondition(";
                  print
                    (join
                       [ Some ("variableName: "
                               +:+ quoted (BooleanCondition.variableName selection));
                         Some ("inverted: "
                               +:+ boolToString (BooleanCondition.inverted selection));
                         Some "selections: " ]
                       (Some ", ")) ]
                ++ selectionSetInitialization (BooleanCondition.selectionSet selection)
                ++ [ print ")," ]
            | KTypeCondition selection =>
                [ printOnNewline "GraphQLTypeCondition(";
                  print
                    (join
                       [ Some ("possibleTypes: ["
                               +:+ join
                                     (map (λ type, Some (quoted (GraphQLObjectType.name type)))
                                        (SelectionSet.possibleTypes
                                           (TypeCondition.selectionSet selection)))
                                     (Some ", ")
                               +:+ "]");
                         Some "selections: " ]
                       (Some ", ")) ]
                ++ selectionSetInitialization (TypeCondition.selectionSet selection)
                ++ [ print ")," ]
            | KFragmentSpread selection =>
                let structName :=
                  structNameForFragmentName (FragmentSpread.fragmentName selection) in
                [ printOnNewline ("GraphQLFragmentSpread(" +:+ structName +:+ ".self),") ]
            end)
         (SelectionSet.selections selectionSet));
    printOnNewline "]" ].

(** [typeCaseInitialization]; the list of variants is joined with the
    array's own [join]. *)
Definition typeCaseInitialization (typeCase : TypeCase.t) : list Emit :=
  if length (TypeCase.variants typeCase) <? 1
  then selectionSetInitialization (Variant.asSelectionSet (TypeCase.default typeCase))
  else
    [ print "[";
      withIndent
        [ printOnNewline "GraphQLTypeCase(";
          withIndent
            ([ printOnNewline "variants: [";
               print
                 (String.concat ", "
                    (flat_map
                       (λ variant,
                          let structName := structNameForVariant variant in
                          map (λ type,
                                 quoted (GraphQLObjectType.name type) +:+ ": "
                                 +:+ structName +:+ ".selections")
                              (Variant.possibleTypes variant))
                       (TypeCase.variants typeCase)));
               print "],";
               printOnNewline "default: " ]
             ++ selectionSetInitialization
                  (Variant.asSelectionSet (TypeCase.default typeCase)));
          printOnNewline ")" ];
      printOnNewline "]" ].

(** The getter of a fragment's accessor in the [Fragments] struct. *)
Definition getterForFragmentSpread (structName : string) (isConditional : bool)
  : list Emit :=
  (if isConditional
   then [ printOnNewline
            ("if !" +:+ structName +:+ ".possibleTypes.contains(resultMap["
             +:+ quoted "__typename" +:+ "]! as! String) { return nil }") ]
   else [])
  ++ [ printOnNewline ("return " +:+ structName +:+ "(unsafeResultMap: resultMap)") ].

Definition propertyDeclarationForFragmentSpread
    (fragmentSpread : FragmentSpreadProperty.t) : list Emit :=
  let propertyName :=
    Property.propertyName (FragmentSpreadProperty.property fragmentSpread) in
  let typeName := Property.typeName (FragmentSpreadProperty.property fragmentSpread) in
  let structName := FragmentSpreadProperty.structName fragmentSpread in
  let isConditional := FragmentSpreadProperty.isConditional fragmentSpread in
  [ printNewlineIfNeeded;
    printOnNewline
      ("public var " +:+ escapeIdentifierIfNeeded propertyName +:+ ": " +:+ typeName);
    withinBlock
      [ printOnNewline "get";
        withinBlock (getterForFragmentSpread structName isConditional);
        printOnNewline "set";
        withinBlock
          (if isConditional
           then [ printOnNewline "guard let newValue = newValue else { return }";
                  printOnNewline "resultMap += newValue.resultMap" ]
           else [ printOnNewline "resultMap += newValue.resultMap" ]) ] ].

(** The fragment spreads of a variant as properties: a spread is conditional
    when some possible type of the variant is not one of the fragment's. *)
Definition fragmentSpreadProperties (variant : Variant.t)
  : list FragmentSpreadProperty.t :=
  map
    (λ fragmentSpread,
       let isConditional :=
         existsb
           (λ type,
              negb (includes
                      (SelectionSet.possibleTypes
                         (FragmentSpread.selectionSet fragmentSpread))
                      type))
           (Variant.possibleTypes variant) in
       propertyFromFragmentSpread fragmentSpread isConditional)
    (Variant.fragmentSpreads variant).

(** The [fragments] property and the [Fragments] struct of a declaration. *)
Definition fragmentsDeclaration (fragmentSpreads : list FragmentSpreadProperty.t)
    (outputIndividualFiles : bool) : list Emit :=
  if 0 <? length fragmentSpreads then
    [ printNewlineIfNeeded;
      printOnNewline "public var fragments: Fragments";
      withinBlock
        [ printOnNewline "get";
          withinBlock [ printOnNewline "return Fragments(unsafeResultMap: resultMap)" ];
          printOnNewline "set";
          withinBlock [ printOnNewline "resultMap += newValue.resultMap" ] ];
      structDeclaration (Struct.make "Fragments" None None None) outputIndividualFiles
        ([ printOnNewline "public private(set) var resultMap: ResultMap";
           printNewlineIfNeeded;
           printOnNewline "public init(unsafeResultMap: ResultMap)";
           withinBlock [ printOnNewline "self.resultMap = unsafeResultMap" ] ]
         ++ flat_map propertyDeclarationForFragmentSpread fragmentSpreads) ]
  else [].

(** The member [possibleTypes] of a struct declaration. *)
Definition possibleTypesDeclaration (variant : Variant.t) : list Emit :=
  [ printNewlineIfNeeded;
    printOnNewline "public static let possibleTypes = [";
    print
      (join (map (λ type, Some (quoted (GraphQLObjectType.name type)))
               (Variant.possibleTypes variant))
         (Some ", "));
    print "]" ].

Section StructDeclarationForVariant.

(** [this.structDeclarationForSelectionSet], called for the composite fields. *)
Variable structDeclarationForSelectionSet :
  string → option (list string) → SelectionSet.t → bool → option (list Emit) →
  Result (list Emit).

Definition structDeclarationForVariant
    (structName : string) (adoptedProtocols : option (list string))
    (variant : Variant.t) (typeCase : option TypeCase.t)
    (outputIndividualFiles : bool)
    (before : option (list Emit)) (after : option (Result (list Emit)))
  : Result (list Emit) :=
  let adoptedProtocols := default ["GraphQLSelectionSet"] adoptedProtocols in
  let namespace := CompilerOptions.namespace (CompilerContext.options context) in
  let mergeInFieldsFromFragmentSpreads :=
    CompilerOptions.mergeInFieldsFromFragmentSpreads (CompilerContext.options context) in
  let fields :=
    map propertyFromField
      (collectAndMergeFields variant mergeInFieldsFromFragmentSpreads) in
  let fragmentSpreads := fragmentSpreadProperties variant in
  nested ←
    mapM
      (λ field,
         if isCompositeType (getNamedType (Field.type (FieldProperty.field field)))
         then
           match Field.selectionSet (FieldProperty.field field) with
           | Some selectionSet =>
               structDeclarationForSelectionSet (FieldProperty.structName field) None
                 selectionSet outputIndividualFiles None
           | None => mret []
           end
         else mret [])
      fields;
  afterwards ← default (mret []) after;
  mret
    [ structDeclaration
        (Struct.make structName None (Some adoptedProtocols) namespace)
        outputIndividualFiles
        (default [] before
         ++ possibleTypesDeclaration variant
         ++ [ printNewlineIfNeeded;
              printOnNewline "public static let selections: [GraphQLSelection] = " ]
         ++ match typeCase with
            | Some typeCase => typeCaseInitialization typeCase
            | None => selectionSetInitialization (Variant.asSelectionSet variant)
            end
         ++ [ printNewlineIfNeeded;
              printOnNewline "public private(set) var resultMap: ResultMap";
              printNewlineIfNeeded;
              printOnNewline "public init(unsafeResultMap: ResultMap)";
              withinBlock [ printOnNewline "self.resultMap = unsafeResultMap" ] ]
         ++ match typeCase with
            | Some typeCase => initializersForTypeCase structName typeCase
            | None => initializersForVariant structName variant None true
            end
         ++ flat_map propertyDeclarationForField fields
         ++ fragmentsDeclaration fragmentSpreads outputIndividualFiles
         ++ concat nested
         ++ afterwards) ].

End StructDeclarationForVariant.

(** The accessor and the struct declared for one variant of a type case. *)
Definition variantDeclarations
    (structDeclarationForSelectionSet :
       string → option (list string) → SelectionSet.t → bool → option (list Emit) →
       Result (list Emit))
    (outputIndividualFiles : bool) (variant : VariantProperty.t)
  : Result (list Emit) :=
  declaration ←
    structDeclarationForVariant structDeclarationForSelectionSet
      (VariantProperty.structName variant) None (VariantProperty.variant variant) None
      outputIndividualFiles None None;
  mret (propertyDeclarationForVariant variant ++ declaration).

(** [structDeclarationForSelectionSet]; [depth] bounds how deep the structs
    of composite fields may nest below this one. *)
Fixpoint structDeclarationForSelectionSet (depth : nat)
    (structName : string) (adoptedProtocols : option (list string))
    (selectionSet : SelectionSet.t) (outputIndividualFiles : bool)
    (before : option (list Emit)) : Result (list Emit) :=
  match depth with
  | 0 => Throw DepthExceeded
  | S depth =>
      let typeCase :=
        typeCaseForSelectionSet selectionSet
          (CompilerOptions.mergeInFieldsFromFragmentSpreads
             (CompilerContext.options context)) in
      structDeclarationForVariant (structDeclarationForSelectionSet depth)
        structName adoptedProtocols (TypeCase.default typeCase) (Some typeCase)
        outputIndividualFiles before
        (Some
           (declarations ←
              mapM
                (variantDeclarations (structDeclarationForSelectionSet depth)
                   outputIndividualFiles)
                (map propertyFromVariant (TypeCase.variants typeCase));
            mret (concat declarations)))
  end.

Definition structDeclarationForFragment (depth : nat) (fragment : Fragment.t)
    (outputIndividualFiles : bool) : Result (list Emit) :=
  let fragmentName := Fragment.fragmentName fragment in
  let selectionSet := Fragment.selectionSet fragment in
  let source := Fragment.source fragment in
  let structName := structNameForFragmentName fragmentName in
  structDeclarationForSelectionSet depth structName (Some ["GraphQLFragment"])
    selectionSet outputIndividualFiles
    (Some
       (if truthy source
        then [ commentWithoutTrimming source;
               printOnNewline "public static let fragmentDefinition =";
               withIndent [ multilineString source ] ]
        else [])).

(** *** [classDeclarationForOperation]

    The parts of the class body are named, in the order in which the method
    prints them. *)

(** The class name and the protocol of each operation type. *)
Definition classNameAndProtocol (operationName operationType : string)
  : Result (string * string) :=
  if decide (operationType = "query") then
    mret (operationClassName operationName +:+ "Query", "GraphQLQuery")
  else if decide (operationType = "mutation") then
    mret (operationClassName operationName +:+ "Mutation", "GraphQLMutation")
  else if decide (operationType = "subscription") then
    mret (operationClassName operationName +:+ "Subscription", "GraphQLSubscription")
  else
    Throw (GraphQLError ("Unsupported operation type " +:+ quoted operationType)).

Definition classModifiers (outputIndividualFiles : bool) : list string :=
  let namespace := CompilerOptions.namespace (CompilerContext.options context) in
  let isRedundant := truthyOpt namespace && outputIndividualFiles in
  if isRedundant then ["final"] else ["public"; "final"].

Definition operationDefinitionDeclaration (source : string) : list Emit :=
  if truthy source
  then [ commentWithoutTrimming source;
         printOnNewline "public let operationDefinition =";
         withIndent [ multilineString source ] ]
  else [].

(** The identifier is derived and stored on the operation only under
    [generateOperationIds]. *)
Definition operationIdentifierDeclaration (operation : Operation.t)
    (fragmentsReferenced : list string) : Operation.t * list Emit :=
  if CompilerOptions.generateOperationIds (CompilerContext.options context) then
    let operationId :=
      GeneratedOperationId.operationId
        (generateOperationId operation (CompilerContext.fragments context)
           fragmentsReferenced) in
    (Operation.make
       (Operation.filePath operation) (Operation.operationName operation)
       (Operation.operationType operation) (Operation.variables operation)
       (Operation.source operation) (Operation.selectionSet operation)
       (Some operationId),
     [ printNewlineIfNeeded;
       printOnNewline
         ("public let operationIdentifier: String? = " +:+ quoted operationId) ])
  else (operation, []).

Definition queryDocumentDeclaration (fragmentsReferenced : list string) : list Emit :=
  if 0 <? length fragmentsReferenced then
    [ printNewlineIfNeeded;
      printOnNewline "public var queryDocument: String { return operationDefinition" ]
    ++ map
         (λ fragmentName,
            print (".appending(" +:+ structNameForFragmentName fragmentName
                   +:+ ".fragmentDefinition)"))
         fragmentsReferenced
    ++ [ print " }" ]
  else [].

Definition propertyFromVariable (variable : VariableDefinition.t)
  : VariableProperty.t :=
  let name := VariableDefinition.name variable in
  let type := VariableDefinition.type variable in
  let typeName := typeNameFromGraphQLType type None None in
  let isOptional :=
    negb (isNonNullType type
          || (isListType type && from_option isNonNullType false (ofType type))) in
  VariableProperty.make name type (Property.make name typeName isOptional).

Definition variablesDeclarations (variables : option (list VariableDefinition.t))
  : list Emit :=
  match variables with
  | Some (variable :: variables') =>
      let properties := map propertyFromVariable (variable :: variables') in
      [ propertyDeclarations (map VariableProperty.property properties);
        printNewlineIfNeeded ]
      ++ initializerDeclarationForProperties (map VariableProperty.property properties)
      ++ [ printNewlineIfNeeded;
           printOnNewline "public var variables: GraphQLMap?";
           withinBlock
             [ printOnNewline
                 (wrap "return ["
                    (orElse
                       (join
                          (map
                             (λ p,
                                Some (quoted (VariableProperty.name p) +:+ ": "
                                      +:+ escapeIdentifierIfNeeded
                                            (Property.propertyName
                                               (VariableProperty.property p))))
                             properties)
                          (Some ", "))
                       ":")
                    "]") ] ]
  | _ => initializerDeclarationForProperties []
  end.

(** The method returns the operation as it leaves it ([operationId] may have
    been assigned) together with what it printed. *)
Definition classDeclarationForOperation (depth : nat) (operation : Operation.t)
    (outputIndividualFiles : bool) : Result (Operation.t * list Emit) :=
  let operationName := Operation.operationName operation in
  let operationType := Operation.operationType operation in
  let variables := Operation.variables operation in
  let source := Operation.source operation in
  let selectionSet := Operation.selectionSet operation in
  '(className, protocol) ← classNameAndProtocol operationName operationType;
  let fragments := CompilerContext.fragments context in
  let modifiers := classModifiers outputIndividualFiles in
  match collectFragmentsReferencedError (Operation.selectionSet operation) fragments with
  | Some error => Throw (VisitorError error)
  | None =>
      let fragmentsReferenced :=
        collectFragmentsReferenced (Operation.selectionSet operation) fragments in
      let '(operation', operationIdentifier) :=
        operationIdentifierDeclaration operation fragmentsReferenced in
      data ←
        structDeclarationForSelectionSet depth "Data" None selectionSet
          outputIndividualFiles None;
      mret
        (operation',
         [ classDeclaration (SwiftClass.make className modifiers [protocol])
             (operationDefinitionDeclaration source
              ++ [ printNewlineIfNeeded;
                   printOnNewline
                     ("public let operationName = " +:+ quoted operationName) ]
              ++ operationIdentifier
              ++ queryDocumentDeclaration fragmentsReferenced
              ++ [ printNewlineIfNeeded ]
              ++ variablesDeclarations variables
              ++ data) ])
  end.

(** *** Enumerations and input objects *)

Definition enumerationDeclaration (type : GraphQLEnumType.t) : list Emit :=
  let name := GraphQLEnumType.name type in
  let description := GraphQLEnumType.description type in
  let values := GraphQLEnumType.getValues type in
  let dotCase (value : GraphQLEnumValue.t) :=
    escapeIdentifierIfNeeded (enumDotCaseName (GraphQLEnumValue.name value)) in
  [ printNewlineIfNeeded;
    comment (orUndefined description);
    printOnNewline
      ("public enum " +:+ name
       +:+ ": RawRepresentable, Equatable, Hashable, CaseIterable, Apollo.JSONDecodable, Apollo.JSONEncodable");
    withinBlock
      ([ printOnNewline "public typealias RawValue = String" ]
       ++ flat_map
            (λ value,
               [ comment (orUndefined (GraphQLEnumValue.description value));
                 deprecationAttributes (GraphQLEnumValue.isDeprecated value)
                   (orUndefined (GraphQLEnumValue.deprecationReason value));
                 printOnNewline
                   ("case "
                    +:+ escapeIdentifierIfNeeded
                          (enumCaseName (GraphQLEnumValue.name value))) ])
            values
       ++ [ comment (Some "Auto generated constant for unknown enum values");
            printOnNewline "case __unknown(RawValue)";
            printNewlineIfNeeded;
            printOnNewline "public init?(rawValue: RawValue)";
            withinBlock
              [ printOnNewline "switch rawValue";
                withinBlock
                  (map
                     (λ value,
                        printOnNewline
                          ("case " +:+ quoted (GraphQLEnumValue.value value)
                           +:+ ": self = " +:+ dotCase value))
                     values
                   ++ [ printOnNewline "default: self = .__unknown(rawValue)" ]) ];
            printNewlineIfNeeded;
            printOnNewline "public var rawValue: RawValue";
            withinBlock
              [ printOnNewline "switch self";
                withinBlock
                  (map
                     (λ value,
                        printOnNewline
                          ("case " +:+ dotCase value +:+ ": return "
                           +:+ quoted (GraphQLEnumValue.value value)))
                     values
                   ++ [ printOnNewline "case .__unknown(let value): return value" ]) ];
            printNewlineIfNeeded;
            printOnNewline
              ("public static func == (lhs: " +:+ name +:+ ", rhs: " +:+ name
               +:+ ") -> Bool");
            withinBlock
              [ printOnNewline "switch (lhs, rhs)";
                withinBlock
                  (map
                     (λ value,
                        let enumDotCaseName := dotCase value in
                        let tuple :=
                          "(" +:+ enumDotCaseName +:+ ", " +:+ enumDotCaseName +:+ ")" in
                        printOnNewline ("case " +:+ tuple +:+ ": return true"))
                     values
                   ++ [ printOnNewline
                          "case (.__unknown(let lhsValue), .__unknown(let rhsValue)): return lhsValue == rhsValue";
                        printOnNewline "default: return false" ]) ];
            printNewlineIfNeeded;
            printOnNewline ("public static var allCases: [" +:+ name +:+ "]");
            withinBlock
              ([ printOnNewline "return [" ]
               ++ map
                    (λ value,
                       let enumDotCaseName := dotCase value in
                       withIndent [ printOnNewline (enumDotCaseName +:+ ",") ])
                    values
               ++ [ printOnNewline "]" ]) ]) ].

Definition structDeclarationForInputObjectType
    (type : GraphQLInputObjectType.t GraphQLType) (outputIndividualFiles : bool)
  : list Emit :=
  let structName := GraphQLInputObjectType.name type in
  let description := GraphQLInputObjectType.description type in
  let adoptedProtocols := ["GraphQLMapConvertible"] in
  let fields := Object_values (GraphQLInputObjectType.getFields type) in
  let properties :=
    map
      (λ field,
         let property := propertyFromInputField field in
         let p := InputFieldProperty.property property in
         if Property.isOptional p
         then InputFieldProperty.make
                (InputFieldProperty.name property)
                (InputFieldProperty.description property)
                (Property.make (Property.propertyName p)
                   ("Swift.Optional<" +:+ Property.typeName p +:+ ">")
                   (Property.isOptional p))
         else property)
      fields in
  [ structDeclaration
      (Struct.make structName (orUndefined description) (Some adoptedProtocols) None)
      outputIndividualFiles
      ([ printOnNewline "public var graphQLMap: GraphQLMap";
         printNewlineIfNeeded;
         printOnNewline "public init";
         print "(";
         print
           (join
              (map (λ p, Some (parameterForProperty (InputFieldProperty.property p)))
                 properties)
              (Some ", "));
         print ")";
         withinBlock
           [ printOnNewline
               (wrap "graphQLMap = ["
                  (orElse
                     (join
                        (map
                           (λ p,
                              Some (quoted (InputFieldProperty.name p) +:+ ": "
                                    +:+ escapeIdentifierIfNeeded
                                          (Property.propertyName
                                             (InputFieldProperty.property p))))
                           properties)
                        (Some ", "))
                     ":")
                  "]") ] ]
       ++ flat_map
            (λ p,
               let name := InputFieldProperty.name p in
               let propertyName :=
                 Property.propertyName (InputFieldProperty.property p) in
               let typeName := Property.typeName (InputFieldProperty.property p) in
               let isOptional := Property.isOptional (InputFieldProperty.property p) in
               [ printNewlineIfNeeded;
                 comment (orUndefined (InputFieldProperty.description p));
                 printOnNewline
                   ("public var " +:+ escapeIdentifierIfNeeded propertyName +:+ ": "
                    +:+ typeName);
                 withinBlock
                   [ printOnNewline "get";
                     withinBlock
                       (if isOptional
                        then [ printOnNewline
                                 ("return graphQLMap[" +:+ quoted name +:+ "] as? "
                                  +:+ typeName +:+ " ?? .none") ]
                        else [ printOnNewline
                                 ("return graphQLMap[" +:+ quoted name +:+ "] as! "
                                  +:+ typeName) ]);
                     printOnNewline "set";
                     withinBlock
                       [ printOnNewline
                           ("graphQLMap.updateValue(newValue, forKey: " +:+ quoted name
                            +:+ ")") ] ] ])
            properties) ].

Definition typeDeclarationForGraphQLType (type : GraphQLType)
    (outputIndividualFiles : bool) : list Emit :=
  match type with
  | EnumType type => enumerationDeclaration type
  | InputObjectType type => structDeclarationForInputObjectType type outputIndividualFiles
  | _ => []
  end.

End SwiftAPIGenerator.

(** ** [generateSource] *)

Section GenerateSource.
Context {printing : Printing} {language : Language}.
Context {helpers : Helpers} {visitors : Visitors}.

(** [Object.values(context.operations).forEach(...)]: the operations that
    satisfy [selected] are declared in turn; each keeps what its
    declaration assigned to it. *)
Fixpoint forEachOperation (context : CompilerContext.t) (depth : nat)
    (outputIndividualFiles : bool) (selected : Operation.t → bool)
    (operations : list (string * Operation.t))
  : Result (list (string * Operation.t) * list Emit) :=
  match operations with
  | [] => mret ([], [])
  | (key, operation) :: operations =>
      '(operation', declaration) ←
        (if selected operation
         then classDeclarationForOperation context depth operation outputIndividualFiles
         else mret (operation, []));
      '(operations', declarations) ←
        forEachOperation context depth outputIndividualFiles selected operations;
      mret ((key, operation') :: operations', declaration ++ declarations)
  end.

Definition forEachFragment (context : CompilerContext.t) (depth : nat)
    (outputIndividualFiles : bool) (selected : Fragment.t → bool)
    (fragments : list Fragment.t) : Result (list Emit) :=
  declarations ←
    mapM
      (λ fragment,
         if selected fragment
         then structDeclarationForFragment context depth fragment outputIndividualFiles
         else mret [])
      fragments;
  mret (concat declarations).

Definition withOperations (context : CompilerContext.t)
    (operations : list (string * Operation.t)) : CompilerContext.t :=
  CompilerContext.make (CompilerContext.typesUsed context) operations
    (CompilerContext.fragments context) (CompilerContext.options context).

(** The file paths of the operations, then of the fragments, as the [Set]
    hands them out. *)
Definition inputFilePaths (context : CompilerContext.t) : list string :=
  foldl Set_add
    (foldl Set_add [] (map Operation.filePath (Object_values (CompilerContext.operations context))))
    (map Fragment.filePath (Object_values (CompilerContext.fragments context))).

(** The loop over the input files of the individual-files mode. *)
Fixpoint forEachInputFile (context : CompilerContext.t) (depth : nat)
    (only : option string) (paths : list string)
  : Result (CompilerContext.t * list Emit) :=
  match paths with
  | [] => mret (context, [])
  | inputFilePath :: paths =>
      if truthyOpt only && negb (bool_decide (Some inputFilePath = only))
      then forEachInputFile context depth only paths
      else
        '(operations, classes) ←
          forEachOperation context depth true
            (λ operation, bool_decide (Operation.filePath operation = inputFilePath))
            (CompilerContext.operations context);
        structs ←
          forEachFragment context depth true
            (λ fragment, bool_decide (Fragment.filePath fragment = inputFilePath))
            (Object_values (CompilerContext.fragments context));
        '(context', files) ←
          forEachInputFile (withOperations context operations) depth only paths;
        mret
          (context',
           withinFile (basename inputFilePath +:+ ".swift")
             (fileHeader
              ++ [ namespaceExtensionDeclaration
                     (CompilerOptions.namespace (CompilerContext.options context))
                     (classes ++ structs) ])
           :: files)
  end.

(** [generateSource] returns what the generator holds at the end, with the
    context as the declarations left it. *)
Definition generateSource (depth : nat) (context : CompilerContext.t)
    (outputIndividualFiles : bool) (only : option string)
  : Result (CompilerContext.t * list Emit) :=
  let namespace := CompilerOptions.namespace (CompilerContext.options context) in
  if outputIndividualFiles then
    '(context', files) ← forEachInputFile context depth only (inputFilePaths context);
    mret
      (context',
       withinFile "Types.graphql.swift"
         (fileHeader
          ++ [ namespaceDeclaration namespace
                 (flat_map (λ type, typeDeclarationForGraphQLType type true)
                    (CompilerContext.typesUsed context)) ])
       :: files)
  else
    '(operations, classes) ←
      forEachOperation context depth false (λ _, true)
        (CompilerContext.operations context);
    structs ←
      forEachFragment context depth false (λ _, true)
        (Object_values (CompilerContext.fragments context));
    mret
      (withOperations context operations,
       fileHeader
       ++ [ namespaceDeclaration namespace
              (flat_map (λ type, typeDeclarationForGraphQLType type false)
                 (CompilerContext.typesUsed context)
               ++ classes ++ structs) ]).

End GenerateSource.

(** ** What the emitted Swift denotes

    Three kinds of emitted code are given a meaning: the getters of the
    narrowing accessors, the raw-value conversions of an enumeration and the
    [queryDocument] of an operation.  Each is a small syntax with a
    [render] function, which gives the lines the generator prints, and an
    evaluation function. *)

Module Swift.

(** The values a result map holds ([Any?]). *)
Inductive Value : Type :=
| VString (s : string)
| VInt (n : Z)
| VBool (b : bool)
| VNull
| VList (l : list Value)
| VMap (m : list (string * Value)).

(** [ResultMap], a dictionary keyed by response key. *)
Abbreviation ResultMap := (gmap string Value).

(** A struct created by [S(unsafeResultMap: resultMap)]: the name of the
    declaration and the map it wraps. *)
Record View : Type := makeView { viewOf : string; resultMap : ResultMap }.

(** A Swift run ends with a value or stops at a failed [!] or [as!]; an
    expression can also name something that is not declared. *)
Inductive Outcome (A : Type) : Type :=
| Returns (a : A)
| Traps
| Undeclared.
Arguments Returns {A}.
Arguments Traps {A}.
Arguments Undeclared {A}.

(** The expressions that read the type discriminator. *)
Inductive Discriminator : Type :=
| TypenameMember
| TypenameSubscript.

(** The statements of a getter. *)
Inductive Statement : Type :=
| ReturnNilUnlessPossibleType (structName : string) (discriminator : Discriminator)
| ReturnView (structName : string).

Definition renderDiscriminator (d : Discriminator) : string :=
  match d with
  | TypenameMember => "__typename"
  | TypenameSubscript => "resultMap[" +:+ quoted "__typename" +:+ "]! as! String"
  end.

Definition render (s : Statement) : string :=
  match s with
  | ReturnNilUnlessPossibleType structName d =>
      "if !" +:+ structName +:+ ".possibleTypes.contains(" +:+ renderDiscriminator d
      +:+ ") { return nil }"
  | ReturnView structName => "return " +:+ structName +:+ "(unsafeResultMap: resultMap)"
  end.

(** The getter of a scalar, non-optional member of type [String]:
    [return resultMap[key]! as! String]. *)
Definition renderStringMemberGetter (responseKey : string) : string :=
  "return resultMap[" +:+ quoted responseKey +:+ "]! as! String".

(** What a getter sees around it: the static [possibleTypes] of the structs
    in scope, by name, and the response key that the member [__typename] of
    the enclosing struct reads, when the struct declares that member. *)
Record Scope : Type := makeScope {
  possibleTypesOf : string → option (list string);
  typenameMemberKey : option string }.

(** [resultMap[key]! as! String]. *)
Definition forcedString (resultMap : ResultMap) (key : string) : Outcome string :=
  match resultMap !! key with
  | Some (VString s) => Returns s
  | _ => Traps
  end.

Definition evalDiscriminator (scope : Scope) (resultMap : ResultMap)
    (d : Discriminator) : Outcome string :=
  match d with
  | TypenameMember =>
      match typenameMemberKey scope with
      | Some key => forcedString resultMap key
      | None => Undeclared
      end
  | TypenameSubscript => forcedString resultMap "__typename"
  end.

(** Runs the statements of a getter of optional type: [Returns None] is
    [nil].  A body that ends without [return] is not a getter. *)
Fixpoint evalGetter (scope : Scope) (resultMap : ResultMap)
    (body : list Statement) : Outcome (option View) :=
  match body with
  | [] => Undeclared
  | ReturnView structName :: _ => Returns (Some (makeView structName resultMap))
  | ReturnNilUnlessPossibleType structName d :: body =>
      match possibleTypesOf scope structName with
      | None => Undeclared
      | Some possibleTypes =>
          match evalDiscriminator scope resultMap d with
          | Returns typename =>
              if bool_decide (typename ∈ possibleTypes)
              then evalGetter scope resultMap body
              else Returns None
          | Traps => Traps
          | Undeclared => Undeclared
          end
      end
  end.

(** *** Enumerations *)

(** A value of an emitted enumeration: one of the declared cases, named as
    the conversions name it, or the catch-all case with its raw string. *)
Inductive EnumValue : Type :=
| Known (dotCaseName : string)
| __unknown (rawValue : string).

(** An arm [case pattern: result] of a [switch]. *)
Record Arm : Type := makeArm { pattern : string; result : string }.

Definition renderInitArm (arm : Arm) : string :=
  "case " +:+ quoted (pattern arm) +:+ ": self = " +:+ result arm.

Definition renderRawValueArm (arm : Arm) : string :=
  "case " +:+ pattern arm +:+ ": return " +:+ quoted (result arm).

(** The first arm whose pattern matches is taken. *)
Definition switch (arms : list Arm) (scrutinee : string) : option string :=
  (λ found, result found.2) <$> list_find (λ arm, pattern arm = scrutinee) arms.

(** [init?(rawValue:)] with its [default: self = .__unknown(rawValue)]. *)
Definition initRawValue (arms : list Arm) (rawValue : string) : EnumValue :=
  match switch arms rawValue with
  | Some dotCaseName => Known dotCaseName
  | None => __unknown rawValue
  end.

(** [var rawValue] with its [case .__unknown(let value): return value]; a
    case without an arm has no raw value. *)
Definition rawValue (arms : list Arm) (value : EnumValue) : option string :=
  match value with
  | Known dotCaseName => switch arms dotCaseName
  | __unknown value => Some value
  end.

(** *** The query document *)

(** [operationDefinition.appending(S1.fragmentDefinition)...]: the constant
    of the class followed by the constants of the named structs. *)
Definition renderAppending (structName : string) : string :=
  ".appending(" +:+ structName +:+ ".fragmentDefinition)".

Fixpoint evalQueryDocument (fragmentDefinitionOf : string → option string)
    (operationDefinition : option string) (structNames : list string)
  : option string :=
  match structNames with
  | [] => operationDefinition
  | structName :: structNames =>
      definition ← fragmentDefinitionOf structName;
      document ← operationDefinition;
      evalQueryDocument fragmentDefinitionOf (Some (document +:+ definition)) structNames
  end.

End Swift.

(** ** From the generator's arguments to the emitted syntax *)

Section EmittedSyntax.
Context {printing : Printing} {language : Language}.
Context {helpers : Helpers} {visitors : Visitors}.

(** The getter that [propertyDeclarationForVariant] prints. *)
Definition variantGetter (variant : VariantProperty.t) : list Swift.Statement :=
  [ Swift.ReturnNilUnlessPossibleType (VariantProperty.structName variant)
      Swift.TypenameMember;
    Swift.ReturnView (VariantProperty.structName variant) ].

(** The getter printed for a fragment spread in the [Fragments] struct. *)
Definition fragmentSpreadGetter (fragmentSpread : FragmentSpreadProperty.t)
  : list Swift.Statement :=
  (if FragmentSpreadProperty.isConditional fragmentSpread
   then [ Swift.ReturnNilUnlessPossibleType
            (FragmentSpreadProperty.structName fragmentSpread) Swift.TypenameSubscript ]
   else [])
  ++ [ Swift.ReturnView (FragmentSpreadProperty.structName fragmentSpread) ].

(** The elements of the array literal [possibleTypes] of the struct declared
    for a variant. *)
Definition staticPossibleTypes (variant : Variant.t) : list string :=
  map GraphQLObjectType.name (Variant.possibleTypes variant).

(** The name under which the conversions of an enumeration know a case. *)
Definition dotCase (value : GraphQLEnumValue.t) : string :=
  escapeIdentifierIfNeeded (enumDotCaseName (GraphQLEnumValue.name value)).

(** The arms of [init?(rawValue:)] and of [rawValue]. *)
Definition initArms (type : GraphQLEnumType.t) : list Swift.Arm :=
  map (λ value, Swift.makeArm (GraphQLEnumValue.value value) (dotCase value))
    (GraphQLEnumType.getValues type).

Definition rawValueArms (type : GraphQLEnumType.t) : list Swift.Arm :=
  map (λ value, Swift.makeArm (dotCase value) (GraphQLEnumValue.value value))
    (GraphQLEnumType.getValues type).

(** The [case] declarations of an enumeration: one for each value, then the
    catch-all. *)
Definition caseDeclarations (type : GraphQLEnumType.t) : list string :=
  map
    (λ value,
       "case " +:+ escapeIdentifierIfNeeded (enumCaseName (GraphQLEnumValue.name value)))
    (GraphQLEnumType.getValues type)
  ++ [ "case __unknown(RawValue)" ].

(** [context.fragments[fragmentName]]. *)
Definition fragmentNamed (context : CompilerContext.t) (fragmentName : string)
  : option Fragment.t :=
  (λ found, found.2.2)
    <$> list_find (λ entry, entry.1 = fragmentName) (CompilerContext.fragments context).

(** The selection sets for which the declaration of [selectionSet] declares
    nested structs: those of the composite fields of the default variant and
    of every other variant of its type case. *)
Definition nestedSelectionSets (context : CompilerContext.t)
    (selectionSet : SelectionSet.t) : list SelectionSet.t :=
  let merge :=
    CompilerOptions.mergeInFieldsFromFragmentSpreads (CompilerContext.options context) in
  let typeCase := typeCaseForSelectionSet selectionSet merge in
  flat_map
    (λ variant,
       omap
         (λ field,
            if isCompositeType (getNamedType (Field.type (FieldProperty.field field)))
            then Field.selectionSet (FieldProperty.field field)
            else None)
         (map propertyFromField (collectAndMergeFields variant merge)))
    (TypeCase.default typeCase
     :: map (λ variant, VariantProperty.variant (propertyFromVariant variant))
          (TypeCase.variants typeCase)).

End EmittedSyntax.

(** ** The [service:check] command *)

Module ServiceCheck.

(** A JavaScript number is an IEEE 754 binary64 value. *)
Abbreviation number := PrimFloat.float.

Definition Number_isNaN (x : number) : bool := PrimFloat.is_nan x.

(** [Number.isInteger]: a finite value without a fractional part. *)
Definition Number_isInteger (x : number) : bool :=
  match FloatOps.Prim2SF x with
  | SpecFloat.S754_zero _ => true
  | SpecFloat.S754_finite _ m e =>
      (0 <=? e)%Z || (Z.pos m mod 2 ^ (- e) =? 0)%Z
  | _ => false
  end.

(** A call ends normally or throws [new Error(message)]. *)
Inductive Completion (A : Type) : Type :=
| Normal (a : A)
| ThrowError (message : string).
Arguments Normal {A}.
Arguments ThrowError {A}.

#[global] Instance Completion_ret : MRet Completion := @Normal.
#[global] Instance Completion_bind : MBind Completion := λ A B f m,
  match m with
  | Normal a => f a
  | ThrowError e => ThrowError e
  end.

Module HistoricQueryParameters.
Record t : Type := make {
  to : number;
  from : number;
  queryCountThreshold : number;
  queryCountThresholdPercentage : number }.
End HistoricQueryParameters.

Section ValidateHistoricParams.

(** [Number(string)], the conversion of the language. *)
Variable Number : string → number.

Definition validateHistoricParams (to from : string)
    (queryCountThreshold queryCountThresholdPercentage : number)
  : Completion HistoricQueryParameters.t :=
  let toNum := Number to in
  let fromNum := Number from in
  if bool_decide (to = "0")
     || Number_isNaN toNum
     || PrimFloat.ltb 0 toNum
     || negb (Number_isInteger toNum)
  then ThrowError
         "Please provide a valid number for the --to flag. Valid numbers are in the range x <= -0."
  else if bool_decide (from = "0")
          || Number_isNaN fromNum
          || PrimFloat.leb toNum fromNum
          || negb (Number_isInteger fromNum)
  then ThrowError
         "Please provide a valid number for the --from flag. Valid numbers are integers in the range x < -0, and --from must be less than --to."
  else if negb (Number_isInteger queryCountThreshold)
          || PrimFloat.ltb queryCountThreshold 1
  then ThrowError
         "Please provide a valid number for the --queryCountThreshold flag. Valid numbers are integers in the range x >= 1."
  else if PrimFloat.ltb queryCountThresholdPercentage 0
          || PrimFloat.ltb 100 queryCountThresholdPercentage
  then ThrowError
         "Please provide a valid number for the --queryCountThresholdPercentage flag. Valid numbers are in the range 0 <= x <= 100."
  else
    let asPercentage := PrimFloat.div queryCountThresholdPercentage 100 in
    Normal
      (HistoricQueryParameters.make toNum fromNum queryCountThreshold asPercentage).

End ValidateHistoricParams.

(** *** [run]

    The types of the schema diff ([../../diff]) and the services behind
    [this.runTasks] are collaborators; [ChangeType] is any type with a
    member [FAILURE]. *)

Definition nl : string :=
  String (Ascii.Ascii false true false true false false false false) EmptyString.

Module Column.
Record t : Type := make { key : string; label : string }.
End Column.

Module Flags.
Record t : Type := make {
  tag : option string;
  from : string;
  to : string;
  queryCountThreshold : number;
  queryCountThresholdPercentage : number;
  frontend : option string }.
End Flags.

(** [config.engine]. *)
Module EngineConfig.
Record t : Type := make { frontend : option string }.
End EngineConfig.

Module Config.
Record t : Type := make {
  name : option string;
  tag : option string;
  engine : EngineConfig.t }.
End Config.

Section Run.
Context {ChangeType : Type} `{EqDecision ChangeType}.
Variable FAILURE : ChangeType.
Context {Row Schema IntrospectionSchema GitContext : Type}.

(** The result of [introspectionFromSchema] of the graphql library, of
    which the command reads [__schema]. *)
Record IntrospectionQuery : Type := makeIntrospectionQuery {
  __schema : IntrospectionSchema }.

Record SchemaChange : Type := makeChange {
  type : ChangeType;
  code : string;
  description : string }.

Record CheckSchemaResult : Type := makeCheckSchemaResult {
  targetUrl : string;
  diffToPrevious_changes : list SchemaChange }.

Record CheckSchemaVariables : Type := makeCheckSchemaVariables {
  id : string;
  schema : IntrospectionSchema;
  tag : option string;
  gitContext : GitContext;
  frontend : option string;
  historicParameters : HistoricQueryParameters.t }.

Variable Number : string → number.
Variable format : SchemaChange → Row.
Variable resolveSchema : string → Completion Schema.
Variable gitInfo : Completion GitContext.
Variable introspectionFromSchema : Schema → Completion IntrospectionQuery.
Variable checkSchema : CheckSchemaVariables → Completion CheckSchemaResult.

(** What the command does to the terminal. *)
Inductive Effect : Type :=
| log (message : string)
| table (rows : list Row) (columns : list Column.t).

(** How [run] ends: it returns, it leaves through [this.exit] of the base
    command, called with a status or without one, or the tasks have
    thrown. *)
Inductive End : Type :=
| returned
| exit (code : option Z)
| thrown (message : string).

(** The task "Checking service for changes". *)
Definition checkingServiceForChanges (config : Config.t) (flags : Flags.t)
  : Completion (GitContext * CheckSchemaResult) :=
  if negb (truthyOpt (Config.name config))
  then ThrowError "No service found to link to Engine"
  else
    let tag :=
      if truthyOpt (Flags.tag flags) then default "current" (Flags.tag flags)
      else if truthyOpt (Config.tag config) then default "current" (Config.tag config)
      else "current" in
    schema ← resolveSchema tag;
    gitContext ← gitInfo;
    historicParameters ←
      validateHistoricParams Number (Flags.to flags) (Flags.from flags)
        (Flags.queryCountThreshold flags) (Flags.queryCountThresholdPercentage flags);
    introspection ← introspectionFromSchema schema;
    checkSchemaResult ←
      checkSchema
        (makeCheckSchemaVariables (default "" (Config.name config))
           (__schema introspection) (Flags.tag flags) gitContext
           (if truthyOpt (Flags.frontend flags) then Flags.frontend flags
            else EngineConfig.frontend (Config.engine config))
           historicParameters);
    mret (gitContext, checkSchemaResult).

(** The part of [run] after the tasks. *)
Definition report (checkSchemaResult : CheckSchemaResult) : list Effect * End :=
  let changes := diffToPrevious_changes checkSchemaResult in
  let failures := filter (λ change, type change = FAILURE) changes in
  if length changes =? 0
  then ([ log (nl +:+ "No changes present between schemas" +:+ nl) ], returned)
  else
    ([ log nl;
       table (map format changes)
         [ Column.make "type" "Change";
           Column.make "code" "Code";
           Column.make "description" "Description" ];
       log nl ],
     if 0 <? length failures then exit None else returned).

Definition run (config : Config.t) (flags : Flags.t) : list Effect * End :=
  match checkingServiceForChanges config flags with
  | ThrowError message => ([], thrown message)
  | Normal (_, checkSchemaResult) => report checkSchemaResult
  end.

End Run.

(** A conversion for the strings the flags take by default and the like:
    an optional minus sign and decimal digits; every other string gives
    [NaN] here. *)
Fixpoint digitsValue (acc : Z) (s : string) : option Z :=
  match s with
  | EmptyString => Some acc
  | String c s =>
      let n := Z.of_nat (Ascii.nat_of_ascii c) in
      if (48 <=? n)%Z && (n <=? 57)%Z then digitsValue (10 * acc + (n - 48)) s
      else None
  end.

Definition floatOfZ (negative : bool) (n : Z) : number :=
  match n with
  | Zpos m =>
      FloatOps.SF2Prim
        (SpecFloat.binary_normalize FloatOps.prec FloatOps.emax
           (if negative then Z.neg m else Z.pos m) 0 false)
  | _ => if negative then PrimFloat.neg_zero else PrimFloat.zero
  end.

Definition NumberOfDecimal (s : string) : number :=
  match s with
  | EmptyString => PrimFloat.zero
  | String c rest =>
      if bool_decide (c = Ascii.Ascii true false true true false true false false) then
        match rest, digitsValue 0 rest with
        | String _ _, Some n => floatOfZ true n
        | _, _ => PrimFloat.nan
        end
      else
        match digitsValue 0 s with
        | Some n => floatOfZ false n
        | None => PrimFloat.nan
        end
  end.

End ServiceCheck.

(** ** The git context of a check ([packages/apollo/src/git.ts])

    [gitInfo] reads the environment of a continuous-integration service
    ([env-ci]), looks for the enclosing git repository and asks git for what
    the environment does not tell.  The file system, [path], [process],
    [env-ci], [git-parse] and [git-rev-sync] are services of the platform; a
    call that can throw, or a promise that can reject, is a [Completion]. *)

Module Git.

(** [s.split(sep)] for a separator of one character. *)
Fixpoint String_split (sep : Ascii.ascii) (s : string) : list string :=
  match s with
  | EmptyString => [EmptyString]
  | String c s =>
      let pieces := String_split sep s in
      if decide (c = sep) then EmptyString :: pieces
      else
        match pieces with
        | piece :: pieces => String c piece :: pieces
        | [] => [String c EmptyString]
        end
  end.

(** [s[s.length - 1]]: [undefined] on the empty string. *)
Definition lastCharacter (s : string) : option Ascii.ascii :=
  match s with
  | EmptyString => None
  | _ => String.get (String.length s - 1) s
  end.

(** What is left of an array after [pop()]. *)
Definition Array_pop {A : Type} (l : list A) : list A := take (length l - 1) l.

(** [a || b] on strings that may be [undefined]. *)
Definition orOpt (a b : option string) : option string :=
  if truthyOpt a then a else b.

Class Platform : Type := {
  path_sep : Ascii.ascii;
  path_join : string → string → string;
  path_normalize : string → string;
  fs_existsSync : string → bool;
  process_cwd : string;
  process_env_BUILD_REPOSITORY_ID : option string;
  String_trim : string → string }.

(** The result of [ci()]. *)
Module EnvCi.
Record t : Type := make {
  isCi : bool;
  commit : option string;
  branch : option string;
  slug : option string;
  root : option string;
  prBranch : option string }.
End EnvCi.

(** A commit as [git-parse] gives it; of the fields beside the author only
    [message] is read. *)
Module Commit.
Record t : Type := make {
  authorName : option string;
  authorEmail : option string;
  message : option string }.
End Commit.

(** [GitContext], as [pickBy] builds it: a key is absent or holds a string. *)
Module GitContext.
Record t : Type := make {
  committer : option string;
  commit : option string;
  message : option string;
  remoteUrl : option string;
  branch : option string }.
End GitContext.

(** [gitToJs] resolves to the commits or rejects; [git.remoteUrl()] and
    [git.branch()] return or throw. *)
Class Services : Type := {
  ci : EnvCi.t;
  gitToJs : string → ServiceCheck.Completion (option (list Commit.t));
  git_remoteUrl : ServiceCheck.Completion string;
  git_branch : ServiceCheck.Completion string }.

(** The calls of [console.time] and [console.timeEnd]. *)
Inductive Console : Type :=
| console_time (label : string)
| console_timeEnd (label : string).

Section GitInfo.
Context {platform : Platform} {services : Services}.

(** The argument of [findGitRoot]. *)
Inductive Start : Type :=
| undefined
| ofString (start : string)
| ofArray (start : list string).

(** The recursion of [findGitRoot] on an array, which loses its last
    element at every call; [remaining] counts the elements. *)
Fixpoint findGitRootIn (remaining : nat) (start : list string) : option string :=
  match remaining with
  | 0 => None
  | S remaining =>
      if length start =? 0 then None
      else
        let start := Array_pop start in
        let dir := String.concat (String path_sep EmptyString) start in
        if fs_existsSync (path_join dir ".git") then Some (path_normalize dir)
        else findGitRootIn remaining start
  end.

(** The array that [findGitRoot] walks for its argument. *)
Definition startComponents (start : Start) : list string :=
  match start with
  | ofArray start => start
  | _ =>
      let start :=
        match start with
        | ofString start => if truthy start then start else process_cwd
        | _ => process_cwd
        end in
      let start :=
        if bool_decide (lastCharacter start = Some path_sep) then start
        else start +:+ String path_sep EmptyString in
      String_split path_sep start
  end.

Definition findGitRoot (start : Start) : option string :=
  let start := startComponents start in
  findGitRootIn (length start) start.

(** [pickBy({committer, commit, remoteUrl, message, branch}, identity)]. *)
Definition pickBy_identity (committer commit remoteUrl message branch : option string)
  : GitContext.t :=
  GitContext.make (orUndefined committer) (orUndefined commit) (orUndefined message)
    (orUndefined remoteUrl) (orUndefined branch).

(** The first commit of the history, or the commit without author and
    message that stands for an empty history and for a rejection. *)
Definition latestCommit (gitLoc : string) : Commit.t :=
  match gitToJs gitLoc with
  | ServiceCheck.Normal (Some (commit :: _)) => commit
  | _ => Commit.make None None None
  end.

Definition committerOf (commit : Commit.t) : string :=
  String_trim
    (default "" (Commit.authorName commit) +:+ " "
     +:+ (if truthyOpt (Commit.authorEmail commit)
          then "<" +:+ default "" (Commit.authorEmail commit) +:+ ">"
          else "")).

(** [gitInfo]: the timers it starts and stops, and the context it resolves
    to, [undefined] ([None]) included. *)
Definition gitInfo : list Console * ServiceCheck.Completion (option GitContext.t) :=
  let isCi := EnvCi.isCi ci in
  let commit := EnvCi.commit ci in
  let ciBranch := EnvCi.branch ci in
  let slug := EnvCi.slug ci in
  let root := EnvCi.root ci in
  let prBranch := EnvCi.prBranch ci in
  let gitLoc := if truthyOpt root then root else findGitRoot undefined in
  let started :=
    [ console_time "gitInfo#ci()"; console_timeEnd "gitInfo#ci()";
      console_time "gitInfo#findGitRoot()"; console_timeEnd "gitInfo#findGitRoot()" ] in
  if negb (truthyOpt commit) then (started, ServiceCheck.Normal None)
  else
    let branch := orOpt ciBranch prBranch in
    let remoteUrl := orOpt slug process_env_BUILD_REPOSITORY_ID in
    if truthyOpt gitLoc then
      let latest := latestCommit (default "" gitLoc) in
      let committer := committerOf latest in
      let message := Commit.message latest in
      let parsed :=
        started
        ++ [ console_time "gitInfo#gitToJs()"; console_timeEnd "gitInfo#gitToJs()" ] in
      let '(remoteUrl, asked) :=
        if negb isCi then
          match git_remoteUrl with
          | ServiceCheck.Normal url =>
              (Some url,
               parsed
               ++ [ console_time "gitInfo#git.remoteUrl()";
                    console_timeEnd "gitInfo#git.remoteUrl()" ])
          | ServiceCheck.ThrowError _ =>
              (remoteUrl, parsed ++ [ console_time "gitInfo#git.remoteUrl()" ])
          end
        else (remoteUrl, parsed) in
      if negb (truthyOpt branch) then
        match git_branch with
        | ServiceCheck.Normal branch =>
            (asked
             ++ [ console_time "gitInfo#git.branch()";
                  console_timeEnd "gitInfo#git.branch()" ],
             ServiceCheck.Normal
               (Some (pickBy_identity (Some committer) commit remoteUrl message
                        (Some branch))))
        | ServiceCheck.ThrowError e =>
            (asked ++ [ console_time "gitInfo#git.branch()" ],
             ServiceCheck.ThrowError e)
        end
      else
        (asked,
         ServiceCheck.Normal
           (Some (pickBy_identity (Some committer) commit remoteUrl message branch)))
    else
      (started,
       ServiceCheck.Normal (Some (pickBy_identity None commit remoteUrl None branch))).

End GitInfo.

End Git.

(** ** An instance of the collaborators

    Simple versions of the printing utilities, the helpers and the visitors,
    on which the generator runs on concrete input. *)

Module Sample.

Definition join (maybeArray : list (option string)) (separator : option string)
  : string :=
  String.concat (default "" separator) (filter (λ x, truthy x = true) (omap id maybeArray)).

Definition wrap (start maybeString end_ : string) : string :=
  if truthy maybeString then start +:+ maybeString +:+ end_ else "".

Definition isList (type : GraphQLType) : bool :=
  isListType type || (isNonNullType type && from_option isListType false (ofType type)).

#[export] Instance printing : Printing := Build_Printing join wrap isList.

#[export] Instance language : Language := Build_Language id id id.

Definition namedTypeName (type : GraphQLType) : string :=
  match type with
  | ScalarType name | InterfaceType name | UnionType name => name
  | ObjectType o => GraphQLObjectType.name o
  | EnumType e => GraphQLEnumType.name e
  | InputObjectType i => GraphQLInputObjectType.name i
  | _ => "Any"
  end.

Fixpoint typeName (nullable : bool) (type : GraphQLType) : string :=
  match type with
  | GraphQLNonNull t => typeName false t
  | GraphQLList t => "[" +:+ typeName true t +:+ "]" +:+ (if nullable then "?" else "")
  | named => namedTypeName named +:+ (if nullable then "?" else "")
  end.

Definition structNameForVariant (variant : Variant.t) : string :=
  "As" +:+ String.concat "Or" (map GraphQLObjectType.name (Variant.possibleTypes variant)).

Definition propertyFromField (field : Field.t SelectionSet.t) : FieldProperty.t :=
  FieldProperty.make field
    (Property.make (Field.responseKey field) (typeName true (Field.type field))
       (default false (Field.isConditional field) || isNullableType (Field.type field)))
    (Field.responseKey field).

Definition propertyFromVariant (variant : Variant.t) : VariantProperty.t :=
  VariantProperty.make variant
    (Property.make ("as" +:+ structNameForVariant variant)
       (structNameForVariant variant +:+ "?") true)
    (structNameForVariant variant).

Definition propertyFromFragmentSpread (fragmentSpread : FragmentSpread.t SelectionSet.t)
    (isConditional : bool) : FragmentSpreadProperty.t :=
  let name := FragmentSpread.fragmentName fragmentSpread in
  FragmentSpreadProperty.make fragmentSpread
    (Property.make name (name +:+ (if isConditional then "?" else "")) isConditional)
    name isConditional.

Definition propertyFromInputField (field : GraphQLInputField.t GraphQLType)
  : InputFieldProperty.t :=
  InputFieldProperty.make (GraphQLInputField.name field)
    (GraphQLInputField.description field)
    (Property.make (GraphQLInputField.name field)
       (typeName true (GraphQLInputField.type field))
       (isNullableType (GraphQLInputField.type field))).

(** The fields selected directly. *)
Definition directFields (selections : list Selection) : list (Field.t SelectionSet.t) :=
  omap (λ selection, match selection with KField f => Some f | _ => None end) selections.

Definition directFragmentSpreads (selections : list Selection)
  : list (FragmentSpread.t SelectionSet.t) :=
  omap (λ selection, match selection with KFragmentSpread s => Some s | _ => None end)
    selections.

Definition propertiesForSelectionSet (selectionSet : SelectionSet.t)
    (namespace : option string) : option (list FieldProperty.t) :=
  Some
    (map propertyFromField
       (filter (λ field, Field.name field ≠ "__typename")
          (directFields (SelectionSet.selections selectionSet)))).

#[export] Instance helpers : Helpers :=
  Build_Helpers
    (* operationClassName *) id
    (* structNameForFragmentName *) id
    (* structNameForPropertyName *) id
    structNameForVariant
    (* typeNameFromGraphQLType *) (λ type _ _, typeName true type)
    (* fieldTypeEnum *) (λ type structName, ".scalar(" +:+ typeName true type +:+ ".self)")
    (* enumCaseName *) id
    (* enumDotCaseName *) (λ name, "." +:+ name)
    (* dictionaryLiteralForFieldArguments *) (λ _, "[:]")
    (* mapExpressionForType *)
    (λ _ _ makeExpression expression _ _, makeExpression expression)
    propertyFromField propertyFromVariant propertyFromFragmentSpread
    propertyFromInputField propertiesForSelectionSet.

(** One variant for each type condition selected directly, with the fields
    of the selection set in front of its own. *)
Definition typeCaseForSelectionSet (selectionSet : SelectionSet.t)
    (mergeInFragmentSpreads : bool) : TypeCase.t :=
  let selections := SelectionSet.selections selectionSet in
  TypeCase.make
    (Variant.make (SelectionSet.possibleTypes selectionSet) selections
       (directFragmentSpreads selections))
    (omap
       (λ selection,
          match selection with
          | KTypeCondition c =>
              let inner := SelectionSet.selections (TypeCondition.selectionSet c) in
              Some
                (Variant.make
                   (SelectionSet.possibleTypes (TypeCondition.selectionSet c))
                   (map KField (directFields selections) ++ inner)
                   (directFragmentSpreads (selections ++ inner)))
          | _ => None
          end)
       selections)
    None.

Definition collectAndMergeFields (variant : Variant.t) (mergeInFragmentSpreads : bool)
  : list (Field.t SelectionSet.t) :=
  directFields (Variant.selections variant).

(** The names of the fragments spread in a selection set, at any depth, in
    the order in which the spreads are met. *)
Fixpoint spreadNames (selectionSet : SelectionSet.t) : list string :=
  flat_map
    (λ selection : Selection,
       match selection with
       | KField f => from_option spreadNames [] (Field.selectionSet f)
       | KTypeCondition c => spreadNames (TypeCondition.selectionSet c)
       | KBooleanCondition c => spreadNames (BooleanCondition.selectionSet c)
       | KFragmentSpread s =>
           FragmentSpread.fragmentName s :: spreadNames (FragmentSpread.selectionSet s)
       end)
    (SelectionSet.selections selectionSet).

Definition collectFragmentsReferenced (selectionSet : SelectionSet.t)
    (fragments : list (string * Fragment.t)) : list string :=
  foldl Set_add [] (spreadNames selectionSet).

(** Modelled from the spec: a spread whose fragment the table of fragments
    does not hold is an unresolved fragment spread, which is fatal to the
    emission.  The error names the first such spread. *)
Definition collectFragmentsReferencedError (selectionSet : SelectionSet.t)
    (fragments : list (string * Fragment.t)) : option string :=
  (λ found, "Unresolved fragment spread " +:+ quoted found.2)
    <$> list_find (λ name, name ∉ map fst fragments) (spreadNames selectionSet).

Definition generateOperationId (operation : Operation.t)
    (fragments : list (string * Fragment.t)) (fragmentsReferenced : list string)
  : GeneratedOperationId.t :=
  GeneratedOperationId.make
    (String.concat "+" (Operation.operationName operation :: fragmentsReferenced)).

#[export] Instance visitors : Visitors :=
  Build_Visitors typeCaseForSelectionSet collectAndMergeFields
    collectFragmentsReferenced collectFragmentsReferencedError generateOperationId.

(** *** A schema and two documents

    [Character] is implemented by [Human] and [Droid]; the query selects
    [hero { __typename name ... on Droid { primaryFunction } ...HeroDetails }]. *)

Definition Human : GraphQLObjectType.t := GraphQLObjectType.make "Human".
Definition Droid : GraphQLObjectType.t := GraphQLObjectType.make "Droid".
Definition Query : GraphQLObjectType.t := GraphQLObjectType.make "Query".
Definition String_ : GraphQLType := ScalarType "String".

Definition scalarField (name : string) (type : GraphQLType) : Selection :=
  KField (Field.make name name None None type None None None None None).

Definition heroDetailsSelectionSet : SelectionSet.t :=
  SelectionSet.make [Droid]
    [ scalarField "__typename" (GraphQLNonNull String_);
      scalarField "primaryFunction" String_ ].

Definition heroSelectionSet : SelectionSet.t :=
  SelectionSet.make [Human; Droid]
    [ scalarField "__typename" (GraphQLNonNull String_);
      scalarField "name" (GraphQLNonNull String_);
      KTypeCondition
        (TypeCondition.make (ObjectType Droid)
           (SelectionSet.make [Droid] [ scalarField "primaryFunction" String_ ]));
      KFragmentSpread (FragmentSpread.make "HeroDetails" None heroDetailsSelectionSet) ].

Definition heroQuerySelectionSet : SelectionSet.t :=
  SelectionSet.make [Query]
    [ KField
        (Field.make "hero" "hero" None None (InterfaceType "Character") None None None
           None (Some heroSelectionSet)) ].

Definition heroVariables : list VariableDefinition.t :=
  [ VariableDefinition.make "episode" (EnumType (GraphQLEnumType.make "Episode" None []));
    VariableDefinition.make "ids" (GraphQLList (GraphQLNonNull String_));
    VariableDefinition.make "first" (GraphQLNonNull (ScalarType "Int")) ].

Definition heroQuery : Operation.t :=
  Operation.make "queries/Hero.graphql" "Hero" "query" (Some heroVariables)
    "query Hero { hero { __typename name ... on Droid { primaryFunction } ...HeroDetails } }"
    heroQuerySelectionSet None.

Definition heroDetails : Fragment.t :=
  Fragment.make "fragments/HeroDetails.graphql" "HeroDetails"
    "fragment HeroDetails on Droid { __typename primaryFunction }"
    heroDetailsSelectionSet.

Definition Episode : GraphQLEnumType.t :=
  GraphQLEnumType.make "Episode" (Some "The episodes in the Star Wars trilogy")
    [ GraphQLEnumValue.make "NEWHOPE" "NEWHOPE" None None None;
      GraphQLEnumValue.make "EMPIRE" "EMPIRE" None None None;
      GraphQLEnumValue.make "JEDI" "JEDI" None None None ].

(** The variant of [hero] for a [Droid], as a property. *)
Definition asDroid : VariantProperty.t :=
  propertyFromVariant
    (Variant.make [ Droid ]
       [ scalarField "__typename" (GraphQLNonNull String_);
         scalarField "name" (GraphQLNonNull String_);
         scalarField "primaryFunction" String_ ]
       [ FragmentSpread.make "HeroDetails" None heroDetailsSelectionSet ]).

Definition context (namespace : option string) (generateOperationIds : bool)
  : CompilerContext.t :=
  CompilerContext.make [ EnumType Episode ]
    [ ("Hero", heroQuery) ] [ ("HeroDetails", heroDetails) ]
    (CompilerOptions.make namespace false generateOperationIds).

End Sample.

(** ** An instance of the services behind the check

    A registry that answers every check with the same two changes. *)

Module SampleCheck.

Inductive ChangeType : Type := FAILURE | WARNING | NOTICE.

#[export] Instance ChangeType_eq_dec : EqDecision ChangeType.
Proof. solve_decision. Defined.

Definition changes : list (ServiceCheck.SchemaChange (ChangeType := ChangeType)) :=
  [ ServiceCheck.makeChange NOTICE "FIELD_ADDED" "Field `Droid.model` was added";
    ServiceCheck.makeChange FAILURE "FIELD_REMOVED" "Field `Droid.name` was removed" ].

Definition format (change : ServiceCheck.SchemaChange (ChangeType := ChangeType))
  : string * string :=
  (ServiceCheck.code change, ServiceCheck.description change).

Definition resolveSchema (tag : string) : ServiceCheck.Completion string :=
  ServiceCheck.Normal ("schema@" +:+ tag).

Definition gitInfo : ServiceCheck.Completion string := ServiceCheck.Normal "main".

Definition introspectionFromSchema (schema : string)
  : ServiceCheck.Completion (ServiceCheck.IntrospectionQuery (IntrospectionSchema := string)) :=
  ServiceCheck.Normal (ServiceCheck.makeIntrospectionQuery ("types of " +:+ schema)).

Definition checkSchema
    (variables :
       ServiceCheck.CheckSchemaVariables (IntrospectionSchema := string)
         (GitContext := string))
  : ServiceCheck.Completion (ServiceCheck.CheckSchemaResult (ChangeType := ChangeType)) :=
  ServiceCheck.Normal
    (ServiceCheck.makeCheckSchemaResult "https://engine.example/check/1" changes).

Definition config : ServiceCheck.Config.t :=
  ServiceCheck.Config.make (Some "my-service") None (ServiceCheck.EngineConfig.make None).

(** A base command that ends the process with status 0 when [run] returns,
    with the status given to [this.exit], and with status 2 after an exit
    without a status or an error. *)
Definition status (ending : ServiceCheck.End) : Z :=
  match ending with
  | ServiceCheck.returned => 0
  | ServiceCheck.exit code => default 2%Z code
  | ServiceCheck.thrown _ => 2
  end.

Definition flags : ServiceCheck.Flags.t :=
  ServiceCheck.Flags.make None "-86400" "-0" 1%float 0%float None.

End SampleCheck.

(** ** An instance of the platform behind [gitInfo]

    Paths with [/]; one repository, at [/home/me/project]; a shell outside
    of any continuous-integration service. *)

Module SampleGit.

Definition slash : Ascii.ascii := Ascii.Ascii true true true true false true false false.
Definition space : Ascii.ascii := Ascii.Ascii false false false false false true false false.

Definition path_join (a b : string) : string :=
  if truthy a then a +:+ String slash EmptyString +:+ b else b.

Definition path_normalize (p : string) : string := if truthy p then p else ".".

Fixpoint trimStart (s : string) : string :=
  match s with
  | String c rest => if decide (c = space) then trimStart rest else s
  | EmptyString => EmptyString
  end.

Definition trim (s : string) : string :=
  String.rev (trimStart (String.rev (trimStart s))).

#[export] Instance platform : Git.Platform :=
  Git.Build_Platform slash path_join path_normalize
    (λ p, bool_decide (p = "/home/me/project/.git"))
    "/home/me/project/packages/apollo" None trim.

Definition history : list Git.Commit.t :=
  [ Git.Commit.make (Some "Ada") (Some "ada@example.org") (Some "Add the check") ].

#[export] Instance services : Git.Services :=
  Git.Build_Services
    (Git.EnvCi.make false (Some "0a1b2c3") (Some "main") None None None)
    (λ _, ServiceCheck.Normal (Some history))
    (ServiceCheck.Normal "git@example.org:me/project.git")
    (ServiceCheck.Normal "main").

(** A run on a continuous-integration service that tells the commit but no
    branch, in a checkout where [git-parse] and [git-rev-sync] fail. *)
Definition detached : Git.Services :=
  Git.Build_Services
    (Git.EnvCi.make true (Some "0a1b2c3") None (Some "me/project")
       (Some "/home/me/project") None)
    (λ _, ServiceCheck.ThrowError "not a git repository")
    (ServiceCheck.ThrowError "not a git repository")
    (ServiceCheck.ThrowError "not a git repository").

(** A run on such a service that tells the branch too, in a checkout whose
    history cannot be read. *)
Definition unreadable : Git.Services :=
  Git.Build_Services
    (Git.EnvCi.make true (Some "0a1b2c3") (Some "main") (Some "me/project")
       (Some "/home/me/project") None)
    (λ _, ServiceCheck.ThrowError "not a git repository")
    (ServiceCheck.ThrowError "not a git repository")
    (ServiceCheck.ThrowError "not a git repository").

(** A shell in which no commit is known. *)
Definition bare : Git.Services :=
  Git.Build_Services (Git.EnvCi.make false None None None None None)
    (λ _, ServiceCheck.Normal (Some history))
    (ServiceCheck.Normal "git@example.org:me/project.git")
    (ServiceCheck.Normal "main").

End SampleGit.

(** ** Vocabulary of the statements *)

(** The operation types the back end renders. *)
Definition supportedOperationType (operationType : string) : Prop :=
  operationType = "query" ∨ operationType = "mutation"
  ∨ operationType = "subscription".

(** Two operations that differ at most in their [operationId]. *)
Definition sameExceptOperationId (a b : Operation.t) : Prop :=
  Operation.filePath a = Operation.filePath b
  ∧ Operation.operationName a = Operation.operationName b
  ∧ Operation.operationType a = Operation.operationType b
  ∧ Operation.variables a = Operation.variables b
  ∧ Operation.source a = Operation.source b
  ∧ Operation.selectionSet a = Operation.selectionSet b.

Section ClassBody.
Context {printing : Printing} {language : Language}.
Context {helpers : Helpers} {visitors : Visitors}.
Variable context : CompilerContext.t.

(** The body of the class, given the identifier declaration and the [Data]
    struct. *)
Definition classBody (operation : Operation.t) (operationIdentifier data : list Emit)
  : list Emit :=
  operationDefinitionDeclaration (Operation.source operation)
  ++ [ printNewlineIfNeeded;
       printOnNewline
         ("public let operationName = " +:+ quoted (Operation.operationName operation)) ]
  ++ operationIdentifier
  ++ queryDocumentDeclaration
       (collectFragmentsReferenced (Operation.selectionSet operation)
          (CompilerContext.fragments context))
  ++ [ printNewlineIfNeeded ]
  ++ variablesDeclarations (Operation.variables operation)
  ++ data.

End ClassBody.

(** Entries of [context.operations] with the same key and operations that
    differ at most in the identifier. *)
Definition sameEntry (before after : string * Operation.t) : Prop :=
  before.1 = after.1 ∧ sameExceptOperationId before.2 after.2.

(** The strings of a list, one after the other. *)
Definition appendAll (l : list string) : string := foldr String.append "" l.

(** [eraseMode] forgets the two places where a declaration records the
    output mode: the modifiers of a class and the [outputIndividualFiles]
    that a struct declaration hands to the base class. *)
Fixpoint eraseMode (e : Emit) : Emit :=
  match e with
  | withIndent closure => withIndent (map eraseMode closure)
  | withinBlock closure => withinBlock (map eraseMode closure)
  | withinFile fileName closure => withinFile fileName (map eraseMode closure)
  | namespaceDeclaration namespace closure =>
      namespaceDeclaration namespace (map eraseMode closure)
  | namespaceExtensionDeclaration namespace closure =>
      namespaceExtensionDeclaration namespace (map eraseMode closure)
  | classDeclaration c closure =>
      classDeclaration
        (SwiftClass.make (SwiftClass.className c) [] (SwiftClass.adoptedProtocols c))
        (map eraseMode closure)
  | structDeclaration s _ closure => structDeclaration s false (map eraseMode closure)
  | e => e
  end.

Section Declarations.
Context {printing : Printing} {language : Language}.
Context {helpers : Helpers} {visitors : Visitors}.
Variable context : CompilerContext.t.
Variable depth : nat.

(** What is printed for one operation, one fragment and the types in a
    mode; nothing for a declaration that throws. *)
Definition classOf (outputIndividualFiles : bool) (operation : Operation.t)
  : list Emit :=
  match classDeclarationForOperation context depth operation outputIndividualFiles with
  | Ok (_, declaration) => declaration
  | Throw _ => []
  end.

Definition structOf (outputIndividualFiles : bool) (fragment : Fragment.t)
  : list Emit :=
  match structDeclarationForFragment context depth fragment outputIndividualFiles with
  | Ok declaration => declaration
  | Throw _ => []
  end.

Definition typesOf (outputIndividualFiles : bool) : list Emit :=
  flat_map (λ type, typeDeclarationForGraphQLType type outputIndividualFiles)
    (CompilerContext.typesUsed context).

(** The file of the individual-files mode for one input file: the classes of
    the operations and the structs of the fragments of that file. *)
Definition fileOf (inputFilePath : string) : Emit :=
  withinFile (basename inputFilePath +:+ ".swift")
    (fileHeader
     ++ [ namespaceExtensionDeclaration
            (CompilerOptions.namespace (CompilerContext.options context))
            (flat_map
               (λ operation,
                  if bool_decide (Operation.filePath operation = inputFilePath)
                  then classOf true operation else [])
               (Object_values (CompilerContext.operations context))
             ++ flat_map
                  (λ fragment,
                     if bool_decide (Fragment.filePath fragment = inputFilePath)
                     then structOf true fragment else [])
                  (Object_values (CompilerContext.fragments context))) ]).

End Declarations.

(** The line that declares the identifier of an operation. *)
Definition operationIdentifierLine (operationId : string) : Emit :=
  printOnNewline ("public let operationIdentifier: String? = " +:+ quoted operationId).

(** The range of the historic parameters: [to] converts to an integer at
    most 0 and is not the literal [0]; [from] converts to an integer below
    that of [to] and is not the literal [0]; the count threshold is an
    integer of at least 1; the percentage is between 0 and 100. *)
Definition withinHistoricRange (Number : string → ServiceCheck.number)
    (to from : string)
    (queryCountThreshold queryCountThresholdPercentage : ServiceCheck.number) : Prop :=
  (to ≠ "0"
   ∧ ServiceCheck.Number_isInteger (Number to) = true
   ∧ PrimFloat.leb (Number to) 0 = true)
  ∧ (from ≠ "0"
     ∧ ServiceCheck.Number_isInteger (Number from) = true
     ∧ PrimFloat.ltb (Number from) (Number to) = true)
  ∧ (ServiceCheck.Number_isInteger queryCountThreshold = true
     ∧ PrimFloat.leb 1 queryCountThreshold = true)
  ∧ (PrimFloat.leb 0 queryCountThresholdPercentage = true
     ∧ PrimFloat.leb queryCountThresholdPercentage 100 = true).

(** *** Directories on the way up from a path *)

Section Directories.
Context {platform : Git.Platform}.

(** The directory that [join(path.sep)] names for the components of a path. *)
Definition directoryOf (components : list string) : string :=
  String.concat (String Git.path_sep EmptyString) components.

(** The directory has an entry [.git]. *)
Definition holdsRepository (dir : string) : Prop :=
  Git.fs_existsSync (Git.path_join dir ".git") = true.

End Directories.

(** *** The environment of [gitInfo] *)

Section GitEnvironment.
Context {platform : Git.Platform} {services : Git.Services}.

(** The repository [gitInfo] works in: the root that the environment names
    or else the repository around the working directory. *)
Definition gitLocation : option string :=
  if truthyOpt (Git.EnvCi.root Git.ci) then Git.EnvCi.root Git.ci
  else Git.findGitRoot Git.undefined.

(** The timers around [ci()] and [findGitRoot()], which every call runs. *)
Definition timersOfEnvironment : list Git.Console :=
  [ Git.console_time "gitInfo#ci()"; Git.console_timeEnd "gitInfo#ci()";
    Git.console_time "gitInfo#findGitRoot()";
    Git.console_timeEnd "gitInfo#findGitRoot()" ].

(** The keys of a context, in the order of the object literal. *)
Definition keysOf (context : Git.GitContext.t) : list (option string) :=
  [ Git.GitContext.committer context; Git.GitContext.commit context;
    Git.GitContext.remoteUrl context; Git.GitContext.message context;
    Git.GitContext.branch context ].

End GitEnvironment.

(** *** The operations of the context after a run *)

Section AfterARun.
Context {printing : Printing} {language : Language}.
Context {helpers : Helpers} {visitors : Visitors}.

(** An operation as its declaration leaves it: with its identifier under
    [generateOperationIds], as it was otherwise. *)
Definition withOperationId (context : CompilerContext.t) (operation : Operation.t)
  : Operation.t :=
  (operationIdentifierDeclaration context operation
     (collectFragmentsReferenced (Operation.selectionSet operation)
        (CompilerContext.fragments context))).1.

(** The operations a run declares: all of them, or in the individual-files
    mode with a file to regenerate, those of that file. *)
Definition declaredIn (outputIndividualFiles : bool) (only : option string)
    (operation : Operation.t) : bool :=
  negb outputIndividualFiles || negb (truthyOpt only)
  || bool_decide (Some (Operation.filePath operation) = only).

(** The file [Types.graphql.swift] of the individual-files mode. *)
Definition typesFile (context : CompilerContext.t) : Emit :=
  withinFile "Types.graphql.swift"
    (fileHeader
     ++ [ namespaceDeclaration
            (CompilerOptions.namespace (CompilerContext.options context))
            (typesOf context true) ]).

(** The error of an operation type that is not rendered. *)
Definition unsupportedOperation (operation : Operation.t) : Failure :=
  GraphQLError
    ("Unsupported operation type " +:+ quoted (Operation.operationType operation)).

End AfterARun.

(** *** Narrowing accessors *)

(** [part] is printed in [whole], without a gap. *)
Definition printedIn (part whole : list Emit) : Prop :=
  ∃ before after, whole = before ++ part ++ after.

(** The declaration of a computed property with the given lines in its
    getter. *)
Definition accessor (name typeName : string) (getter : list string)
    (setter : list Emit) : list Emit :=
  [ printOnNewline ("public var " +:+ name +:+ ": " +:+ typeName);
    withinBlock
      [ printOnNewline "get";
        withinBlock (map printOnNewline getter);
        printOnNewline "set";
        withinBlock setter ] ].

(** What a narrowing getter has to do for a discriminator: give the struct
    over the result map when the discriminator is one of the possible types,
    and [nil] when it is not. *)
Definition narrows (scope : Swift.Scope) (resultMap : gmap string Swift.Value)
    (getter : list Swift.Statement) (structName typename : string)
    (possibleTypes : list string) : Prop :=
  (Swift.evalGetter scope resultMap getter
   = Swift.Returns (Some (Swift.makeView structName resultMap))
   ↔ typename ∈ possibleTypes)
  ∧ (typename ∉ possibleTypes →
     Swift.evalGetter scope resultMap getter = Swift.Returns None).

(** The scope in which one struct is declared, with the given elements of
    its [possibleTypes]. *)
Definition scopeOfStruct (structName : string) (possibleTypes : list string)
    (typenameMemberKey : option string) : Swift.Scope :=
  Swift.makeScope
    (λ name, if decide (name = structName) then Some possibleTypes else None)
    typenameMemberKey.

Section DeclaredPossibleTypes.
Context {printing : Printing}.

(** The static member [possibleTypes] with the given elements. *)
Definition possibleTypesMember (names : list string) : list Emit :=
  [ printOnNewline "public static let possibleTypes = [";
    print (join (map (λ name, Some (quoted name)) names) (Some ", "));
    print "]" ].

(** The declarations hold a struct of the given name, and its block
    declares [possibleTypes] with the given elements. *)
Definition declaresPossibleTypes (structName : string) (names : list string)
    (declarations : list Emit) : Prop :=
  ∃ s outputIndividualFiles body,
    structDeclaration s outputIndividualFiles body ∈ declarations
    ∧ Struct.structName s = structName
    ∧ printedIn (possibleTypesMember names) body.

(** The block holds the struct [Fragments], which declares the accessor. *)
Definition declaresInFragments (declaration members : list Emit) : Prop :=
  ∃ outputIndividualFiles fragments,
    structDeclaration (Struct.make "Fragments" None None None) outputIndividualFiles
      fragments ∈ members
    ∧ printedIn declaration fragments.

End DeclaredPossibleTypes.

Section DeclaredAccessors.
Context {printing : Printing} {language : Language}.
Context {helpers : Helpers} {visitors : Visitors}.

(** The block declares the member [__typename], which reads the string
    under the key [__typename] of the result map. *)
Definition declaresTypename (members : list Emit) : Prop :=
  ∃ setter,
    printedIn
      (accessor "__typename" "String"
         [ Swift.renderStringMemberGetter "__typename" ] setter)
      members.

(** The block declares the accessor of a variant, with its getter. *)
Definition declaresVariantAccessor (variant : VariantProperty.t)
    (members : list Emit) : Prop :=
  ∃ setter,
    printedIn
      (accessor
         (escapeIdentifierIfNeeded
            (Property.propertyName (VariantProperty.property variant)))
         (Property.typeName (VariantProperty.property variant))
         (map Swift.render (variantGetter variant)) setter)
      members.

(** The struct [Fragments] of the block declares the accessor of a fragment
    spread, with its getter. *)
Definition declaresFragmentAccessor (fragmentSpread : FragmentSpreadProperty.t)
    (members : list Emit) : Prop :=
  ∃ setter,
    declaresInFragments
      (accessor
         (escapeIdentifierIfNeeded
            (Property.propertyName (FragmentSpreadProperty.property fragmentSpread)))
         (Property.typeName (FragmentSpreadProperty.property fragmentSpread))
         (map Swift.render (fragmentSpreadGetter fragmentSpread)) setter)
      members.

End DeclaredAccessors.

(** *** The constants of the query document *)

(** The string constant that a block declares at its head under the given
    line, the way the class of an operation declares [operationDefinition]
    and the struct of a fragment [fragmentDefinition]: the multiline string
    that follows the line. *)
Definition leadingConstant (heading : string) (members : list Emit) : option string :=
  match members with
  | commentWithoutTrimming _ :: printOnNewline line
    :: withIndent [ multilineString value ] :: _ =>
      if String.eqb line heading then Some value else None
  | _ => None
  end.

(** The block of the first struct of the given name among the declarations. *)
Fixpoint declaredStruct (structName : string) (declarations : list Emit)
  : option (list Emit) :=
  match declarations with
  | [] => None
  | structDeclaration s _ body :: declarations =>
      if String.eqb (Struct.structName s) structName then Some body
      else declaredStruct structName declarations
  | _ :: declarations => declaredStruct structName declarations
  end.

(** The constant [operationDefinition] that the block of a class declares,
    and the constant [fragmentDefinition] of the struct of the given name
    among the declarations. *)
Definition declaredOperationDefinition (body : list Emit) : option string :=
  leadingConstant "public let operationDefinition =" body.

Definition declaredFragmentDefinition (declarations : list Emit) (structName : string)
  : option string :=
  declaredStruct structName declarations
  ≫= leadingConstant "public static let fragmentDefinition =".

(** The lines that declare [queryDocument] for the structs of the
    referenced fragments. *)
Definition queryDocumentLines (structNames : list string) : list Emit :=
  match structNames with
  | [] => []
  | _ =>
      [ printNewlineIfNeeded;
        printOnNewline "public var queryDocument: String { return operationDefinition" ]
      ++ map (λ structName, print (Swift.renderAppending structName)) structNames
      ++ [ print " }" ]
  end.

(** *** The cases of an enumeration *)

(** [s.startsWith(p)]. *)
Fixpoint startsWith (p s : string) : bool :=
  match p, s with
  | EmptyString, _ => true
  | String a p, String b s => Ascii.eqb a b && startsWith p s
  | String _ _, EmptyString => false
  end.

(** The cases that the block of an enumeration declares: its lines that
    start with [case], in order. *)
Definition declaredCases (members : list Emit) : list string :=
  omap
    (λ member,
       match member with
       | printOnNewline line => if startsWith "case " line then Some line else None
       | _ => None
       end)
    members.

(** *** Equality of the values of an enumeration

    The arms of [switch (lhs, rhs)] in the [==] of an emitted enumeration:
    a pair of the same case, the pair of two unknown values, and the
    default. *)

Inductive EqualityArm : Type :=
| BothCase (dotCaseName : string)
| BothUnknown
| Otherwise.

Definition renderEqualityArm (arm : EqualityArm) : string :=
  match arm with
  | BothCase dotCaseName =>
      "case " +:+ ("(" +:+ dotCaseName +:+ ", " +:+ dotCaseName +:+ ")")
      +:+ ": return true"
  | BothUnknown =>
      "case (.__unknown(let lhsValue), .__unknown(let rhsValue)): return lhsValue == rhsValue"
  | Otherwise => "default: return false"
  end.

(** The first arm that matches the pair is taken; a [switch] without a
    matching arm has no value. *)
Fixpoint evalEquality (arms : list EqualityArm) (lhs rhs : Swift.EnumValue)
  : option bool :=
  match arms with
  | [] => None
  | BothCase dotCaseName :: arms =>
      match lhs, rhs with
      | Swift.Known l, Swift.Known r =>
          if bool_decide (l = dotCaseName) && bool_decide (r = dotCaseName)
          then Some true else evalEquality arms lhs rhs
      | _, _ => evalEquality arms lhs rhs
      end
  | BothUnknown :: arms =>
      match lhs, rhs with
      | Swift.__unknown l, Swift.__unknown r => Some (bool_decide (l = r))
      | _, _ => evalEquality arms lhs rhs
      end
  | Otherwise :: _ => Some false
  end.

#[global] Instance EnumValue_eq_dec : EqDecision Swift.EnumValue.
Proof. solve_decision. Defined.

Section EqualityOfEnumerations.
Context {language : Language} {helpers : Helpers}.

Definition equalityArms (type : GraphQLEnumType.t) : list EqualityArm :=
  map (λ value, BothCase (dotCase value)) (GraphQLEnumType.getValues type)
  ++ [ BothUnknown; Otherwise ].

(** The values of an emitted enumeration: its cases and every unknown
    value. *)
Definition valueOf (type : GraphQLEnumType.t) (value : Swift.EnumValue) : Prop :=
  match value with
  | Swift.Known dotCaseName =>
      dotCaseName ∈ map dotCase (GraphQLEnumType.getValues type)
  | Swift.__unknown _ => True
  end.

End EqualityOfEnumerations.

(** *** Input objects *)

Section InputObjects.
Context {helpers : Helpers}.

(** The property of a field of an input object as the struct declares it:
    the type of an optional property is wrapped in [Swift.Optional<...>]. *)
Definition declaredInputProperty (field : GraphQLInputField.t GraphQLType)
  : InputFieldProperty.t :=
  let property := propertyFromInputField field in
  let p := InputFieldProperty.property property in
  if Property.isOptional p
  then InputFieldProperty.make
         (InputFieldProperty.name property)
         (InputFieldProperty.description property)
         (Property.make (Property.propertyName p)
            ("Swift.Optional<" +:+ Property.typeName p +:+ ">")
            (Property.isOptional p))
  else property.

End InputObjects.

(** * Properties *)

(** ** The result monad *)

Lemma bind_Ok {A B : Type} (m : Result A) (f : A → Result B) (b : B) :
  m ≫= f = Ok b ↔ ∃ a, m = Ok a ∧ f a = Ok b.
Proof.
  destruct m as [a|e]; cbn; split.
  - intros Hf. exists a. auto.
  - intros (a' & Ha & Hf). by simplify_eq.
  - discriminate.
  - intros (a' & Ha & _). discriminate.
Qed.

Lemma bind_Throw {A B : Type} (m : Result A) (f : A → Result B) (e : Failure) :
  m ≫= f = Throw e ↔ m = Throw e ∨ ∃ a, m = Ok a ∧ f a = Throw e.
Proof.
  destruct m as [a|e']; cbn; split.
  - intros Hf. right. exists a. auto.
  - intros [Hm|(a' & Ha & Hf)]; [discriminate|by simplify_eq].
  - intros [= ->]. by left.
  - intros [[= ->]|(a' & Ha & _)]; [done|discriminate].
Qed.

Section ResultLemmas.
Context {A B : Type}.

Lemma mapM_cons (f : A → Result B) (x : A) (l : list A) :
  mapM f (x :: l) = y ← f x; k ← mapM f l; mret (y :: k).
Proof. reflexivity. Qed.

Lemma mapM_Ok (f : A → Result B) (l : list A) (k : list B) :
  mapM f l = Ok k ↔ Forall2 (λ x y, f x = Ok y) l k.
Proof.
  revert k. induction l as [|x l IH]; intros k.
  - split.
    + intros [= <-]. constructor.
    + intros Hk. by inversion Hk.
  - rewrite mapM_cons, bind_Ok. split.
    + intros (y & Hy & Hrest). apply bind_Ok in Hrest as (k' & Hk' & [= <-]).
      constructor; [done|]. by apply IH.
    + intros Hk. inversion Hk as [|? y ? k' Hy Hk']; subst.
      exists y. split; [done|]. apply bind_Ok. exists k'. split; [|done].
      by apply IH.
Qed.

Lemma mapM_Throw (f : A → Result B) (l : list A) (e : Failure) :
  mapM f l = Throw e → ∃ x, x ∈ l ∧ f x = Throw e.
Proof.
  induction l as [|x l IH]; [discriminate|].
  rewrite mapM_cons, bind_Throw. intros [Hx|(y & Hy & Hrest)].
  - exists x. split; [left|done].
  - apply bind_Throw in Hrest as [Hrest|(k & _ & [=])].
    destruct (IH Hrest) as (x' & Hin & Hx'). exists x'. split; [by right|done].
Qed.

Lemma mapM_is_Ok (f : A → Result B) (l : list A) :
  (∀ x, x ∈ l → ∃ y, f x = Ok y) → ∃ k, mapM f l = Ok k.
Proof.
  induction l as [|x l IH]; intros Hl.
  - by exists [].
  - destruct (Hl x) as [y Hy]; [left|].
    destruct IH as [k Hk]; [intros x' Hx'; apply Hl; by right|].
    exists (y :: k). apply mapM_Ok. constructor; [done|]. by apply mapM_Ok.
Qed.

End ResultLemmas.

(** ** Struct declarations *)

Abbreviation StructMethod :=
  (string → option (list string) → SelectionSet.t → bool → option (list Emit) →
   Result (list Emit)).

(** Splits on the [mapM] of the goal, once each element is known to succeed. *)
Ltac mapM_succeeds k Hk :=
  match goal with
  | |- context [mapM ?f ?l] =>
      let H := fresh in
      assert (H : ∀ x, x ∈ l → ∃ y, f x = Ok y);
      [|destruct (mapM_is_Ok f l H) as [k Hk]; clear H]
  end.

Section StructDeclarations.
Context {printing : Printing} {language : Language}.
Context {helpers : Helpers} {visitors : Visitors}.
Variable context : CompilerContext.t.

(** A struct declaration that succeeds is one call of [structDeclaration]. *)
Lemma structDeclarationForVariant_Ok (rec : StructMethod) structName adoptedProtocols
    variant typeCase outputIndividualFiles before after out :
  structDeclarationForVariant context rec structName adoptedProtocols variant typeCase
    outputIndividualFiles before after = Ok out →
  ∃ body,
    out =
      [ structDeclaration
          (Struct.make structName None
             (Some (default ["GraphQLSelectionSet"] adoptedProtocols))
             (CompilerOptions.namespace (CompilerContext.options context)))
          outputIndividualFiles body ].
Proof.
  unfold structDeclarationForVariant. intros Hout.
  apply bind_Ok in Hout as (nested & _ & Hout).
  apply bind_Ok in Hout as (afterwards & _ & [= <-]).
  eauto.
Qed.

(** The only failure below a struct declaration is the depth bound. *)
Lemma structDeclarationForVariant_Throw (rec : StructMethod) structName adoptedProtocols
    variant typeCase outputIndividualFiles before after e :
  (∀ n p s o b e', rec n p s o b = Throw e' → e' = DepthExceeded) →
  (∀ e', after = Some (Throw e') → e' = DepthExceeded) →
  structDeclarationForVariant context rec structName adoptedProtocols variant typeCase
    outputIndividualFiles before after = Throw e →
  e = DepthExceeded.
Proof.
  intros Hrec Hafter. unfold structDeclarationForVariant. intros Hout.
  apply bind_Throw in Hout as [Hnested|(nested & _ & Hout)].
  - apply mapM_Throw in Hnested as (field & _ & Hfield).
    destruct (isCompositeType _); [|discriminate].
    destruct (Field.selectionSet _); [|discriminate].
    by eapply Hrec.
  - apply bind_Throw in Hout as [Hthrow|(afterwards & _ & [=])].
    destruct after as [[?|e']|]; simplify_eq/=. by apply Hafter.
Qed.

Lemma variantDeclarations_Throw (rec : StructMethod) outputIndividualFiles variant e :
  (∀ n p s o b e', rec n p s o b = Throw e' → e' = DepthExceeded) →
  variantDeclarations context rec outputIndividualFiles variant = Throw e →
  e = DepthExceeded.
Proof.
  intros Hrec. unfold variantDeclarations. intros Hout.
  apply bind_Throw in Hout as [Hout|(? & _ & [=])].
  eapply structDeclarationForVariant_Throw; [done| |done]. discriminate.
Qed.

Lemma structDeclarationForSelectionSet_Throw depth structName adoptedProtocols
    selectionSet outputIndividualFiles before e :
  structDeclarationForSelectionSet context depth structName adoptedProtocols
    selectionSet outputIndividualFiles before = Throw e →
  e = DepthExceeded.
Proof.
  revert structName adoptedProtocols selectionSet outputIndividualFiles before e.
  induction depth as [|depth IH]; intros structName adoptedProtocols selectionSet
    outputIndividualFiles before e; simpl.
  - by intros [= <-].
  - intros Hout. eapply structDeclarationForVariant_Throw; [| |exact Hout].
    + intros. by eapply IH.
    + intros e' [= Hafter].
      apply bind_Throw in Hafter as [Hafter|(? & _ & [=])].
      apply mapM_Throw in Hafter as (variant & _ & Hvariant).
      eapply variantDeclarations_Throw; [|done]. intros. by eapply IH.
Qed.

Lemma structDeclarationForSelectionSet_Ok depth structName adoptedProtocols
    selectionSet outputIndividualFiles before out :
  structDeclarationForSelectionSet context depth structName adoptedProtocols
    selectionSet outputIndividualFiles before = Ok out →
  ∃ body,
    out =
      [ structDeclaration
          (Struct.make structName None
             (Some (default ["GraphQLSelectionSet"] adoptedProtocols))
             (CompilerOptions.namespace (CompilerContext.options context)))
          outputIndividualFiles body ].
Proof.
  destruct depth; simpl; [discriminate|]. apply structDeclarationForVariant_Ok.
Qed.

(** *** Enough depth

    When the selection sets nested below a selection set are smaller in
    some measure, a depth above the measure is enough. *)

Section EnoughDepth.
Variable rank : SelectionSet.t → nat.
Hypothesis rank_nested :
  ∀ selectionSet nested,
    nested ∈ nestedSelectionSets context selectionSet → rank nested < rank selectionSet.

Lemma structDeclarationForVariant_is_Ok (rec : StructMethod) structName
    adoptedProtocols variant typeCase outputIndividualFiles before after :
  (∀ field selectionSet,
     field ∈ map propertyFromField
               (collectAndMergeFields variant
                  (CompilerOptions.mergeInFieldsFromFragmentSpreads
                     (CompilerContext.options context))) →
     isCompositeType (getNamedType (Field.type (FieldProperty.field field))) = true →
     Field.selectionSet (FieldProperty.field field) = Some selectionSet →
     ∃ out, rec (FieldProperty.structName field) None selectionSet
              outputIndividualFiles None = Ok out) →
  (∀ r, after = Some r → ∃ out, r = Ok out) →
  ∃ out,
    structDeclarationForVariant context rec structName adoptedProtocols variant
      typeCase outputIndividualFiles before after = Ok out.
Proof.
  intros Hrec Hafter. unfold structDeclarationForVariant.
  mapM_succeeds nested Hnested.
  - intros field Hfield. cbn beta.
    destruct (isCompositeType _) eqn:Hcomposite; [|by eexists].
    destruct (Field.selectionSet _) as [selectionSet|] eqn:HselectionSet; [|by eexists].
    by eapply Hrec.
  - rewrite Hnested. destruct after as [r|].
    + destruct (Hafter r) as [afterwards ->]; [done|]. cbn. eauto.
    + cbn. eauto.
Qed.

Lemma structDeclarationForSelectionSet_is_Ok depth structName adoptedProtocols
    selectionSet outputIndividualFiles before :
  rank selectionSet < depth →
  ∃ out,
    structDeclarationForSelectionSet context depth structName adoptedProtocols
      selectionSet outputIndividualFiles before = Ok out.
Proof.
  revert structName adoptedProtocols selectionSet outputIndividualFiles before.
  induction depth as [|depth IH]; intros structName adoptedProtocols selectionSet
    outputIndividualFiles before Hrank; [lia|]. simpl.
  assert (Hnested : ∀ variant field nested,
    variant ∈ TypeCase.default
                (typeCaseForSelectionSet selectionSet
                   (CompilerOptions.mergeInFieldsFromFragmentSpreads
                      (CompilerContext.options context)))
              :: map (λ variant, VariantProperty.variant (propertyFromVariant variant))
                   (TypeCase.variants
                      (typeCaseForSelectionSet selectionSet
                         (CompilerOptions.mergeInFieldsFromFragmentSpreads
                            (CompilerContext.options context)))) →
    field ∈ map propertyFromField
              (collectAndMergeFields variant
                 (CompilerOptions.mergeInFieldsFromFragmentSpreads
                    (CompilerContext.options context))) →
    isCompositeType (getNamedType (Field.type (FieldProperty.field field))) = true →
    Field.selectionSet (FieldProperty.field field) = Some nested →
    rank nested < depth).
  { intros variant field nested Hvariant Hfield Hcomposite Hsel.
    assert (rank nested < rank selectionSet); [|lia].
    apply rank_nested. unfold nestedSelectionSets.
    apply list_elem_of_In, in_flat_map. exists variant.
    split; [by apply list_elem_of_In|]. apply list_elem_of_In, list_elem_of_omap.
    exists field. split; [done|]. by rewrite Hcomposite. }
  apply structDeclarationForVariant_is_Ok.
  - intros field nested Hfield Hcomposite Hsel. apply IH.
    eapply Hnested; [left|done..].
  - intros r [= <-]. mapM_succeeds declarations Hdeclarations.
    + intros variant Hvariant. unfold variantDeclarations.
      edestruct (structDeclarationForVariant_is_Ok (structDeclarationForSelectionSet
        context depth) (VariantProperty.structName variant) None
        (VariantProperty.variant variant) None outputIndividualFiles None None)
        as [declaration ->]; [| |cbn; eauto].
      * intros field nested Hfield Hcomposite Hsel. apply IH.
        eapply Hnested; [right|done..].
        apply list_elem_of_fmap in Hvariant as (v & -> & Hv).
        apply list_elem_of_fmap. by exists v.
      * discriminate.
    + rewrite Hdeclarations. cbn. eauto.
Qed.

End EnoughDepth.

End StructDeclarations.

(** ** The class of an operation *)

Section OperationClass.
Context {printing : Printing} {language : Language}.
Context {helpers : Helpers} {visitors : Visitors}.
Variable context : CompilerContext.t.

Lemma classNameAndProtocol_Ok operationName operationType className protocol :
  classNameAndProtocol operationName operationType = Ok (className, protocol) ↔
  (operationType = "query"
   ∧ className = operationClassName operationName +:+ "Query"
   ∧ protocol = "GraphQLQuery")
  ∨ (operationType = "mutation"
     ∧ className = operationClassName operationName +:+ "Mutation"
     ∧ protocol = "GraphQLMutation")
  ∨ (operationType = "subscription"
     ∧ className = operationClassName operationName +:+ "Subscription"
     ∧ protocol = "GraphQLSubscription").
Proof.
  unfold classNameAndProtocol.
  repeat case_decide; subst; split;
    try (intros [= <- <-]; auto 10);
    try (intros [(? & -> & ->)|[(? & -> & ->)|(? & -> & ->)]]; done || discriminate).
  all: try discriminate.
  all: intros [(? & _)|[(? & _)|(? & _)]]; done.
Qed.

Lemma classNameAndProtocol_Throw operationName operationType e :
  classNameAndProtocol operationName operationType = Throw e ↔
  ¬ supportedOperationType operationType
  ∧ e = GraphQLError ("Unsupported operation type " +:+ quoted operationType).
Proof.
  unfold classNameAndProtocol, supportedOperationType.
  repeat case_decide; subst; split; try discriminate.
  all: try (intros [Hno _]; exfalso; apply Hno; auto; fail).
  - intros [= <-]. split; [|done]. intros [?|[?|?]]; done.
  - by intros [_ ->].
Qed.

Lemma classDeclarationForOperation_Ok depth operation outputIndividualFiles
    operation' out :
  classDeclarationForOperation context depth operation outputIndividualFiles
  = Ok (operation', out) →
  ∃ className protocol data,
    classNameAndProtocol (Operation.operationName operation)
      (Operation.operationType operation) = Ok (className, protocol)
    ∧ structDeclarationForSelectionSet context depth "Data" None
        (Operation.selectionSet operation) outputIndividualFiles None = Ok data
    ∧ let identifier :=
        operationIdentifierDeclaration context operation
          (collectFragmentsReferenced (Operation.selectionSet operation)
             (CompilerContext.fragments context)) in
      operation' = identifier.1
      ∧ out =
          [ classDeclaration
              (SwiftClass.make className (classModifiers context outputIndividualFiles)
                 [protocol])
              (classBody context operation identifier.2 data) ].
Proof.
  unfold classDeclarationForOperation, classBody. rewrite bind_Ok.
  intros ([className protocol] & Hname & Hrest). cbn beta iota in Hrest.
  destruct (collectFragmentsReferencedError _ _); [done|].
  destruct (operationIdentifierDeclaration _ _ _) as [operation'' identifier].
  apply bind_Ok in Hrest as (data & Hdata & [= <- <-]).
  exists className, protocol, data. auto.
Qed.

(** A declaration is produced only when [collectFragmentsReferenced]
    returned. *)
Lemma classDeclarationForOperation_collected depth operation outputIndividualFiles
    result :
  classDeclarationForOperation context depth operation outputIndividualFiles
  = Ok result →
  collectFragmentsReferencedError (Operation.selectionSet operation)
    (CompilerContext.fragments context) = None.
Proof.
  unfold classDeclarationForOperation. rewrite bind_Ok.
  intros ([className protocol] & _ & Hrest). cbn beta iota in Hrest.
  by destruct (collectFragmentsReferencedError _ _).
Qed.

Lemma classDeclarationForOperation_Throw depth operation outputIndividualFiles e :
  classDeclarationForOperation context depth operation outputIndividualFiles = Throw e →
  (¬ supportedOperationType (Operation.operationType operation)
   ∧ e = GraphQLError
           ("Unsupported operation type "
            +:+ quoted (Operation.operationType operation)))
  ∨ (supportedOperationType (Operation.operationType operation)
     ∧ ∃ error,
         collectFragmentsReferencedError (Operation.selectionSet operation)
           (CompilerContext.fragments context) = Some error
         ∧ e = VisitorError error)
  ∨ (supportedOperationType (Operation.operationType operation) ∧ e = DepthExceeded).
Proof.
  unfold classDeclarationForOperation. rewrite bind_Throw.
  intros [Hname|([className protocol] & Hname & Hrest)].
  - left. by apply classNameAndProtocol_Throw in Hname.
  - right.
    assert (supportedOperationType (Operation.operationType operation)) as Hkind.
    { apply classNameAndProtocol_Ok in Hname. unfold supportedOperationType. tauto. }
    cbn beta iota in Hrest.
    destruct (collectFragmentsReferencedError _ _) as [error|].
    + left. split; [done|]. exists error. by injection Hrest as <-.
    + right. split; [done|].
      destruct (operationIdentifierDeclaration _ _ _) as [operation'' identifier].
      apply bind_Throw in Hrest as [Hdata|(data & _ & [=])].
      by eapply structDeclarationForSelectionSet_Throw.
Qed.

End OperationClass.

(** ** Operation types *)




(** ** The operation identifier *)

Section OperationIdentifier.
Context {printing : Printing} {language : Language}.
Context {helpers : Helpers} {visitors : Visitors}.
Variable context : CompilerContext.t.

(** Without an identifier declaration, no line of the class body declares
    [operationIdentifier]. *)
Lemma classBody_without_identifier operation data s outputIndividualFiles body
    operationId :
  data = [ structDeclaration s outputIndividualFiles body ] →
  operationIdentifierLine operationId ∉ classBody context operation [] data.
Proof.
  intros ->. unfold classBody, operationIdentifierLine.
  unfold operationDefinitionDeclaration, queryDocumentDeclaration,
    variablesDeclarations, initializerDeclarationForProperties,
    parametersForProperties.
  rewrite !elem_of_app, !elem_of_cons, !elem_of_nil.
  intros [Hin|[Hin|[Hin|[Hin|[Hin|[Hin|Hin]]]]]].
  - destruct (truthy _); [|by apply elem_of_nil in Hin].
    rewrite !elem_of_cons, elem_of_nil in Hin.
    destruct Hin as [?|[?|[?|?]]]; [simplify_eq/=..|done].
  - destruct Hin as [?|[?|?]]; [simplify_eq/=..|done].
  - done.
  - destruct (0 <? _); [|by apply elem_of_nil in Hin].
    rewrite !elem_of_app, !elem_of_cons, !elem_of_nil in Hin.
    destruct Hin as [[?|[?|?]]|[Hin|[?|?]]]; [simplify_eq/=..|done| |simplify_eq/=|done].
    apply list_elem_of_fmap in Hin as (? & ? & _). simplify_eq/=.
  - destruct Hin as [?|?]; [simplify_eq/=|done].
  - destruct (Operation.variables operation) as [[|variable variables]|];
      rewrite ?elem_of_app, !elem_of_cons, ?elem_of_app, ?elem_of_cons,
        ?elem_of_nil in Hin; intuition simplify_eq/=.
  - destruct Hin as [?|?]; [simplify_eq/=|done].
Qed.

End OperationIdentifier.



(** ** The frame of the emission *)

Section Frame.
Context {printing : Printing} {language : Language}.
Context {helpers : Helpers} {visitors : Visitors}.

Lemma sameExceptOperationId_refl operation :
  sameExceptOperationId operation operation.
Proof. by repeat split. Qed.

Lemma sameExceptOperationId_trans a b c :
  sameExceptOperationId a b → sameExceptOperationId b c → sameExceptOperationId a c.
Proof.
  unfold sameExceptOperationId. intros (?&?&?&?&?&?) (?&?&?&?&?&?).
  repeat split; congruence.
Qed.

Lemma sameEntry_refl operations : Forall2 sameEntry operations operations.
Proof.
  apply Forall2_same_length_lookup. split; [done|].
  intros i x y Hx Hy. simplify_eq. split; [done|].
  apply sameExceptOperationId_refl.
Qed.

Lemma sameEntry_trans a b c :
  Forall2 sameEntry a b → Forall2 sameEntry b c → Forall2 sameEntry a c.
Proof.
  intros Hab. revert c. induction Hab as [|x y a b [Hk Hxy] Hab IH]; intros c Hbc.
  - by inversion Hbc.
  - inversion Hbc as [|? z ? c' [Hk' Hyz] Hbc']; subst. constructor.
    + split; [congruence|]. by eapply sameExceptOperationId_trans.
    + by apply IH.
Qed.

Lemma classDeclarationForOperation_frame context depth operation
    outputIndividualFiles operation' out :
  classDeclarationForOperation context depth operation outputIndividualFiles
  = Ok (operation', out) →
  sameExceptOperationId operation operation'.
Proof.
  intros Hresult. apply classDeclarationForOperation_Ok in Hresult
    as (_ & _ & _ & _ & _ & -> & _).
  unfold operationIdentifierDeclaration.
  destruct (CompilerOptions.generateOperationIds _); cbn;
    [by repeat split|apply sameExceptOperationId_refl].
Qed.

Lemma forEachOperation_frame context depth outputIndividualFiles selected
    operations operations' out :
  forEachOperation context depth outputIndividualFiles selected operations
  = Ok (operations', out) →
  Forall2 sameEntry operations operations'.
Proof.
  revert operations' out.
  induction operations as [|[key operation] operations IH]; intros operations' out;
    simpl.
  - intros [= <- <-]. constructor.
  - intros Hresult.
    apply bind_Ok in Hresult as ([operation' declaration] & Hoperation & Hresult).
    apply bind_Ok in Hresult as ([rest declarations] & Hrest & [= <- <-]).
    constructor; [|by eapply IH]. split; [done|]. simpl.
    destruct (selected operation).
    + by eapply classDeclarationForOperation_frame.
    + injection Hoperation as <- <-. apply sameExceptOperationId_refl.
Qed.

Lemma forEachInputFile_frame context depth only paths context' out :
  forEachInputFile context depth only paths = Ok (context', out) →
  CompilerContext.typesUsed context' = CompilerContext.typesUsed context
  ∧ CompilerContext.fragments context' = CompilerContext.fragments context
  ∧ CompilerContext.options context' = CompilerContext.options context
  ∧ Forall2 sameEntry (CompilerContext.operations context)
      (CompilerContext.operations context').
Proof.
  revert context context' out.
  induction paths as [|inputFilePath paths IH]; intros context context' out; simpl.
  - intros [= <- <-]. repeat split. apply sameEntry_refl.
  - destruct (truthyOpt only && _); [apply IH|].
    intros Hresult.
    apply bind_Ok in Hresult as ([operations classes] & Hclasses & Hresult).
    apply bind_Ok in Hresult as (structs & _ & Hresult).
    apply bind_Ok in Hresult as ([context'' files] & Hfiles & [= <- <-]).
    apply IH in Hfiles as (-> & -> & -> & Hoperations).
    repeat split. eapply sameEntry_trans; [|exact Hoperations].
    by eapply forEachOperation_frame.
Qed.

End Frame.

(** C8.  Declaring an operation returns it with every field but
    [operationId] as it was, and a run of [generateSource] leaves the types,
    the fragments and the options of the context as they were and the
    operations under their keys, with every field but [operationId]
    unchanged. *)
Theorem emission_changes_operationId_only
    {printing : Printing} {language : Language} {helpers : Helpers}
    {visitors : Visitors} (context : CompilerContext.t) (depth : nat)
    (outputIndividualFiles : bool) :
  (∀ operation operation' out,
     classDeclarationForOperation context depth operation outputIndividualFiles
     = Ok (operation', out) →
     sameExceptOperationId operation operation')
  ∧ (∀ only context' out,
       generateSource depth context outputIndividualFiles only = Ok (context', out) →
       CompilerContext.typesUsed context' = CompilerContext.typesUsed context
       ∧ CompilerContext.fragments context' = CompilerContext.fragments context
       ∧ CompilerContext.options context' = CompilerContext.options context
       ∧ Forall2 sameEntry (CompilerContext.operations context)
           (CompilerContext.operations context')).
Proof.
  split.
  - intros operation operation' out. apply classDeclarationForOperation_frame.
  - intros only context' out. unfold generateSource.
    destruct outputIndividualFiles.
    + intros Hresult.
      apply bind_Ok in Hresult as ([context'' files] & Hfiles & [= <- <-]).
      by eapply forEachInputFile_frame.
    + intros Hresult.
      apply bind_Ok in Hresult as ([operations classes] & Hclasses & Hresult).
      apply bind_Ok in Hresult as (structs & _ & [= <- <-]).
      repeat split. by eapply forEachOperation_frame.
Qed.

(** The run over the instance, with identifiers, leaves its fragment table
    as it was. *)
Lemma emission_frame_witness :
  ∃ context' out,
    @generateSource Sample.printing Sample.language Sample.helpers Sample.visitors 5
      (Sample.context None true) true None = Ok (context', out)
    ∧ CompilerContext.fragments context'
      = CompilerContext.fragments (Sample.context None true).
Proof.
  eexists _, _. split; [reflexivity|].
  eapply (proj2 (@emission_changes_operationId_only Sample.printing Sample.language
            Sample.helpers Sample.visitors (Sample.context None true) 5 true)
            None _ _ eq_refl).
Defined.

(** ** The query document *)

Lemma string_app_nil_r (s : string) : s +:+ "" = s.
Proof.
  induction s as [|c s IH]; [done|].
  change (String c (s +:+ "") = String c s). by rewrite IH.
Qed.

Lemma string_app_assoc (a b c : string) : (a +:+ b) +:+ c = a +:+ (b +:+ c).
Proof.
  induction a as [|x a IH]; [done|].
  change (String x ((a +:+ b) +:+ c) = String x (a +:+ (b +:+ c))). by rewrite IH.
Qed.

Section QueryDocument.
Context {printing : Printing} {language : Language}.
Context {helpers : Helpers} {visitors : Visitors}.
Variable context : CompilerContext.t.

Lemma structDeclarationForFragment_Ok depth fragment outputIndividualFiles out :
  structDeclarationForFragment context depth fragment outputIndividualFiles = Ok out →
  ∃ members,
    out
    = [ structDeclaration
          (Struct.make (structNameForFragmentName (Fragment.fragmentName fragment))
             None (Some ["GraphQLFragment"])
             (CompilerOptions.namespace (CompilerContext.options context)))
          outputIndividualFiles
          ((if truthy (Fragment.source fragment)
            then [ commentWithoutTrimming (Fragment.source fragment);
                   printOnNewline "public static let fragmentDefinition =";
                   withIndent [ multilineString (Fragment.source fragment) ] ]
            else [])
           ++ possibleTypesDeclaration
                (TypeCase.default
                   (typeCaseForSelectionSet (Fragment.selectionSet fragment)
                      (CompilerOptions.mergeInFieldsFromFragmentSpreads
                         (CompilerContext.options context))))
           ++ members) ].
Proof.
  unfold structDeclarationForFragment. destruct depth as [|depth]; [discriminate|].
  cbn [structDeclarationForSelectionSet]. unfold structDeclarationForVariant.
  intros Hout.
  apply bind_Ok in Hout as (nested & _ & Hout).
  apply bind_Ok in Hout as (afterwards & _ & [= <-]).
  cbn [default from_option]. eexists. do 3 f_equal.
Qed.

(** Among the structs declared for a list of fragments, a struct name
    denotes the constant of the first fragment that is declared under it. *)
Lemma declaredFragmentDefinition_forEachFragment depth outputIndividualFiles
    fragments structs structName :
  forEachFragment context depth outputIndividualFiles (λ _, true) fragments
  = Ok structs →
  declaredFragmentDefinition structs structName
  = '(_, fragment) ←
      list_find
        (λ fragment,
           structNameForFragmentName (Fragment.fragmentName fragment) = structName)
        fragments;
    if truthy (Fragment.source fragment) then Some (Fragment.source fragment) else None.
Proof.
  unfold forEachFragment. intros Hstructs.
  apply bind_Ok in Hstructs as (declarations & Hdeclarations & [= <-]).
  revert declarations Hdeclarations.
  induction fragments as [|fragment fragments IH]; intros declarations Hdeclarations.
  - injection Hdeclarations as <-. reflexivity.
  - rewrite mapM_cons in Hdeclarations.
    apply bind_Ok in Hdeclarations as (declaration & Hdeclaration & Hrest).
    apply bind_Ok in Hrest as (rest & Hrest & [= <-]).
    specialize (IH rest Hrest).
    destruct (structDeclarationForFragment_Ok _ _ _ _ Hdeclaration) as [members ->].
    cbn [concat app]. unfold declaredFragmentDefinition in *.
    cbn [declaredStruct Struct.structName list_find].
    destruct (decide (structNameForFragmentName (Fragment.fragmentName fragment)
                      = structName)) as [Hname|Hname].
    + rewrite (proj2 (String.eqb_eq _ _) Hname). cbn.
      by destruct (truthy (Fragment.source fragment)).
    + rewrite (proj2 (String.eqb_neq _ _) Hname). rewrite IH.
      by destruct (list_find _ fragments) as [[i found]|].
Qed.

(** A name of the fragment table finds its own fragment under the struct
    name of that fragment, when the struct names of the table are distinct. *)
Lemma list_find_structName fragmentName fragment :
  (∀ f g,
     f ∈ Object_values (CompilerContext.fragments context) →
     g ∈ Object_values (CompilerContext.fragments context) →
     structNameForFragmentName (Fragment.fragmentName f)
     = structNameForFragmentName (Fragment.fragmentName g) →
     f = g) →
  fragmentNamed context fragmentName = Some fragment →
  Fragment.fragmentName fragment = fragmentName →
  ∃ i,
    list_find
      (λ f, structNameForFragmentName (Fragment.fragmentName f)
            = structNameForFragmentName fragmentName)
      (Object_values (CompilerContext.fragments context))
    = Some (i, fragment).
Proof.
  intros Hinj Hnamed Hname. unfold fragmentNamed in Hnamed.
  destruct (list_find _ (CompilerContext.fragments context))
    as [[i [key found]]|] eqn:Hfind; [|discriminate].
  injection Hnamed as Hfound. cbn in Hfound. subst found.
  apply list_find_Some in Hfind as (Hi & _ & _).
  assert (Hin : fragment ∈ Object_values (CompilerContext.fragments context)).
  { unfold Object_values. apply list_elem_of_fmap. exists (key, fragment).
    split; [done|]. by eapply list_elem_of_lookup_2. }
  subst fragmentName.
  destruct (list_find_elem_of
              (λ f, structNameForFragmentName (Fragment.fragmentName f)
                    = structNameForFragmentName (Fragment.fragmentName fragment))
              _ fragment Hin eq_refl) as [[j found] Hfound].
  exists j. rewrite Hfound.
  apply list_find_Some in Hfound as (Hj & Hsame & _).
  assert (found = fragment) as ->; [|done].
  apply Hinj; [by eapply list_elem_of_lookup_2|done|done].
Qed.

(** The document that the appended constants denote. *)
Lemma evalQueryDocument_None definitionOf structNames :
  Swift.evalQueryDocument definitionOf None structNames = None.
Proof.
  destruct structNames as [|structName structNames]; [done|].
  cbn. by destruct (definitionOf structName).
Qed.

Lemma evalQueryDocument_sources definitionOf document fragmentNames referenced :
  Forall2
    (λ fragmentName fragment,
       definitionOf (structNameForFragmentName fragmentName)
       = if truthy (Fragment.source fragment) then Some (Fragment.source fragment)
         else None)
    fragmentNames referenced →
  Swift.evalQueryDocument definitionOf (Some document)
    (map structNameForFragmentName fragmentNames)
  = if forallb (λ fragment, truthy (Fragment.source fragment)) referenced
    then Some (document +:+ appendAll (map Fragment.source referenced))
    else None.
Proof.
  intros Hreferenced. revert document.
  induction Hreferenced as [|fragmentName fragment fragmentNames referenced Hhere _ IH];
    intros document.
  - cbn. change (Some document = Some (document +:+ "")).
    by rewrite string_app_nil_r.
  - cbn [map Swift.evalQueryDocument forallb]. rewrite Hhere.
    destruct (truthy (Fragment.source fragment)); cbn [andb].
    + cbn. rewrite IH. destruct (forallb _ referenced); [|done].
      cbn. by rewrite string_app_assoc.
    + done.
Qed.

Lemma queryDocumentDeclaration_lines (fragmentsReferenced : list string) :
  queryDocumentDeclaration fragmentsReferenced
  = queryDocumentLines (map structNameForFragmentName fragmentsReferenced).
Proof.
  unfold queryDocumentDeclaration, queryDocumentLines.
  destruct fragmentsReferenced as [|fragmentName fragmentsReferenced]; [done|].
  cbn [length Nat.ltb Nat.leb map]. by rewrite map_map.
Qed.

Lemma Forall2_exists {A B : Type} (P : A → B → Prop) (l : list A) :
  (∀ x, x ∈ l → ∃ y, P x y) → ∃ k, Forall2 P l k.
Proof.
  induction l as [|x l IH]; intros Hl.
  - by exists [].
  - destruct (Hl x) as [y Hy]; [left|].
    destruct IH as [k Hk]; [intros x' Hx'; apply Hl; by right|].
    exists (y :: k). by constructor.
Qed.

End QueryDocument.



(** ** The parameters of the initializer *)

Lemma Sample_join_two (a b : string) :
  Sample.join [Some a; Some b] None = a +:+ b.
Proof.
  unfold Sample.join. cbn.
  destruct a as [|x a], b as [|y b]; cbn; try done.
  by rewrite string_app_nil_r.
Qed.

Lemma Sample_join_one (a : string) : Sample.join [Some a; None] None = a.
Proof. unfold Sample.join. cbn. by destruct a. Qed.

(** C5, as the specification has it, fails on a nullable list of non-null
    elements: the variable [ids] of type [[String!]] is nullable, yet its
    property is not optional and its parameter has no default. *)
Lemma nullable_list_variable_has_no_default :
  let variable :=
    VariableDefinition.make "ids" (GraphQLList (GraphQLNonNull (ScalarType "String"))) in
  let property :=
    VariableProperty.property (@propertyFromVariable Sample.helpers variable) in
  isNullableType (VariableDefinition.type variable) = true
  ∧ Property.isOptional property = false
  ∧ @parameterForProperty Sample.printing Sample.language property = "ids: [String]?".
Proof. repeat split. Qed.

(** C5, amended.  The property of a variable is optional, and its parameter
    ends with the default [ = nil], exactly when the type of the variable is
    neither non-null nor a list of non-null elements; the parameter of any
    other variable is the name and the type name alone.  The initializer of
    the class prints these parameters, joined.  The two hypotheses say how
    [join] treats an array of two strings, or of one string and [false],
    without a separator. *)
Theorem variable_parameter_default
    {printing : Printing} {language : Language} {helpers : Helpers}
    (variable : VariableDefinition.t) :
  (∀ a b, join [Some a; Some b] None = a +:+ b) →
  (∀ a, join [Some a; None] None = a) →
  let type := VariableDefinition.type variable in
  let property := VariableProperty.property (propertyFromVariable variable) in
  let declaration :=
    escapeIdentifierIfNeeded (VariableDefinition.name variable) +:+ ": "
    +:+ typeNameFromGraphQLType type None None in
  match type with
  | GraphQLNonNull _ | GraphQLList (GraphQLNonNull _) =>
      Property.isOptional property = false
      ∧ parameterForProperty property = declaration
  | _ =>
      Property.isOptional property = true
      ∧ parameterForProperty property = declaration +:+ " = nil"
  end
  ∧ ∀ variables,
      variable ∈ variables →
      ∃ before after,
        variablesDeclarations (Some variables)
        = before
          ++ [ print "(";
               print
                 (join
                    (map (λ variable,
                            Some (parameterForProperty
                                    (VariableProperty.property
                                       (propertyFromVariable variable))))
                       variables)
                    (Some ", "));
               print ")" ]
          ++ after.
Proof.
  intros Htwo Hone type property declaration. split.
  - subst type property declaration. unfold parameterForProperty, propertyFromVariable.
    destruct (VariableDefinition.type variable) as [| | | | | |[]|]; cbn;
      rewrite ?Htwo, ?Hone, ?string_app_assoc; done.
  - intros variables Hin. destruct variables as [|first variables].
    { by apply elem_of_nil in Hin. }
    unfold variablesDeclarations, initializerDeclarationForProperties,
      parametersForProperties.
    eexists [_; _; _], _. cbn [app]. rewrite !map_map. reflexivity.
Qed.

(** The nullable variable [episode] of the instance gets the default. *)
Lemma variable_parameter_witness :
  @parameterForProperty Sample.printing Sample.language
    (VariableProperty.property
       (@propertyFromVariable Sample.helpers
          (VariableDefinition.make "episode"
             (EnumType (GraphQLEnumType.make "Episode" None [])))))
  = "episode: Episode? = nil".
Proof.
  exact (proj2 (proj1 (@variable_parameter_default Sample.printing Sample.language
           Sample.helpers
           (VariableDefinition.make "episode"
              (EnumType (GraphQLEnumType.make "Episode" None [])))
           Sample_join_two Sample_join_one))).
Defined.

(** ** Narrowing accessors *)

Lemma printedIn_app_l (part a b : list Emit) :
  printedIn part a → printedIn part (a ++ b).
Proof.
  intros (before & after & ->). exists before, (after ++ b).
  by rewrite <- !app_assoc.
Qed.

Lemma printedIn_app_r (part a b : list Emit) :
  printedIn part b → printedIn part (a ++ b).
Proof.
  intros (before & after & ->). exists (a ++ before), after.
  by rewrite <- !app_assoc.
Qed.

Lemma printedIn_concat (part l : list Emit) (ls : list (list Emit)) :
  l ∈ ls → printedIn part l → printedIn part (concat ls).
Proof.
  intros Hin Hpart. induction ls as [|l' ls IH]; [by apply elem_of_nil in Hin|].
  cbn. apply elem_of_cons in Hin as [<-|Hin].
  - by apply printedIn_app_l.
  - by apply printedIn_app_r, IH.
Qed.

Lemma printedIn_flat_map {A : Type} (f : A → list Emit) (part : list Emit)
    (x : A) (xs : list A) :
  x ∈ xs → printedIn part (f x) → printedIn part (flat_map f xs).
Proof.
  intros Hin Hpart. induction xs as [|x' xs IH]; [by apply elem_of_nil in Hin|].
  cbn. apply elem_of_cons in Hin as [<-|Hin].
  - by apply printedIn_app_l.
  - by apply printedIn_app_r, IH.
Qed.

Lemma elem_of_concat_2 {A : Type} (x : A) (l : list A) (ls : list (list A)) :
  l ∈ ls → x ∈ l → x ∈ concat ls.
Proof.
  intros Hin Hx. induction ls as [|l' ls IH]; [by apply elem_of_nil in Hin|].
  cbn. rewrite elem_of_app. apply elem_of_cons in Hin as [<-|Hin]; auto.
Qed.

Lemma Ok_inj {A : Type} (a b : A) : Ok a = Ok b → a = b.
Proof. by intros [=]. Qed.

Section NarrowingAccessors.
Context {printing : Printing} {language : Language}.
Context {helpers : Helpers} {visitors : Visitors}.
Variable context : CompilerContext.t.

(** The getter of a fragment spread is printed statement by statement. *)
Lemma getterForFragmentSpread_render (fragmentSpread : FragmentSpreadProperty.t) :
  getterForFragmentSpread (FragmentSpreadProperty.structName fragmentSpread)
    (FragmentSpreadProperty.isConditional fragmentSpread)
  = map (λ statement, printOnNewline (Swift.render statement))
      (fragmentSpreadGetter fragmentSpread).
Proof.
  unfold getterForFragmentSpread, fragmentSpreadGetter.
  by destruct (FragmentSpreadProperty.isConditional fragmentSpread).
Qed.

(** The block of a struct declaration, part by part. *)
Lemma structDeclarationForVariant_body (rec : StructMethod) structName
    adoptedProtocols variant typeCase outputIndividualFiles before after out :
  structDeclarationForVariant context rec structName adoptedProtocols variant typeCase
    outputIndividualFiles before after = Ok out →
  ∃ s heading middle nested afterwards,
    out
    = [ structDeclaration s outputIndividualFiles
          (heading ++ possibleTypesDeclaration variant ++ middle
           ++ flat_map propertyDeclarationForField
                (map propertyFromField
                   (collectAndMergeFields variant
                      (CompilerOptions.mergeInFieldsFromFragmentSpreads
                         (CompilerContext.options context))))
           ++ fragmentsDeclaration (fragmentSpreadProperties variant)
                outputIndividualFiles
           ++ nested ++ afterwards) ]
    ∧ Struct.structName s = structName
    ∧ default (mret []) after = Ok afterwards.
Proof.
  unfold structDeclarationForVariant. intros Hout.
  apply bind_Ok in Hout as (nested & _ & Hout).
  apply bind_Ok in Hout as (afterwards & Hafter & Hout).
  apply Ok_inj in Hout. subst out.
  match goal with
  | |- context [possibleTypesDeclaration variant ++ ?a ++ ?b ++ ?c ++ ?d
                ++ flat_map _ _ ++ _] =>
      eexists (Struct.make structName None _ _), (default [] before),
        (a ++ b ++ c ++ d), (concat nested), afterwards
  end.
  split; [|by split]. by rewrite <- !app_assoc.
Qed.

Lemma possibleTypesDeclaration_member (variant : Variant.t) :
  possibleTypesDeclaration variant
  = printNewlineIfNeeded :: possibleTypesMember (staticPossibleTypes variant).
Proof.
  unfold possibleTypesDeclaration, possibleTypesMember, staticPossibleTypes.
  by rewrite map_map.
Qed.

(** The accessors, as they are declared. *)
Lemma propertyDeclarationForVariant_accessor (variant : VariantProperty.t) :
  ∃ setter,
    printedIn
      (accessor
         (escapeIdentifierIfNeeded
            (Property.propertyName (VariantProperty.property variant)))
         (Property.typeName (VariantProperty.property variant))
         (map Swift.render (variantGetter variant)) setter)
      (propertyDeclarationForVariant variant).
Proof.
  eexists. exists [ printNewlineIfNeeded ], []. reflexivity.
Qed.

Lemma propertyDeclarationForFragmentSpread_accessor
    (fragmentSpread : FragmentSpreadProperty.t) :
  ∃ setter,
    printedIn
      (accessor
         (escapeIdentifierIfNeeded
            (Property.propertyName (FragmentSpreadProperty.property fragmentSpread)))
         (Property.typeName (FragmentSpreadProperty.property fragmentSpread))
         (map Swift.render (fragmentSpreadGetter fragmentSpread)) setter)
      (propertyDeclarationForFragmentSpread fragmentSpread).
Proof.
  eexists. exists [ printNewlineIfNeeded ], [].
  unfold propertyDeclarationForFragmentSpread, accessor.
  rewrite getterForFragmentSpread_render, map_map. reflexivity.
Qed.

Lemma propertyDeclarationForField_accessor (field : FieldProperty.t) :
  isCompositeType (getNamedType (Field.type (FieldProperty.field field))) = false →
  Property.isOptional (FieldProperty.property field) = false →
  Property.typeName (FieldProperty.property field) = "String" →
  ∃ setter,
    printedIn
      (accessor
         (escapeIdentifierIfNeeded
            (Property.propertyName (FieldProperty.property field)))
         "String"
         [ Swift.renderStringMemberGetter
             (Field.responseKey (FieldProperty.field field)) ]
         setter)
      (propertyDeclarationForField field).
Proof.
  intros Hscalar Hrequired HtypeName. unfold propertyDeclarationForField.
  rewrite Hscalar, Hrequired, HtypeName.
  eexists. eexists [ _; _; _ ], []. reflexivity.
Qed.

Lemma fragmentsDeclaration_accessor (fragmentSpreads : list FragmentSpreadProperty.t)
    (outputIndividualFiles : bool) (fragmentSpread : FragmentSpreadProperty.t) :
  fragmentSpread ∈ fragmentSpreads →
  ∃ setter,
    declaresInFragments
      (accessor
         (escapeIdentifierIfNeeded
            (Property.propertyName (FragmentSpreadProperty.property fragmentSpread)))
         (Property.typeName (FragmentSpreadProperty.property fragmentSpread))
         (map Swift.render (fragmentSpreadGetter fragmentSpread)) setter)
      (fragmentsDeclaration fragmentSpreads outputIndividualFiles).
Proof.
  intros Hin.
  destruct (propertyDeclarationForFragmentSpread_accessor fragmentSpread)
    as [setter Hprinted].
  exists setter. unfold fragmentsDeclaration, declaresInFragments.
  destruct fragmentSpreads as [|first rest]; [by apply elem_of_nil in Hin|].
  cbn [length Nat.ltb Nat.leb]. eexists _, _. split.
  - do 3 (apply elem_of_cons; right). left.
  - apply printedIn_app_r. by eapply printedIn_flat_map.
Qed.

Lemma declaresInFragments_mono (declaration part whole : list Emit) :
  (∀ e, e ∈ part → e ∈ whole) →
  declaresInFragments declaration part → declaresInFragments declaration whole.
Proof.
  intros Hsub (mode & fragments & Hin & Hprinted). exists mode, fragments. auto.
Qed.

(** The getters narrow. *)
Lemma variantGetter_narrows (variant : VariantProperty.t) possibleTypes
    (resultMap : gmap string Swift.Value) typename key :
  resultMap !! key = Some (Swift.VString typename) →
  narrows (scopeOfStruct (VariantProperty.structName variant) possibleTypes (Some key))
    resultMap (variantGetter variant) (VariantProperty.structName variant) typename
    possibleTypes.
Proof.
  intros Htypename. unfold narrows, variantGetter, scopeOfStruct. cbn.
  rewrite decide_True by done. unfold Swift.forcedString. rewrite Htypename.
  case_bool_decide; split; try done; by intros [=].
Qed.

Lemma fragmentSpreadGetter_narrows (fragmentSpread : FragmentSpreadProperty.t)
    possibleTypes (resultMap : gmap string Swift.Value) typename key :
  FragmentSpreadProperty.isConditional fragmentSpread = true →
  resultMap !! "__typename" = Some (Swift.VString typename) →
  narrows
    (scopeOfStruct (FragmentSpreadProperty.structName fragmentSpread) possibleTypes key)
    resultMap (fragmentSpreadGetter fragmentSpread)
    (FragmentSpreadProperty.structName fragmentSpread) typename possibleTypes.
Proof.
  intros Hconditional Htypename. unfold narrows, fragmentSpreadGetter, scopeOfStruct.
  rewrite Hconditional. cbn.
  rewrite decide_True by done. unfold Swift.forcedString. rewrite Htypename.
  case_bool_decide; split; try done; by intros [=].
Qed.

(** The accessor of a variant and the struct of the variant, as the
    declaration of the type case makes them. *)
Lemma variantDeclarations_members (rec : StructMethod) outputIndividualFiles
    (variant : VariantProperty.t) declaration :
  variantDeclarations context rec outputIndividualFiles variant = Ok declaration →
  declaresVariantAccessor variant declaration
  ∧ ∃ s members,
      structDeclaration s outputIndividualFiles members ∈ declaration
      ∧ Struct.structName s = VariantProperty.structName variant
      ∧ printedIn
          (possibleTypesMember (staticPossibleTypes (VariantProperty.variant variant)))
          members
      ∧ ∀ fragmentSpread,
          fragmentSpread ∈ fragmentSpreadProperties (VariantProperty.variant variant) →
          declaresFragmentAccessor fragmentSpread members.
Proof.
  unfold variantDeclarations. intros Hdeclaration.
  apply bind_Ok in Hdeclaration as (struct & Hstruct & Hdeclaration).
  apply Ok_inj in Hdeclaration. subst declaration.
  apply structDeclarationForVariant_body in Hstruct
    as (s & heading & middle & nested & afterwards & -> & Hs & _).
  split.
  - destruct (propertyDeclarationForVariant_accessor variant) as [setter Hprinted].
    exists setter. by apply printedIn_app_l.
  - eexists s, _. split; [|split; [done|split]].
    + apply elem_of_app. right. left.
    + rewrite possibleTypesDeclaration_member.
      apply printedIn_app_r, printedIn_app_l.
      exists [ printNewlineIfNeeded ], []. by rewrite app_nil_r.
    + intros fragmentSpread Hin.
      destruct (fragmentsDeclaration_accessor _ outputIndividualFiles _ Hin)
        as [setter Hdeclared].
      exists setter. eapply declaresInFragments_mono; [|exact Hdeclared].
      intros e He. rewrite !elem_of_app. auto 10.
Qed.

End NarrowingAccessors.



(** ** Enumerations *)

Section Switch.
Context {V : Type} (key result : V → string).

(** The arms built from a list of values, one arm for each. *)
Let arms (values : list V) : list Swift.Arm :=
  map (λ value, Swift.makeArm (key value) (result value)) values.

Lemma switch_arms_Some values scrutinee r :
  Swift.switch (arms values) scrutinee = Some r →
  ∃ value, value ∈ values ∧ key value = scrutinee ∧ result value = r.
Proof.
  unfold Swift.switch, arms. intros Hswitch.
  destruct (list_find _ _) as [[i arm]|] eqn:Hfind; [|discriminate].
  injection Hswitch as <-. apply list_find_Some in Hfind as (Hi & Hpattern & _).
  apply list_lookup_fmap_Some in Hi as (value & -> & Hvalue).
  exists value. split; [by eapply list_elem_of_lookup_2|done].
Qed.

Lemma switch_arms_None values scrutinee :
  scrutinee ∉ map key values → Swift.switch (arms values) scrutinee = None.
Proof.
  intros Hnone. unfold Swift.switch, arms.
  destruct (list_find _ _) as [[i arm]|] eqn:Hfind; [|done].
  apply list_find_Some in Hfind as (Hi & Hpattern & _).
  apply list_lookup_fmap_Some in Hi as (value & -> & Hvalue).
  exfalso. apply Hnone. cbn in Hpattern. subst scrutinee.
  apply list_elem_of_fmap. exists value. split; [done|].
  by eapply list_elem_of_lookup_2.
Qed.

Lemma switch_arms_NoDup values value :
  NoDup (map key values) → value ∈ values →
  Swift.switch (arms values) (key value) = Some (result value).
Proof.
  intros Hdistinct Hin.
  destruct (Swift.switch (arms values) (key value)) as [r|] eqn:Hswitch.
  - apply switch_arms_Some in Hswitch as (value' & Hin' & Hkey & <-).
    apply list_elem_of_lookup in Hin as [i Hi], Hin' as [j Hj].
    assert (i = j) as ->; [|by simplify_eq].
    eapply NoDup_lookup; [exact Hdistinct| |].
    + by rewrite list_lookup_fmap, Hi.
    + by rewrite list_lookup_fmap, Hj, <- Hkey.
  - exfalso. unfold Swift.switch in Hswitch.
    destruct (list_find _ _) as [|] eqn:Hfind; [discriminate|].
    apply list_find_None in Hfind. rewrite Forall_forall in Hfind.
    apply (Hfind (Swift.makeArm (key value) (result value))); [|done].
    apply list_elem_of_fmap. by exists value.
Qed.

End Switch.

Section Enumerations.
Context {printing : Printing} {language : Language}.
Context {helpers : Helpers} {visitors : Visitors}.

Lemma omap_flat_map {A B C : Type} (f : B → option C) (g : A → list B) (l : list A) :
  omap f (flat_map g l) = flat_map (λ a, omap f (g a)) l.
Proof.
  induction l as [|a l IH]; [done|]. cbn. by rewrite omap_app, IH.
Qed.

Lemma declaredCases_of_cases {A : Type} (f : A → string) (l : list A) :
  flat_map
    (λ a,
       match
         (if startsWith "case " ("case " +:+ f a) then Some ("case " +:+ f a) else None)
       with
       | Some line => [ line ]
       | None => []
       end)
    l
  = map (λ a, "case " +:+ f a) l.
Proof.
  induction l as [|a l IH]; [done|].
  cbn [flat_map map]. rewrite IH.
  by change (startsWith "case " ("case " +:+ f a)) with true.
Qed.

(** What [enumerationDeclaration] prints inside the block of the enum: the
    [case] declarations, and the two conversions with their switches, arm
    by arm. *)
Lemma enumerationDeclaration_conversions (type : GraphQLEnumType.t) :
  ∃ heading members,
    enumerationDeclaration type = heading ++ [ withinBlock members ]
    ∧ declaredCases members = caseDeclarations type
    ∧ ∃ before between after,
        members
        = before
          ++ [ printOnNewline "public init?(rawValue: RawValue)";
               withinBlock
                 [ printOnNewline "switch rawValue";
                   withinBlock
                     (map (λ arm, printOnNewline (Swift.renderInitArm arm))
                        (initArms type)
                      ++ [ printOnNewline "default: self = .__unknown(rawValue)" ]) ] ]
          ++ between
          ++ [ printOnNewline "public var rawValue: RawValue";
               withinBlock
                 [ printOnNewline "switch self";
                   withinBlock
                     (map (λ arm, printOnNewline (Swift.renderRawValueArm arm))
                        (rawValueArms type)
                      ++ [ printOnNewline "case .__unknown(let value): return value" ]) ] ]
          ++ after.
Proof.
  unfold enumerationDeclaration. eexists [_; _; _], _. split; [reflexivity|]. split.
  - unfold declaredCases, caseDeclarations.
    rewrite !omap_app, omap_flat_map. cbn -[startsWith].
    assert (∀ rest, startsWith "case " ("public static func == (lhs: " +:+ rest)
                    = false) as Hequality by reflexivity.
    assert (∀ rest, startsWith "case " ("public static var allCases: [" +:+ rest)
                    = false) as HallCases by reflexivity.
    rewrite Hequality, HallCases, declaredCases_of_cases. reflexivity.
  - set (cases := flat_map _ (GraphQLEnumType.getValues type)).
    exists ([ printOnNewline "public typealias RawValue = String" ] ++ cases
            ++ [ comment (Some "Auto generated constant for unknown enum values");
                 printOnNewline "case __unknown(RawValue)";
                 printNewlineIfNeeded ]),
      [ printNewlineIfNeeded ].
    eexists. unfold initArms, rawValueArms. rewrite !map_map, <- !app_assoc.
    cbn [app]. do 2 f_equal.
Qed.

End Enumerations.

(** C2.  The block of an emitted enumeration declares one case for each
    value of the type, in their order, and then the catch-all case
    [__unknown(RawValue)]; it declares [init?(rawValue:)] and [rawValue],
    each with a switch that has one arm for each value and the arm of the
    catch-all case.  Read as switches that take the first arm that
    matches, the conversion from a raw value gives, for the raw value of a
    declared value, the case of that value (the raw values being distinct),
    and for any other string the catch-all case with that string; the
    conversion to a raw value gives the string of a catch-all case back;
    and, the cases being distinct, converting a raw value into the
    enumeration and back gives the raw value. *)
Theorem enumeration_round_trip
    {printing : Printing} {language : Language} {helpers : Helpers}
    {visitors : Visitors} (type : GraphQLEnumType.t) :
  let values := GraphQLEnumType.getValues type in
  (∃ heading members,
     enumerationDeclaration type = heading ++ [ withinBlock members ]
     ∧ declaredCases members
       = map
           (λ value,
              "case "
              +:+ escapeIdentifierIfNeeded (enumCaseName (GraphQLEnumValue.name value)))
           values
         ++ [ "case __unknown(RawValue)" ]
     ∧ ∃ before between after,
         members
         = before
           ++ [ printOnNewline "public init?(rawValue: RawValue)";
                withinBlock
                  [ printOnNewline "switch rawValue";
                    withinBlock
                      (map (λ arm, printOnNewline (Swift.renderInitArm arm))
                         (initArms type)
                       ++ [ printOnNewline "default: self = .__unknown(rawValue)" ]) ] ]
           ++ between
           ++ [ printOnNewline "public var rawValue: RawValue";
                withinBlock
                  [ printOnNewline "switch self";
                    withinBlock
                      (map (λ arm, printOnNewline (Swift.renderRawValueArm arm))
                         (rawValueArms type)
                       ++ [ printOnNewline
                              "case .__unknown(let value): return value" ]) ] ]
           ++ after)
  ∧ (NoDup (map GraphQLEnumValue.value values) →
     ∀ value,
       value ∈ values →
       Swift.initRawValue (initArms type) (GraphQLEnumValue.value value)
       = Swift.Known (dotCase value))
  ∧ (∀ raw,
       raw ∉ map GraphQLEnumValue.value values →
       Swift.initRawValue (initArms type) raw = Swift.__unknown raw)
  ∧ (∀ raw, Swift.rawValue (rawValueArms type) (Swift.__unknown raw) = Some raw)
  ∧ (NoDup (map dotCase values) →
     ∀ raw,
       Swift.rawValue (rawValueArms type) (Swift.initRawValue (initArms type) raw)
       = Some raw).
Proof.
  intros values. split; [|repeat split].
  - apply enumerationDeclaration_conversions.
  - intros Hdistinct value Hvalue. unfold Swift.initRawValue, initArms.
    fold values.
    by rewrite (switch_arms_NoDup GraphQLEnumValue.value dotCase values value).
  - intros raw Hraw. unfold Swift.initRawValue, initArms. fold values.
    by rewrite (switch_arms_None GraphQLEnumValue.value dotCase values raw).
  - intros Hdistinct raw. unfold Swift.initRawValue.
    destruct (Swift.switch (initArms type) raw) as [dotCaseName|] eqn:Hinit; [|done].
    apply (switch_arms_Some GraphQLEnumValue.value dotCase) in Hinit
      as (value & Hvalue & <- & <-).
    cbn. unfold rawValueArms. fold values.
    by rewrite (switch_arms_NoDup dotCase GraphQLEnumValue.value values value).
Qed.

(** The enumeration [Episode] of the instance declares its three cases and
    the catch-all case.  [FUTURE_VALUE] is not a value of [Episode]: it is
    kept in the catch-all case and comes back unchanged. *)
Lemma enumeration_round_trip_witness :
  (∃ heading members,
     @enumerationDeclaration Sample.language Sample.helpers Sample.Episode
     = heading ++ [ withinBlock members ]
     ∧ declaredCases members
       = [ "case NEWHOPE"; "case EMPIRE"; "case JEDI"; "case __unknown(RawValue)" ])
  ∧ Swift.initRawValue (@initArms Sample.language Sample.helpers Sample.Episode)
      "FUTURE_VALUE"
    = Swift.__unknown "FUTURE_VALUE"
  ∧ Swift.rawValue (@rawValueArms Sample.language Sample.helpers Sample.Episode)
      (Swift.initRawValue (@initArms Sample.language Sample.helpers Sample.Episode)
         "EMPIRE")
    = Some "EMPIRE".
Proof.
  destruct (@enumeration_round_trip Sample.printing Sample.language Sample.helpers
              Sample.visitors Sample.Episode)
    as ((heading & members & Hdeclaration & Hcases & _) & _ & Hunknown & _ & Hround).
  split; [|split].
  - exists heading, members. split; [done|]. rewrite Hcases. reflexivity.
  - apply Hunknown. cbn. rewrite !elem_of_cons, elem_of_nil.
    intros [?|[?|[?|?]]]; done.
  - apply Hround. cbn.
    repeat (apply NoDup_cons_2;
              [rewrite ?elem_of_cons, elem_of_nil; intuition discriminate|]).
    apply NoDup_nil_2.
Defined.

(** ** The check command *)

Section ServiceCheckRun.
Import ServiceCheck.
Context {ChangeType : Type} `{EqDecision ChangeType} (FAILURE : ChangeType).
Context {Row : Type}.
Variable format : SchemaChange (ChangeType := ChangeType) → Row.

Lemma report_exit (checkSchemaResult : CheckSchemaResult) :
  (report FAILURE format checkSchemaResult).2 = exit None ↔
  ∃ change,
    change ∈ diffToPrevious_changes checkSchemaResult ∧ type change = FAILURE.
Proof.
  unfold report.
  destruct (diffToPrevious_changes checkSchemaResult) as [|change changes] eqn:Hchanges.
  - cbn. split; [discriminate|]. intros (change & Hin & _). by apply elem_of_nil in Hin.
  - cbn [length Nat.eqb snd].
    destruct (filter _ (change :: changes)) as [|failure failures] eqn:Hfailures.
    + cbn. split; [discriminate|]. intros (c & Hin & Hc).
      assert (c ∈ filter (λ change, type change = FAILURE) (change :: changes))
        as Hfiltered by by apply list_elem_of_filter.
      rewrite Hfailures in Hfiltered. by apply elem_of_nil in Hfiltered.
    + cbn. split; [intros _|done].
      assert (failure ∈ filter (λ change, type change = FAILURE) (change :: changes))
        as Hin by (rewrite Hfailures; left).
      apply list_elem_of_filter in Hin as [Htype Hin]. eauto.
Qed.

(** The report ends by returning or by [this.exit()]. *)
Lemma report_ends (checkSchemaResult : CheckSchemaResult) :
  (report FAILURE format checkSchemaResult).2 = returned
  ∨ (report FAILURE format checkSchemaResult).2 = exit None.
Proof.
  unfold report.
  destruct (length (diffToPrevious_changes checkSchemaResult) =? 0); [by left|].
  cbn [snd]. by destruct (0 <? length (filter _ _)); [right|left].
Qed.

End ServiceCheckRun.


(** The tasks complete on the instance. *)
Lemma SampleCheck_tasks :
  @ServiceCheck.checkingServiceForChanges SampleCheck.ChangeType _ _ _
    ServiceCheck.NumberOfDecimal SampleCheck.resolveSchema SampleCheck.gitInfo
    SampleCheck.introspectionFromSchema SampleCheck.checkSchema SampleCheck.config
    SampleCheck.flags
  = ServiceCheck.Normal
      ("main",
       ServiceCheck.makeCheckSchemaResult "https://engine.example/check/1"
         SampleCheck.changes).
Proof. vm_compute. reflexivity. Qed.


(** ** The historic parameters *)

(** Comparisons of binary64 values, none of which is [NaN]. *)

Lemma SFcompare_antisym (x y : SpecFloat.spec_float) :
  SpecFloat.SFcompare y x = CompOpp <$> SpecFloat.SFcompare x y.
Proof.
  destruct x as [sx|sx| |sx mx ex], y as [sy|sy| |sy my ey]; cbn; try done;
    try (by destruct sx); try (by destruct sy); try (by destruct sx, sy).
  destruct sx, sy; cbn; try done.
  - rewrite (Z.compare_antisym ex ey). destruct (ex ?= ey)%Z; cbn; try done.
    pose proof (Pos.compare_cont_antisym mx my Eq) as Hswap. cbn in Hswap.
    by rewrite <- Hswap.
  - rewrite (Z.compare_antisym ex ey). destruct (ex ?= ey)%Z; cbn; try done.
    pose proof (Pos.compare_cont_antisym mx my Eq) as Hswap. cbn in Hswap.
    by rewrite <- Hswap.
Qed.

Lemma SFcompare_None (x y : SpecFloat.spec_float) :
  SpecFloat.SFcompare x y = None ↔ x = SpecFloat.S754_nan ∨ y = SpecFloat.S754_nan.
Proof.
  destruct x as [sx|sx| |sx mx ex], y as [sy|sy| |sy my ey]; cbn;
    split; try done; try tauto; intros [|]; done.
Qed.

Lemma is_nan_Prim2SF (x : PrimFloat.float) :
  PrimFloat.is_nan x = false ↔ FloatOps.Prim2SF x ≠ SpecFloat.S754_nan.
Proof.
  unfold PrimFloat.is_nan. rewrite FloatAxioms.eqb_spec. unfold SpecFloat.SFeqb.
  pose proof (SFcompare_antisym (FloatOps.Prim2SF x) (FloatOps.Prim2SF x)) as Hswap.
  pose proof (SFcompare_None (FloatOps.Prim2SF x) (FloatOps.Prim2SF x)) as Hnone.
  destruct (SpecFloat.SFcompare (FloatOps.Prim2SF x) (FloatOps.Prim2SF x)) as [[]|];
    cbn in *; try done.
  - split; [|done]. intros _ Hnan. by pose proof (proj2 Hnone (or_introl Hnan)).
  - split; [done|]. intros Hnan. destruct Hnan. destruct (proj1 Hnone eq_refl); done.
Qed.

Lemma ltb_false_leb (x y : PrimFloat.float) :
  PrimFloat.is_nan x = false → PrimFloat.is_nan y = false →
  PrimFloat.ltb x y = false ↔ PrimFloat.leb y x = true.
Proof.
  rewrite !is_nan_Prim2SF, FloatAxioms.ltb_spec, FloatAxioms.leb_spec.
  unfold SpecFloat.SFltb, SpecFloat.SFleb. intros Hx Hy.
  rewrite (SFcompare_antisym (FloatOps.Prim2SF x) (FloatOps.Prim2SF y)).
  pose proof (SFcompare_None (FloatOps.Prim2SF x) (FloatOps.Prim2SF y)) as Hnone.
  destruct (SpecFloat.SFcompare (FloatOps.Prim2SF x) (FloatOps.Prim2SF y)) as [[]|];
    cbn; try done.
  destruct (proj1 Hnone eq_refl); done.
Qed.

Lemma leb_false_ltb (x y : PrimFloat.float) :
  PrimFloat.is_nan x = false → PrimFloat.is_nan y = false →
  PrimFloat.leb x y = false ↔ PrimFloat.ltb y x = true.
Proof.
  rewrite !is_nan_Prim2SF, FloatAxioms.ltb_spec, FloatAxioms.leb_spec.
  unfold SpecFloat.SFltb, SpecFloat.SFleb. intros Hx Hy.
  rewrite (SFcompare_antisym (FloatOps.Prim2SF x) (FloatOps.Prim2SF y)).
  pose proof (SFcompare_None (FloatOps.Prim2SF x) (FloatOps.Prim2SF y)) as Hnone.
  destruct (SpecFloat.SFcompare (FloatOps.Prim2SF x) (FloatOps.Prim2SF y)) as [[]|];
    cbn; try done.
  destruct (proj1 Hnone eq_refl); done.
Qed.

Lemma Number_isInteger_not_NaN (x : PrimFloat.float) :
  ServiceCheck.Number_isInteger x = true → ServiceCheck.Number_isNaN x = false.
Proof.
  unfold ServiceCheck.Number_isInteger, ServiceCheck.Number_isNaN.
  rewrite is_nan_Prim2SF. by destruct (FloatOps.Prim2SF x).
Qed.

(** Unless the percentage is [NaN], [validateHistoricParams] returns exactly
    on the parameters within the range: there it returns the converted [to]
    and [from], the count threshold as given and the percentage divided by
    100, and everywhere else it throws. *)
Theorem validateHistoricParams_returns_iff (Number : string → ServiceCheck.number)
    (to from : string)
    (queryCountThreshold queryCountThresholdPercentage : ServiceCheck.number) :
  ServiceCheck.Number_isNaN queryCountThresholdPercentage = false →
  (withinHistoricRange Number to from queryCountThreshold queryCountThresholdPercentage →
   ServiceCheck.validateHistoricParams Number to from queryCountThreshold
     queryCountThresholdPercentage
   = ServiceCheck.Normal
       (ServiceCheck.HistoricQueryParameters.make (Number to) (Number from)
          queryCountThreshold (PrimFloat.div queryCountThresholdPercentage 100)))
  ∧ (¬ withinHistoricRange Number to from queryCountThreshold
         queryCountThresholdPercentage →
     ∃ message,
       ServiceCheck.validateHistoricParams Number to from queryCountThreshold
         queryCountThresholdPercentage
       = ServiceCheck.ThrowError message).
Proof.
  intros Hpercentage. unfold ServiceCheck.Number_isNaN in Hpercentage.
  unfold withinHistoricRange, ServiceCheck.validateHistoricParams.
  assert (PrimFloat.is_nan 0 = false) as Hzero by (vm_compute; reflexivity).
  assert (PrimFloat.is_nan 1 = false) as Hone by (vm_compute; reflexivity).
  assert (PrimFloat.is_nan 100 = false) as Hhundred by (vm_compute; reflexivity).
  cbv zeta. case_bool_decide as Hto; cbn [orb].
  { split; [intros [[? _] _]; done|eauto]. }
  destruct (ServiceCheck.Number_isInteger (Number to)) eqn:HtoInteger; cycle 1.
  { rewrite !orb_true_r. split; [intros [[_ [? _]] _]; done|eauto]. }
  pose proof (Number_isInteger_not_NaN _ HtoInteger) as HtoNaN.
  rewrite HtoNaN. unfold ServiceCheck.Number_isNaN in HtoNaN. cbn [orb negb].
  rewrite orb_false_r.
  destruct (PrimFloat.ltb 0 (Number to)) eqn:HtoSign.
  { split; [|eauto]. intros [[_ [_ Hle]] _].
    apply (ltb_false_leb _ _ Hzero HtoNaN) in Hle. congruence. }
  apply (ltb_false_leb _ _ Hzero HtoNaN) in HtoSign.
  case_bool_decide as Hfrom; cbn [orb].
  { split; [intros [_ [[? _] _]]; done|eauto]. }
  destruct (ServiceCheck.Number_isInteger (Number from)) eqn:HfromInteger; cycle 1.
  { rewrite !orb_true_r. split; [intros [_ [[_ [? _]] _]]; done|eauto]. }
  pose proof (Number_isInteger_not_NaN _ HfromInteger) as HfromNaN.
  rewrite HfromNaN. unfold ServiceCheck.Number_isNaN in HfromNaN. cbn [orb negb].
  rewrite orb_false_r.
  destruct (PrimFloat.leb (Number to) (Number from)) eqn:Horder.
  { split; [|eauto]. intros [_ [[_ [_ Hlt]] _]].
    apply (leb_false_ltb _ _ HtoNaN HfromNaN) in Hlt. congruence. }
  apply (leb_false_ltb _ _ HtoNaN HfromNaN) in Horder.
  destruct (ServiceCheck.Number_isInteger queryCountThreshold) eqn:HcountInteger;
    cycle 1.
  { cbn [orb negb]. split; [intros [_ [_ [[? _] _]]]; done|eauto]. }
  pose proof (Number_isInteger_not_NaN _ HcountInteger) as HcountNaN.
  unfold ServiceCheck.Number_isNaN in HcountNaN. cbn [orb negb].
  destruct (PrimFloat.ltb queryCountThreshold 1) eqn:Hcount.
  { split; [|eauto]. intros [_ [_ [[_ Hle] _]]].
    apply (ltb_false_leb _ _ HcountNaN Hone) in Hle. congruence. }
  apply (ltb_false_leb _ _ HcountNaN Hone) in Hcount.
  destruct (PrimFloat.ltb queryCountThresholdPercentage 0) eqn:Hlower.
  { split; [|eauto]. intros [_ [_ [_ [Hle _]]]].
    apply (ltb_false_leb _ _ Hpercentage Hzero) in Hle. congruence. }
  apply (ltb_false_leb _ _ Hpercentage Hzero) in Hlower.
  destruct (PrimFloat.ltb 100 queryCountThresholdPercentage) eqn:Hupper.
  { split; [|eauto]. intros [_ [_ [_ [_ Hle]]]].
    apply (ltb_false_leb _ _ Hhundred Hpercentage) in Hle. congruence. }
  apply (ltb_false_leb _ _ Hhundred Hpercentage) in Hupper.
  cbn [orb]. split; [done|]. intros Hnot. destruct Hnot. tauto.
Qed.

(** The default values of the flags are within the range. *)
Lemma validateHistoricParams_default_flags :
  ServiceCheck.validateHistoricParams ServiceCheck.NumberOfDecimal "-0" "-86400"
    1%float 0%float
  = ServiceCheck.Normal
      (ServiceCheck.HistoricQueryParameters.make
         (ServiceCheck.NumberOfDecimal "-0") (ServiceCheck.NumberOfDecimal "-86400")
         1%float (PrimFloat.div 0%float 100%float)).
Proof.
  apply (proj1 (validateHistoricParams_returns_iff ServiceCheck.NumberOfDecimal
                  "-0" "-86400" 1%float 0%float eq_refl)).
  repeat split; try done; vm_compute; reflexivity.
Defined.

(** C9, at the input on which the code departs from it: with valid [to],
    [from] and [queryCountThreshold], a [queryCountThresholdPercentage] that
    is [NaN] is below neither bound, so no error is thrown and [NaN] is
    returned as the percentage, although [NaN] is not within 0 and 100 and
    the parameters are thus not within the range. *)
Lemma validateHistoricParams_accepts_NaN :
  ServiceCheck.validateHistoricParams ServiceCheck.NumberOfDecimal "-0" "-86400"
    1%float PrimFloat.nan
  = ServiceCheck.Normal
      (ServiceCheck.HistoricQueryParameters.make (-0)%float (-86400)%float 1%float
         PrimFloat.nan)
  ∧ PrimFloat.leb 0%float PrimFloat.nan = false
  ∧ PrimFloat.leb PrimFloat.nan 100%float = false
  ∧ ¬ withinHistoricRange ServiceCheck.NumberOfDecimal "-0" "-86400" 1%float
        PrimFloat.nan.
Proof.
  split; [by vm_compute|]. split; [by vm_compute|]. split; [by vm_compute|].
  intros (_ & _ & _ & Hlower & _). by vm_compute in Hlower.
Qed.

(** ** The two output modes *)

Lemma fmap_Result_eq {A B : Type} (g : A → B) (r r' : Result A) :
  g <$> r = g <$> r' ↔
  match r, r' with
  | Ok a, Ok a' => g a = g a'
  | Throw e, Throw e' => e = e'
  | _, _ => False
  end.
Proof. destruct r, r'; cbn; split; (congruence || done). Qed.

Lemma mapM_erased {A : Type} (f f' : A → Result (list Emit)) (l : list A) :
  (∀ x, map eraseMode <$> f x = map eraseMode <$> f' x) →
  (λ k, map eraseMode (concat k)) <$> mapM f l
  = (λ k, map eraseMode (concat k)) <$> mapM f' l.
Proof.
  intros Hf. induction l as [|x l IH]; [done|].
  rewrite !mapM_cons. specialize (Hf x).
  apply fmap_Result_eq in Hf. apply fmap_Result_eq in IH. apply fmap_Result_eq.
  destruct (f x), (f' x); try done; cbn.
  destruct (mapM f l), (mapM f' l); try done; cbn.
  by rewrite !map_app, Hf, IH.
Qed.

Lemma structDeclaration_erased s body body' :
  map eraseMode body = map eraseMode body' →
  map eraseMode [ structDeclaration s true body ]
  = map eraseMode [ structDeclaration s false body' ].
Proof. intros Hbody. simpl. by rewrite Hbody. Qed.

Lemma classDeclaration_erased c c' body body' :
  SwiftClass.className c = SwiftClass.className c' →
  SwiftClass.adoptedProtocols c = SwiftClass.adoptedProtocols c' →
  map eraseMode body = map eraseMode body' →
  eraseMode (classDeclaration c body) = eraseMode (classDeclaration c' body').
Proof. intros Hname Hprotocols Hbody. simpl. by rewrite Hname, Hprotocols, Hbody. Qed.

(** Reduces the binds and maps of results whose arguments are known. *)
Ltac result_simpl :=
  unfold mbind, Result_bind, mret, Result_ret, fmap, Result_fmap; cbv beta iota.

Section OutputModes.
Context {printing : Printing} {language : Language}.
Context {helpers : Helpers} {visitors : Visitors}.
Variable context : CompilerContext.t.

Lemma fragmentsDeclaration_erased fragmentSpreads :
  map eraseMode (fragmentsDeclaration fragmentSpreads true)
  = map eraseMode (fragmentsDeclaration fragmentSpreads false).
Proof. unfold fragmentsDeclaration. by destruct (0 <? _). Qed.

Lemma structDeclarationForVariant_erased (rec rec' : StructMethod) structName
    adoptedProtocols variant typeCase before after after' :
  (∀ n p s b, map eraseMode <$> rec n p s true b = map eraseMode <$> rec' n p s false b) →
  match after, after' with
  | Some r, Some r' => map eraseMode <$> r = map eraseMode <$> r'
  | None, None => True
  | _, _ => False
  end →
  map eraseMode
    <$> structDeclarationForVariant context rec structName adoptedProtocols variant
          typeCase true before after
  = map eraseMode
      <$> structDeclarationForVariant context rec' structName adoptedProtocols variant
            typeCase false before after'.
Proof.
  intros Hrec Hafter. unfold structDeclarationForVariant.
  match goal with
  | |- context [mapM ?f ?l ≫= _] =>
      match goal with
      | |- _ = _ <$> (mapM ?f' l ≫= _) =>
          assert (Hnested : (λ k, map eraseMode (concat k)) <$> mapM f l
                            = (λ k, map eraseMode (concat k)) <$> mapM f' l);
          [apply mapM_erased|
           apply fmap_Result_eq in Hnested;
           destruct (mapM f l) as [nested|e], (mapM f' l) as [nested'|e']]
      end
  end; try done.
  - intros field. cbn beta. destruct (isCompositeType _); [|done].
    destruct (Field.selectionSet _); [|done]. apply Hrec.
  - assert (Hafterwards :
      map eraseMode <$> default (mret []) after
      = map eraseMode <$> default (mret []) after').
    { destruct after, after'; done. }
    apply fmap_Result_eq in Hafterwards.
    destruct (default (mret []) after) as [afterwards|e],
      (default (mret []) after') as [afterwards'|e']; try done; result_simpl.
    + f_equal. apply structDeclaration_erased.
      by rewrite !map_app, fragmentsDeclaration_erased, Hnested, Hafterwards.
    + by rewrite Hafterwards.
  - result_simpl. by rewrite Hnested.
Qed.

Lemma structDeclarationForSelectionSet_erased depth structName adoptedProtocols
    selectionSet before :
  map eraseMode
    <$> structDeclarationForSelectionSet context depth structName adoptedProtocols
          selectionSet true before
  = map eraseMode
      <$> structDeclarationForSelectionSet context depth structName adoptedProtocols
            selectionSet false before.
Proof.
  revert structName adoptedProtocols selectionSet before.
  induction depth as [|depth IH]; intros structName adoptedProtocols selectionSet
    before; [done|]. simpl.
  apply structDeclarationForVariant_erased; [intros; apply IH|].
  match goal with
  | |- _ <$> (mapM ?f ?l ≫= _) = _ <$> (mapM ?f' ?l ≫= _) =>
      assert (Hvariants : (λ k, map eraseMode (concat k)) <$> mapM f l
                          = (λ k, map eraseMode (concat k)) <$> mapM f' l);
      [apply mapM_erased|
       apply fmap_Result_eq in Hvariants;
       destruct (mapM f l), (mapM f' l); try done; result_simpl; by rewrite Hvariants]
  end.
  intros variant. unfold variantDeclarations.
  pose proof (structDeclarationForVariant_erased
                (structDeclarationForSelectionSet context depth)
                (structDeclarationForSelectionSet context depth)
                (VariantProperty.structName variant) None
                (VariantProperty.variant variant) None None None None
                (λ n p s b, IH n p s b) I) as Hdeclaration.
  apply fmap_Result_eq in Hdeclaration.
  destruct (structDeclarationForVariant _ _ _ _ _ _ true _ _),
    (structDeclarationForVariant _ _ _ _ _ _ false _ _); try done; result_simpl.
  - by rewrite !map_app, Hdeclaration.
  - by rewrite Hdeclaration.
Qed.

Lemma structDeclarationForFragment_erased depth fragment :
  map eraseMode <$> structDeclarationForFragment context depth fragment true
  = map eraseMode <$> structDeclarationForFragment context depth fragment false.
Proof. apply structDeclarationForSelectionSet_erased. Qed.

Lemma typeDeclarationForGraphQLType_erased type :
  map eraseMode (typeDeclarationForGraphQLType type true)
  = map eraseMode (typeDeclarationForGraphQLType type false).
Proof. by destruct type. Qed.

(** The declaration of an operation in the two modes: the same operation
    comes back, with the same class up to the mode. *)
Lemma classDeclarationForOperation_erased depth operation :
  prod_map id (map eraseMode)
    <$> classDeclarationForOperation context depth operation true
  = prod_map id (map eraseMode)
      <$> classDeclarationForOperation context depth operation false.
Proof.
  unfold classDeclarationForOperation.
  destruct (classNameAndProtocol _ _) as [[className protocol]|e]; [|done].
  cbn beta iota.
  destruct (collectFragmentsReferencedError _ _); [done|].
  destruct (operationIdentifierDeclaration _ _ _) as [operation' identifier].
  pose proof (structDeclarationForSelectionSet_erased depth "Data" None
                (Operation.selectionSet operation) None) as Hdata.
  apply fmap_Result_eq in Hdata.
  destruct (structDeclarationForSelectionSet _ _ _ _ _ true _),
    (structDeclarationForSelectionSet _ _ _ _ _ false _); try done; result_simpl.
  - unfold prod_map. cbn [fst snd id map]. do 3 f_equal.
    apply classDeclaration_erased; [done..|]. by rewrite !map_app, Hdata.
  - by rewrite Hdata.
Qed.

End OutputModes.

Section Grouping.
Context {printing : Printing} {language : Language}.
Context {helpers : Helpers} {visitors : Visitors}.

(** The declarations read the options and the fragments of the context, not
    its operations. *)
Lemma classDeclarationForOperation_withOperations context operations depth operation
    outputIndividualFiles :
  classDeclarationForOperation (withOperations context operations) depth operation
    outputIndividualFiles
  = classDeclarationForOperation context depth operation outputIndividualFiles.
Proof. reflexivity. Qed.

Lemma structDeclarationForFragment_withOperations context operations depth fragment
    outputIndividualFiles :
  structDeclarationForFragment (withOperations context operations) depth fragment
    outputIndividualFiles
  = structDeclarationForFragment context depth fragment outputIndividualFiles.
Proof. reflexivity. Qed.

Lemma forEachOperation_classes context depth outputIndividualFiles selected
    operations operations' out :
  forEachOperation context depth outputIndividualFiles selected operations
  = Ok (operations', out) →
  out
  = flat_map
      (λ operation,
         if selected operation
         then classOf context depth outputIndividualFiles operation else [])
      (Object_values operations)
  ∧ Forall2
      (λ before after,
         after.1 = before.1
         ∧ if selected before.2
           then ∃ declaration,
                  classDeclarationForOperation context depth before.2
                    outputIndividualFiles
                  = Ok (after.2, declaration)
           else after.2 = before.2)
      operations operations'.
Proof.
  revert operations' out.
  induction operations as [|[key operation] operations IH]; intros operations' out.
  - intros [= <- <-]. split; [done|constructor].
  - cbn [forEachOperation]. intros Hresult.
    apply bind_Ok in Hresult as ([operation' declaration] & Hoperation & Hresult).
    apply bind_Ok in Hresult as ([rest declarations] & Hrest & [= <- <-]).
    destruct (IH _ _ Hrest) as [-> Hforall]. split.
    + cbn [Object_values fmap list_fmap flat_map snd]. f_equal.
      unfold classOf. destruct (selected operation).
      * by rewrite Hoperation.
      * by injection Hoperation as <- <-.
    + constructor; [|done]. split; [done|]. cbn [fst snd].
      destruct (selected operation); [by eexists|by injection Hoperation as <- <-].
Qed.

Lemma forEachFragment_structs context depth outputIndividualFiles selected
    fragments out :
  forEachFragment context depth outputIndividualFiles selected fragments = Ok out →
  out
  = flat_map
      (λ fragment,
         if selected fragment
         then structOf context depth outputIndividualFiles fragment else [])
      fragments.
Proof.
  unfold forEachFragment. intros Hresult.
  apply bind_Ok in Hresult as (declarations & Hdeclarations & [= <-]).
  apply mapM_Ok in Hdeclarations.
  induction Hdeclarations as [|fragment declaration fragments declarations Hd _ IH];
    [done|].
  cbn [concat flat_map]. rewrite IH. f_equal.
  unfold structOf. destruct (selected fragment).
  - by rewrite Hd.
  - by injection Hd as <-.
Qed.

Lemma Set_add_NoDup (s : list string) (x : string) : NoDup s → NoDup (Set_add s x).
Proof.
  intros Hs. unfold Set_add. case_bool_decide; [done|].
  apply NoDup_app. split; [done|]. split.
  - intros y Hy Hx. apply list_elem_of_singleton in Hx. by subst.
  - apply NoDup_singleton.
Qed.

Lemma foldl_Set_add_NoDup (xs s : list string) : NoDup s → NoDup (foldl Set_add s xs).
Proof.
  revert s. induction xs as [|x xs IH]; intros s Hs; [done|].
  cbn. apply IH. by apply Set_add_NoDup.
Qed.

Lemma inputFilePaths_NoDup context : NoDup (inputFilePaths context).
Proof.
  unfold inputFilePaths. apply foldl_Set_add_NoDup, foldl_Set_add_NoDup.
  apply NoDup_nil_2.
Qed.

(** The files of the individual-files mode, one for each input file, hold
    the declarations of the operations as the context had them at the start:
    a file changes only the operations of its own path. *)
Lemma forEachInputFile_files context depth paths current context' files :
  NoDup paths →
  Forall2
    (λ original now,
       now.1 = original.1
       ∧ Operation.filePath now.2 = Operation.filePath original.2
       ∧ (Operation.filePath original.2 ∈ paths → now.2 = original.2))
    (CompilerContext.operations context) current →
  forEachInputFile (withOperations context current) depth None paths
  = Ok (context', files) →
  files = map (fileOf context depth) paths.
Proof.
  revert current context' files.
  induction paths as [|inputFilePath paths IH]; intros current context' files
    Hdistinct Hcurrent.
  - by intros [= <- <-].
  - cbn [forEachInputFile truthyOpt andb]. intros Hresult.
    apply bind_Ok in Hresult as ([operations classes] & Hclasses & Hresult).
    apply bind_Ok in Hresult as (structs & Hstructs & Hresult).
    apply bind_Ok in Hresult as ([context'' rest] & Hrest & [= <- <-]).
    apply NoDup_cons in Hdistinct as [Hfresh Hdistinct].
    apply forEachOperation_classes in Hclasses as [-> Hoperations].
    apply forEachFragment_structs in Hstructs as ->.
    cbn [map]. f_equal.
    + unfold fileOf. cbn [withOperations CompilerContext.options
        CompilerContext.operations CompilerContext.fragments].
      change (classOf (withOperations context current)) with (classOf context).
      change (structOf (withOperations context current)) with (structOf context).
      assert (Hclasses :
        flat_map
          (λ operation,
             if bool_decide (Operation.filePath operation = inputFilePath)
             then classOf context depth true operation else [])
          (Object_values current)
        = flat_map
            (λ operation,
               if bool_decide (Operation.filePath operation = inputFilePath)
               then classOf context depth true operation else [])
            (Object_values (CompilerContext.operations context))); [|by rewrite Hclasses].
      clear -Hcurrent. unfold Object_values.
      induction Hcurrent as [|[key original] [key' now] originals current
                               (_ & Hpath & Hsame) _ IH']; [done|].
      cbn [fmap list_fmap flat_map snd] in *. rewrite IH'. f_equal.
      rewrite Hpath. case_bool_decide as Hhere; [|done].
      rewrite Hsame; [done|]. rewrite Hhere. left.
    + eapply (IH operations); [done| |exact Hrest].
      clear -Hcurrent Hoperations Hfresh.
      cbn [withOperations CompilerContext.operations] in Hoperations.
      revert operations Hoperations.
      induction Hcurrent as [|[key original] [key' now] originals current
                               (Hkey & Hpath & Hsame) _ IH'];
        intros operations Hoperations.
      * inversion Hoperations. constructor.
      * inversion Hoperations as [|? [key'' after] ? afters (Hkey' & Hafter) Hrest];
          subst.
        constructor; [|by apply IH']. cbn [fst snd] in *.
        split; [congruence|].
        case_bool_decide as Hhere.
        -- destruct Hafter as [declaration Hafter].
           apply classDeclarationForOperation_frame in Hafter as (Hfile & _).
           split; [congruence|]. intros Hin. exfalso. apply Hfresh. congruence.
        -- subst after. split; [done|]. intros Hin. apply Hsame. by right.
Qed.

End Grouping.

Lemma foldl_Set_add_elem (xs s : list string) (x : string) :
  x ∈ foldl Set_add s xs ↔ x ∈ s ∨ x ∈ xs.
Proof.
  revert s. induction xs as [|y xs IH]; intros s; cbn.
  - rewrite elem_of_nil. tauto.
  - rewrite IH, elem_of_cons. unfold Set_add. case_bool_decide as Hy.
    + split; [tauto|]. intros [?|[->|?]]; auto.
    + rewrite elem_of_app, list_elem_of_singleton. tauto.
Qed.

(** C6, as the specification has it, fails as soon as a namespace is
    configured: both modes declare the query of the instance, by a class
    with the modifier [final] alone in the individual-files mode and with
    [public] and [final] in the single-file mode. *)
Lemma namespace_changes_class_modifiers :
  let context := Sample.context (Some "API") false in
  (∃ context' out,
     @generateSource Sample.printing Sample.language Sample.helpers Sample.visitors 5
       context true None = Ok (context', out))
  ∧ (∃ context' out,
       @generateSource Sample.printing Sample.language Sample.helpers Sample.visitors 5
         context false None = Ok (context', out))
  ∧ (∃ body,
       @classOf Sample.printing Sample.language Sample.helpers Sample.visitors
         context 5 true Sample.heroQuery
       = [ classDeclaration (SwiftClass.make "HeroQuery" ["final"] ["GraphQLQuery"])
             body ])
  ∧ (∃ body,
       @classOf Sample.printing Sample.language Sample.helpers Sample.visitors
         context 5 false Sample.heroQuery
       = [ classDeclaration
             (SwiftClass.make "HeroQuery" ["public"; "final"] ["GraphQLQuery"]) body ]).
Proof.
  intros context. repeat split.
  - eexists _, _. vm_compute. reflexivity.
  - eexists _, _. vm_compute. reflexivity.
  - eexists. vm_compute. reflexivity.
  - eexists. vm_compute. reflexivity.
Qed.

(** C6, amended.  The two modes make the same declarations up to two
    things: a class is declared [public final], except in the
    individual-files mode under a namespace, where it is [final] alone; and
    the mode is handed on to every struct declaration of the base class.
    Up to these ([eraseMode]), each type, each operation and each fragment is
    declared alike in both modes, with the same operation stored.  The
    single-file mode puts the declarations of all types, operations and
    fragments into one namespace; the individual-files mode puts the types
    into [Types.graphql.swift] and the operations and fragments of each
    input file into a file of its own, where the input files are distinct
    and cover every operation and fragment. *)
Theorem output_modes_agree_up_to_mode
    {printing : Printing} {language : Language} {helpers : Helpers}
    {visitors : Visitors} (context : CompilerContext.t) (depth : nat) :
  let namespace := CompilerOptions.namespace (CompilerContext.options context) in
  let operations := Object_values (CompilerContext.operations context) in
  let fragments := Object_values (CompilerContext.fragments context) in
  ((∀ type,
      map eraseMode (typeDeclarationForGraphQLType type true)
      = map eraseMode (typeDeclarationForGraphQLType type false))
   ∧ (∀ operation,
        prod_map id (map eraseMode)
          <$> classDeclarationForOperation context depth operation true
        = prod_map id (map eraseMode)
            <$> classDeclarationForOperation context depth operation false)
   ∧ (∀ fragment,
        map eraseMode <$> structDeclarationForFragment context depth fragment true
        = map eraseMode <$> structDeclarationForFragment context depth fragment false))
  ∧ (classModifiers context false = ["public"; "final"]
     ∧ classModifiers context true
       = if truthyOpt namespace then ["final"] else ["public"; "final"])
  ∧ (∀ only context' out,
       generateSource depth context false only = Ok (context', out) →
       out
       = fileHeader
         ++ [ namespaceDeclaration namespace
                (typesOf context false
                 ++ flat_map (classOf context depth false) operations
                 ++ flat_map (structOf context depth false) fragments) ])
  ∧ (∀ context' out,
       generateSource depth context true None = Ok (context', out) →
       out
       = withinFile "Types.graphql.swift"
           (fileHeader ++ [ namespaceDeclaration namespace (typesOf context true) ])
         :: map (fileOf context depth) (inputFilePaths context))
  ∧ (NoDup (inputFilePaths context)
     ∧ (∀ operation,
          operation ∈ operations →
          Operation.filePath operation ∈ inputFilePaths context)
     ∧ (∀ fragment,
          fragment ∈ fragments → Fragment.filePath fragment ∈ inputFilePaths context)).
Proof.
  intros namespace operations fragments. split; [|split; [|split; [|split]]].
  - split; [|split].
    + apply typeDeclarationForGraphQLType_erased.
    + intros operation. apply classDeclarationForOperation_erased.
    + intros fragment. apply structDeclarationForFragment_erased.
  - unfold classModifiers. fold namespace. split.
    + by rewrite andb_false_r.
    + by rewrite andb_true_r.
  - intros only context' out. unfold generateSource. intros Hresult.
    apply bind_Ok in Hresult as ([operations' classes] & Hclasses & Hresult).
    apply bind_Ok in Hresult as (structs & Hstructs & [= <- <-]).
    apply forEachOperation_classes in Hclasses as [-> _].
    apply forEachFragment_structs in Hstructs as ->.
    done.
  - intros context' out. unfold generateSource. intros Hresult.
    apply bind_Ok in Hresult as ([context'' files] & Hfiles & [= <- <-]).
    f_equal. pose proof (inputFilePaths_NoDup context) as Hpaths.
    revert Hfiles Hpaths. generalize (inputFilePaths context). intros paths Hfiles Hpaths.
    destruct context as [typesUsed allOperations allFragments options].
    eapply (forEachInputFile_files _ _ _ allOperations); [exact Hpaths| |exact Hfiles].
    cbn. clear. induction allOperations as [|entry entries IH]; constructor; auto.
  - split; [apply inputFilePaths_NoDup|]. unfold inputFilePaths. split.
    + intros operation Hin. apply foldl_Set_add_elem. left.
      apply foldl_Set_add_elem. right. by apply list_elem_of_fmap_2.
    + intros fragment Hin. apply foldl_Set_add_elem. right.
      by apply list_elem_of_fmap_2.
Qed.

(** The individual-files mode on the instance: the file of the types, then
    one file for the query and one for the fragment. *)
Lemma output_modes_witness :
  ∃ context' types query fragment,
    @generateSource Sample.printing Sample.language Sample.helpers Sample.visitors 5
      (Sample.context None false) true None
    = Ok (context', [ types; query; fragment ])
    ∧ query
      = @fileOf Sample.printing Sample.language Sample.helpers Sample.visitors
          (Sample.context None false) 5 "queries/Hero.graphql".
Proof.
  destruct (@generateSource Sample.printing Sample.language Sample.helpers
              Sample.visitors 5 (Sample.context None false) true None)
    as [[context' out]|failure] eqn:Hresult; [|by vm_compute in Hresult].
  pose proof (proj1 (proj2 (proj2 (proj2 (@output_modes_agree_up_to_mode
    Sample.printing Sample.language Sample.helpers Sample.visitors
    (Sample.context None false) 5)))) context' out Hresult) as Hout.
  subst out. by eexists _, _, _, _.
Defined.

(** ** The enclosing repository ([findGitRoot]) *)

Lemma String_split_nonempty (sep : Ascii.ascii) (s : string) :
  Git.String_split sep s ≠ [].
Proof.
  destruct s as [|c s]; cbn; [done|].
  destruct (decide (c = sep)); [done|]. by destruct (Git.String_split sep s).
Qed.

(** Joining what [split] gave, with the same separator, gives the string
    back. *)
Lemma String_split_join (sep : Ascii.ascii) (s : string) :
  String.concat (String sep EmptyString) (Git.String_split sep s) = s.
Proof.
  induction s as [|c s IH]; [done|]. cbn [Git.String_split].
  pose proof (String_split_nonempty sep s) as Hpieces.
  destruct (Git.String_split sep s) as [|piece pieces]; [done|].
  destruct (decide (c = sep)) as [->|_].
  - change (String sep (String.concat (String sep EmptyString) (piece :: pieces))
            = String sep s).
    by rewrite IH.
  - destruct pieces as [|piece' pieces].
    + cbn in *. by rewrite IH.
    + change (String c (String.concat (String sep EmptyString)
                          (piece :: piece' :: pieces)) = String c s).
      by rewrite IH.
Qed.

Lemma String_split_trailing (sep : Ascii.ascii) (s : string) :
  Git.String_split sep (s +:+ String sep EmptyString)
  = Git.String_split sep s ++ [EmptyString].
Proof.
  induction s as [|c s IH].
  - change (Git.String_split sep (String sep EmptyString) = [EmptyString; EmptyString]).
    cbn. by destruct (decide (sep = sep)).
  - change (String c s +:+ String sep EmptyString)
      with (String c (s +:+ String sep EmptyString)).
    cbn [Git.String_split]. rewrite IH.
    pose proof (String_split_nonempty sep s) as Hpieces.
    destruct (Git.String_split sep s) as [|piece pieces]; [done|].
    by destruct (decide (c = sep)).
Qed.

Lemma String_concat_app (sep : string) (a b : list string) :
  a ≠ [] → b ≠ [] →
  String.concat sep (a ++ b) = String.concat sep a +:+ sep +:+ String.concat sep b.
Proof.
  intros Ha Hb. induction a as [|x a IH]; [done|].
  destruct a as [|y a].
  - destruct b; [done|]. reflexivity.
  - change (x +:+ sep +:+ String.concat sep ((y :: a) ++ b)
            = (x +:+ sep +:+ String.concat sep (y :: a)) +:+ sep +:+ String.concat sep b).
    rewrite IH by done. by rewrite !string_app_assoc.
Qed.

Lemma lastCharacter_snoc (s : string) (c : Ascii.ascii) :
  Git.lastCharacter (s +:+ String c EmptyString) = Some c.
Proof.
  induction s as [|a s IH]; [done|].
  change (String a s +:+ String c EmptyString)
    with (String a (s +:+ String c EmptyString)).
  unfold Git.lastCharacter in *.
  destruct (s +:+ String c EmptyString) as [|b t] eqn:Ht.
  { by destruct s. }
  cbn [String.length String.get Nat.sub] in *. by rewrite Nat.sub_0_r in *.
Qed.

Lemma Array_pop_snoc {A : Type} (l : list A) (x : A) : Git.Array_pop (l ++ [x]) = l.
Proof.
  unfold Git.Array_pop. rewrite length_app. cbn [length].
  rewrite Nat.add_sub. by rewrite take_app_length.
Qed.

Section FindGitRoot.
Context {platform : Git.Platform}.

(** One call of [findGitRoot] on an array that is not empty: the array
    without its last element names the directory that is looked at, and the
    search goes on from that array. *)
Lemma findGitRootIn_snoc (start : list string) (last : string) :
  Git.findGitRootIn (length (start ++ [last])) (start ++ [last])
  = if Git.fs_existsSync (Git.path_join (directoryOf start) ".git")
    then Some (Git.path_normalize (directoryOf start))
    else Git.findGitRootIn (length start) start.
Proof.
  assert (length (start ++ [last]) = S (length start)) as Hlength.
  { rewrite length_app. cbn. lia. }
  rewrite Hlength. cbn [Git.findGitRootIn]. rewrite Hlength. cbn [Nat.eqb].
  by rewrite Array_pop_snoc.
Qed.

Lemma findGitRootIn_Some (start : list string) (result : string) :
  Git.findGitRootIn (length start) start = Some result ↔
  ∃ k, k < length start
       ∧ holdsRepository (directoryOf (take k start))
       ∧ (∀ j, k < j < length start → ¬ holdsRepository (directoryOf (take j start)))
       ∧ result = Git.path_normalize (directoryOf (take k start)).
Proof.
  revert result. induction start as [|last start IH] using rev_ind; intros result.
  { cbn. split; [done|]. intros (k & Hk & _). lia. }
  rewrite findGitRootIn_snoc, length_app. cbn [length]. unfold holdsRepository in *.
  destruct (Git.fs_existsSync (Git.path_join (directoryOf start) ".git")) eqn:Hgit.
  - split.
    + intros [= <-]. exists (length start). rewrite take_app_length.
      repeat split; [lia|done|]. intros j Hj. lia.
    + intros (k & Hk & Hthere & Hnearest & ->).
      destruct (decide (k = length start)) as [->|Hlower].
      { by rewrite take_app_length. }
      exfalso. apply (Hnearest (length start)); [lia|].
      by rewrite take_app_length.
  - rewrite IH. split.
    + intros (k & Hk & Hthere & Hnearest & ->). exists k.
      rewrite take_app_le by lia. repeat split; [lia|done|].
      intros j Hj. destruct (decide (j = length start)) as [->|Hlower].
      * rewrite take_app_length. congruence.
      * rewrite take_app_le by lia. apply Hnearest. lia.
    + intros (k & Hk & Hthere & Hnearest & ->).
      destruct (decide (k = length start)) as [->|Hlower].
      { rewrite take_app_length in Hthere. congruence. }
      exists k. rewrite take_app_le in * by lia. repeat split; [lia|done|].
      intros j Hj. specialize (Hnearest j). rewrite take_app_le in Hnearest by lia.
      apply Hnearest. lia.
Qed.

Lemma findGitRootIn_None (start : list string) :
  Git.findGitRootIn (length start) start = None ↔
  ∀ k, k < length start → ¬ holdsRepository (directoryOf (take k start)).
Proof.
  induction start as [|last start IH] using rev_ind.
  { cbn. split; [|done]. intros _ k Hk. lia. }
  rewrite findGitRootIn_snoc, length_app. cbn [length]. unfold holdsRepository in *.
  destruct (Git.fs_existsSync (Git.path_join (directoryOf start) ".git")) eqn:Hgit.
  - split; [done|]. intros Hnone. exfalso. apply (Hnone (length start)); [lia|].
    by rewrite take_app_length.
  - rewrite IH. split.
    + intros Hnone k Hk. destruct (decide (k = length start)) as [->|Hlower].
      * rewrite take_app_length. congruence.
      * rewrite take_app_le by lia. apply Hnone. lia.
    + intros Hnone k Hk. specialize (Hnone k). rewrite take_app_le in Hnone by lia.
      apply Hnone. lia.
Qed.

End FindGitRoot.

(** [findGitRoot] returns the nearest directory above its start that holds
    [.git]: with the start as an array of [n] components, the directories
    looked at are those of the first [n-1], [n-2], ..., 0 components, in
    that order, and the first that holds [.git] is returned, normalized;
    [undefined] is returned exactly when none does.  The directory of all
    [n] components is not looked at. *)
Theorem findGitRoot_nearest_repository {platform : Git.Platform} (start : Git.Start) :
  let components := Git.startComponents start in
  (∀ result,
     Git.findGitRoot start = Some result ↔
     ∃ k, k < length components
          ∧ holdsRepository (directoryOf (take k components))
          ∧ (∀ j, k < j < length components →
                  ¬ holdsRepository (directoryOf (take j components)))
          ∧ result = Git.path_normalize (directoryOf (take k components)))
  ∧ (Git.findGitRoot start = None ↔
     ∀ k, k < length components →
          ¬ holdsRepository (directoryOf (take k components))).
Proof.
  intros components. split.
  - intros result. apply findGitRootIn_Some.
  - apply findGitRootIn_None.
Qed.

(** [findGitRoot] on a path that is given as a string.  Without a start,
    or with the empty string, the search starts at the working directory.
    A separator at the end of the path makes no difference.  The path
    itself is the first directory that is looked at.  What is returned is
    the normal form of a directory that holds [.git] and that is the path,
    or a part of the path that ends before a separator, or the empty
    string, which stands for the components above the first separator. *)
Theorem findGitRoot_of_path {platform : Git.Platform} (start : string) :
  truthy start = true →
  Git.lastCharacter start ≠ Some Git.path_sep →
  let sep := String Git.path_sep EmptyString in
  (Git.findGitRoot Git.undefined = Git.findGitRoot (Git.ofString Git.process_cwd)
   ∧ Git.findGitRoot (Git.ofString "") = Git.findGitRoot Git.undefined)
  ∧ Git.findGitRoot (Git.ofString (start +:+ sep)) = Git.findGitRoot (Git.ofString start)
  ∧ (holdsRepository start →
     Git.findGitRoot (Git.ofString start) = Some (Git.path_normalize start))
  ∧ (∀ result,
       Git.findGitRoot (Git.ofString start) = Some result →
       ∃ dir,
         result = Git.path_normalize dir
         ∧ holdsRepository dir
         ∧ (dir = "" ∨ dir = start ∨ ∃ rest, start = dir +:+ sep +:+ rest)).
Proof.
  intros Hstart Hlast sep.
  assert (Hcomponents :
    Git.startComponents (Git.ofString start)
    = Git.String_split Git.path_sep start ++ [EmptyString]).
  { unfold Git.startComponents. rewrite Hstart.
    rewrite bool_decide_eq_false_2 by done. apply String_split_trailing. }
  split; [|split; [|split]].
  - split.
    + unfold Git.findGitRoot, Git.startComponents.
      by destruct (truthy Git.process_cwd) eqn:Hcwd.
    + reflexivity.
  - unfold Git.findGitRoot. f_equal; [f_equal|]; rewrite Hcomponents;
      unfold Git.startComponents;
      (assert (truthy (start +:+ sep) = true) as -> by (by destruct start));
      rewrite bool_decide_eq_true_2 by apply lastCharacter_snoc;
      apply String_split_trailing.
  - intros Hthere. unfold Git.findGitRoot. rewrite Hcomponents.
    rewrite findGitRootIn_snoc. unfold directoryOf, holdsRepository in *.
    rewrite String_split_join. by rewrite Hthere.
  - intros result Hresult. unfold Git.findGitRoot in Hresult.
    rewrite Hcomponents in Hresult.
    apply findGitRootIn_Some in Hresult as (k & Hk & Hthere & _ & ->).
    rewrite length_app in Hk. cbn [length] in Hk.
    rewrite take_app_le in * by lia.
    set (pieces := Git.String_split Git.path_sep start) in *.
    exists (directoryOf (take k pieces)). split; [done|]. split; [done|].
    destruct (decide (k = 0)) as [->|Hpositive]; [by left|]. right.
    destruct (decide (k = length pieces)) as [->|Hinner].
    + left. rewrite firstn_all. apply String_split_join.
    + right. exists (directoryOf (drop k pieces)).
      rewrite <- (String_split_join Git.path_sep start) at 1. fold pieces.
      rewrite <- (take_drop k pieces) at 1. unfold directoryOf.
      apply String_concat_app.
      * intros Hnil. apply (f_equal length) in Hnil.
        rewrite length_take in Hnil. cbn in Hnil. lia.
      * intros Hnil. apply (f_equal length) in Hnil.
        rewrite length_drop in Hnil. cbn in Hnil. lia.
Qed.

(** From a package of the instance the repository is found two directories
    up. *)
Lemma findGitRoot_of_path_witness :
  @Git.findGitRoot SampleGit.platform (Git.ofString "/home/me/project/")
  = @Git.findGitRoot SampleGit.platform (Git.ofString "/home/me/project")
  ∧ @Git.findGitRoot SampleGit.platform (Git.ofString "/home/me/project")
    = Some "/home/me/project".
Proof.
  pose proof (@findGitRoot_of_path SampleGit.platform "/home/me/project" eq_refl)
    as Hpath.
  destruct Hpath as (_ & Htrailing & Hitself & _); [by vm_compute|].
  split; [exact Htrailing|]. apply Hitself. by vm_compute.
Defined.

(** From the working directory of the instance, a package of the
    repository, the repository is found two directories up. *)
Lemma findGitRoot_nearest_witness :
  @Git.findGitRoot SampleGit.platform Git.undefined = Some "/home/me/project".
Proof.
  apply (proj2 (proj1 (@findGitRoot_nearest_repository SampleGit.platform
                         Git.undefined) "/home/me/project")).
  assert (@Git.startComponents SampleGit.platform Git.undefined
          = [ ""; "home"; "me"; "project"; "packages"; "apollo"; "" ]) as ->
    by (vm_compute; reflexivity).
  exists 4. split; [cbn [length]; lia|]. split; [by vm_compute|]. split; [|done].
  intros j Hj. cbn [length] in Hj.
  assert (j = 5 ∨ j = 6) as [-> | ->] by lia; by vm_compute.
Defined.

(** ** The git context ([gitInfo]) *)

Lemma orUndefined_truthy (s : option string) : orUndefined s ≠ Some "".
Proof. destruct s as [s|]; cbn; [|done]. by destruct s. Qed.

Lemma orUndefined_of_truthy (s : option string) :
  truthyOpt s = true → orUndefined s = s.
Proof. destruct s as [s|]; cbn; [|done]. by intros ->. Qed.

Lemma orUndefined_of_falsy (s : option string) :
  truthyOpt s = false → orUndefined s = None.
Proof. destruct s as [s|]; cbn; [|done]. by intros ->. Qed.

Section GitInfo.
Context {platform : Git.Platform} {services : Git.Services}.

(** The shape of every run that goes past the test of the commit. *)
Lemma gitInfo_with_commit :
  truthyOpt (Git.EnvCi.commit Git.ci) = true →
  Git.gitInfo
  = let branch := Git.orOpt (Git.EnvCi.branch Git.ci) (Git.EnvCi.prBranch Git.ci) in
    let remoteUrl :=
      Git.orOpt (Git.EnvCi.slug Git.ci) Git.process_env_BUILD_REPOSITORY_ID in
    if truthyOpt gitLocation then
      let latest := Git.latestCommit (default "" gitLocation) in
      let parsed :=
        timersOfEnvironment
        ++ [ Git.console_time "gitInfo#gitToJs()";
             Git.console_timeEnd "gitInfo#gitToJs()" ] in
      let asked :=
        if negb (Git.EnvCi.isCi Git.ci) then
          match Git.git_remoteUrl with
          | ServiceCheck.Normal url =>
              (Some url,
               parsed
               ++ [ Git.console_time "gitInfo#git.remoteUrl()";
                    Git.console_timeEnd "gitInfo#git.remoteUrl()" ])
          | ServiceCheck.ThrowError _ =>
              (remoteUrl, parsed ++ [ Git.console_time "gitInfo#git.remoteUrl()" ])
          end
        else (remoteUrl, parsed) in
      if negb (truthyOpt branch) then
        match Git.git_branch with
        | ServiceCheck.Normal branch =>
            (asked.2
             ++ [ Git.console_time "gitInfo#git.branch()";
                  Git.console_timeEnd "gitInfo#git.branch()" ],
             ServiceCheck.Normal
               (Some (Git.pickBy_identity (Some (Git.committerOf latest))
                        (Git.EnvCi.commit Git.ci) asked.1 (Git.Commit.message latest)
                        (Some branch))))
        | ServiceCheck.ThrowError e =>
            (asked.2 ++ [ Git.console_time "gitInfo#git.branch()" ],
             ServiceCheck.ThrowError e)
        end
      else
        (asked.2,
         ServiceCheck.Normal
           (Some (Git.pickBy_identity (Some (Git.committerOf latest))
                    (Git.EnvCi.commit Git.ci) asked.1 (Git.Commit.message latest)
                    branch)))
    else
      (timersOfEnvironment,
       ServiceCheck.Normal
         (Some (Git.pickBy_identity None (Git.EnvCi.commit Git.ci) remoteUrl None
                  branch))).
Proof.
  intros Hcommit. unfold Git.gitInfo, gitLocation, timersOfEnvironment.
  rewrite Hcommit. cbn [negb]. cbv zeta.
  destruct (truthyOpt (if truthyOpt (Git.EnvCi.root Git.ci) then _ else _)); [|done].
  destruct (negb (Git.EnvCi.isCi Git.ci)); [destruct Git.git_remoteUrl|]; done.
Qed.

Lemma gitInfo_without_commit :
  truthyOpt (Git.EnvCi.commit Git.ci) = false →
  Git.gitInfo = (timersOfEnvironment, ServiceCheck.Normal None).
Proof. intros Hcommit. unfold Git.gitInfo. by rewrite Hcommit. Qed.

Lemma gitInfo_throws (e : string) :
  (Git.gitInfo).2 = ServiceCheck.ThrowError e ↔
  truthyOpt (Git.EnvCi.commit Git.ci) = true
  ∧ truthyOpt gitLocation = true
  ∧ truthyOpt (Git.EnvCi.branch Git.ci) = false
  ∧ truthyOpt (Git.EnvCi.prBranch Git.ci) = false
  ∧ Git.git_branch = ServiceCheck.ThrowError e.
Proof.
  destruct (truthyOpt (Git.EnvCi.commit Git.ci)) eqn:Hcommit; cycle 1.
  { unfold Git.gitInfo. rewrite Hcommit. cbn. split; [done|]. by intros [? _]. }
  rewrite (gitInfo_with_commit Hcommit). cbv zeta. unfold Git.orOpt.
  destruct (truthyOpt gitLocation); cycle 1.
  { cbn. split; [done|]. by intros (_ & ? & _). }
  destruct (truthyOpt (Git.EnvCi.branch Git.ci)) eqn:Hbranch.
  { rewrite Hbranch. cbn. split; [done|]. by intros (_ & _ & ? & _). }
  destruct (truthyOpt (Git.EnvCi.prBranch Git.ci)) eqn:Hpr.
  { cbn. split; [done|]. by intros (_ & _ & _ & ? & _). }
  cbn [negb]. destruct Git.git_branch as [branch|e']; cbn.
  - split; [done|]. by intros (_ & _ & _ & _ & ?).
  - split; [by intros [= ->]|]. by intros (_ & _ & _ & _ & [= ->]).
Qed.

End GitInfo.

(** [gitInfo] resolves to [undefined] exactly when the environment tells no
    commit (none, or the empty string).  It then has run the timers around
    [ci()] and [findGitRoot()] and nothing else, so that neither the history
    nor the remote nor the branch was asked for, whatever they would have
    answered. *)
Theorem gitInfo_undefined_iff_no_commit
    {platform : Git.Platform} {services : Git.Services} :
  ((Git.gitInfo).2 = ServiceCheck.Normal None ↔
   truthyOpt (Git.EnvCi.commit Git.ci) = false)
  ∧ (truthyOpt (Git.EnvCi.commit Git.ci) = false →
     ∀ gitToJs git_remoteUrl git_branch,
       @Git.gitInfo platform
         (Git.Build_Services Git.ci gitToJs git_remoteUrl git_branch)
       = (timersOfEnvironment, ServiceCheck.Normal None)).
Proof.
  split.
  - destruct (truthyOpt (Git.EnvCi.commit Git.ci)) eqn:Hcommit.
    + rewrite (gitInfo_with_commit Hcommit). cbv zeta. split; [|done].
      destruct (truthyOpt gitLocation); [|done].
      destruct (negb (truthyOpt _)); [|done]. by destruct Git.git_branch.
    + unfold Git.gitInfo. by rewrite Hcommit.
  - intros Hcommit gitToJs git_remoteUrl git_branch. unfold Git.gitInfo.
    cbn [Git.ci]. by rewrite Hcommit.
Qed.

(** In a shell that knows no commit nothing is asked of git. *)
Lemma gitInfo_undefined_witness :
  @Git.gitInfo SampleGit.platform SampleGit.bare
  = (@timersOfEnvironment, ServiceCheck.Normal None).
Proof.
  exact (proj2 (@gitInfo_undefined_iff_no_commit SampleGit.platform SampleGit.bare)
           eq_refl _ _ _).
Defined.

(** A context that [gitInfo] resolves to holds the commit of the
    environment, and none of its keys holds the empty string: a key without
    a value is absent. *)
Theorem gitInfo_context_keys
    {platform : Git.Platform} {services : Git.Services} (context : Git.GitContext.t) :
  (Git.gitInfo).2 = ServiceCheck.Normal (Some context) →
  Git.GitContext.commit context = Git.EnvCi.commit Git.ci
  ∧ (∃ commit, Git.GitContext.commit context = Some commit ∧ commit ≠ "")
  ∧ Forall (λ key, key ≠ Some "") (keysOf context).
Proof.
  intros Hresult.
  destruct (truthyOpt (Git.EnvCi.commit Git.ci)) eqn:Hcommit; cycle 1.
  { unfold Git.gitInfo in Hresult. by rewrite Hcommit in Hresult. }
  assert (∃ committer remoteUrl message branch,
    context = Git.pickBy_identity committer (Git.EnvCi.commit Git.ci) remoteUrl
                message branch) as (committer & remoteUrl & message & branch & ->).
  { rewrite (gitInfo_with_commit Hcommit) in Hresult. cbv zeta in Hresult.
    destruct (truthyOpt gitLocation).
    - destruct (negb (truthyOpt _)).
      + destruct Git.git_branch; [|done]. injection Hresult as <-. by do 4 eexists.
      + injection Hresult as <-. by do 4 eexists.
    - injection Hresult as <-. by do 4 eexists. }
  cbn [Git.pickBy_identity Git.GitContext.commit keysOf Git.GitContext.committer
       Git.GitContext.remoteUrl Git.GitContext.message Git.GitContext.branch].
  split; [by apply orUndefined_of_truthy|]. split.
  - rewrite (orUndefined_of_truthy _ Hcommit).
    destruct (Git.EnvCi.commit Git.ci) as [commit|]; [|done].
    exists commit. split; [done|]. by intros ->.
  - repeat constructor; apply orUndefined_truthy.
Qed.

(** The context of the instance holds the commit of the environment. *)
Lemma gitInfo_context_keys_witness :
  ∃ context,
    (@Git.gitInfo SampleGit.platform SampleGit.services).2
    = ServiceCheck.Normal (Some context)
    ∧ Git.GitContext.commit context = Some "0a1b2c3".
Proof.
  eexists. split; [reflexivity|].
  exact (proj1 (@gitInfo_context_keys SampleGit.platform SampleGit.services _ eq_refl)).
Defined.

(** [gitInfo] fails in one case only: a commit is known, a repository is
    found, the environment tells neither a branch nor the branch of a pull
    request, and [git.branch()] throws; the error is that of
    [git.branch()].  A rejection of [gitToJs] and an error of
    [git.remoteUrl()] never make it fail. *)
Theorem gitInfo_throws_iff
    {platform : Git.Platform} {services : Git.Services} (e : string) :
  (Git.gitInfo).2 = ServiceCheck.ThrowError e ↔
  truthyOpt (Git.EnvCi.commit Git.ci) = true
  ∧ truthyOpt gitLocation = true
  ∧ truthyOpt (Git.EnvCi.branch Git.ci) = false
  ∧ truthyOpt (Git.EnvCi.prBranch Git.ci) = false
  ∧ Git.git_branch = ServiceCheck.ThrowError e.
Proof. apply gitInfo_throws. Qed.

(** In the detached checkout of the instance git cannot tell the branch. *)
Lemma gitInfo_throws_witness :
  (@Git.gitInfo SampleGit.platform SampleGit.detached).2
  = ServiceCheck.ThrowError "not a git repository".
Proof.
  apply (@gitInfo_throws_iff SampleGit.platform SampleGit.detached).
  by repeat split.
Defined.

(** Where the values of a context come from.  The branch of the environment
    goes before the branch of the pull request, and git is asked for the
    branch only when both are missing.  On a continuous-integration
    service, and whenever [git.remoteUrl()] throws, the remote is the slug
    of the environment or else [BUILD_REPOSITORY_ID]; elsewhere, in a
    repository, it is what [git.remoteUrl()] returns, whatever the
    environment says.  Without a repository the context has neither
    committer nor message. *)
Theorem gitInfo_sources
    {platform : Git.Platform} {services : Git.Services} (context : Git.GitContext.t) :
  (Git.gitInfo).2 = ServiceCheck.Normal (Some context) →
  let ofEnvironment :=
    orUndefined
      (Git.orOpt (Git.EnvCi.slug Git.ci) Git.process_env_BUILD_REPOSITORY_ID) in
  (truthyOpt (Git.EnvCi.branch Git.ci) = true →
   Git.GitContext.branch context = Git.EnvCi.branch Git.ci)
  ∧ (truthyOpt (Git.EnvCi.branch Git.ci) = false →
     truthyOpt (Git.EnvCi.prBranch Git.ci) = true →
     Git.GitContext.branch context = Git.EnvCi.prBranch Git.ci)
  ∧ (truthyOpt (Git.EnvCi.branch Git.ci) = false →
     truthyOpt (Git.EnvCi.prBranch Git.ci) = false →
     (truthyOpt gitLocation = false → Git.GitContext.branch context = None)
     ∧ (truthyOpt gitLocation = true →
        ∃ branch,
          Git.git_branch = ServiceCheck.Normal branch
          ∧ Git.GitContext.branch context = orUndefined (Some branch)))
  ∧ (Git.EnvCi.isCi Git.ci = true → Git.GitContext.remoteUrl context = ofEnvironment)
  ∧ (∀ e, Git.git_remoteUrl = ServiceCheck.ThrowError e →
          Git.GitContext.remoteUrl context = ofEnvironment)
  ∧ (∀ url, Git.EnvCi.isCi Git.ci = false → truthyOpt gitLocation = true →
            Git.git_remoteUrl = ServiceCheck.Normal url →
            Git.GitContext.remoteUrl context = orUndefined (Some url))
  ∧ (truthyOpt gitLocation = false →
     Git.GitContext.committer context = None
     ∧ Git.GitContext.message context = None
     ∧ Git.GitContext.remoteUrl context = ofEnvironment).
Proof.
  intros Hresult ofEnvironment. subst ofEnvironment.
  destruct (truthyOpt (Git.EnvCi.commit Git.ci)) eqn:Hcommit; cycle 1.
  { unfold Git.gitInfo in Hresult. by rewrite Hcommit in Hresult. }
  rewrite (gitInfo_with_commit Hcommit) in Hresult. cbv zeta in Hresult.
  unfold Git.orOpt in *.
  destruct (truthyOpt gitLocation) eqn:Hlocation;
    destruct (truthyOpt (Git.EnvCi.branch Git.ci)) eqn:Hbranch;
    destruct (truthyOpt (Git.EnvCi.prBranch Git.ci)) eqn:Hpr;
    rewrite ?Hbranch, ?Hpr in Hresult; cbn [negb] in Hresult;
    destruct (Git.EnvCi.isCi Git.ci) eqn:Hci; cbn [negb] in Hresult;
    destruct Git.git_remoteUrl as [url|e'] eqn:Hremote;
    destruct Git.git_branch as [branch|e''] eqn:Hgit;
    cbn [fst snd] in Hresult; try done;
    injection Hresult as <-;
    cbn [Git.pickBy_identity Git.GitContext.branch Git.GitContext.remoteUrl
         Git.GitContext.committer Git.GitContext.message];
    rewrite ?(orUndefined_of_truthy _ Hbranch), ?(orUndefined_of_truthy _ Hpr),
      ?(orUndefined_of_falsy _ Hpr);
    repeat split; try done; try (intros; simplify_eq; done);
    try (intros; by eexists).
Qed.

(** The remote of the instance, a shell in a repository, is the one git
    knows. *)
Lemma gitInfo_sources_witness :
  ∃ context,
    (@Git.gitInfo SampleGit.platform SampleGit.services).2
    = ServiceCheck.Normal (Some context)
    ∧ Git.GitContext.branch context = Some "main".
Proof.
  eexists. split; [reflexivity|].
  exact (proj1 (@gitInfo_sources SampleGit.platform SampleGit.services _ eq_refl)
           eq_refl).
Defined.

(** The committer and the message of a context come from the first commit
    of the history: the committer is the name of the author, a blank and
    the address between angle brackets, trimmed, and the message is that of
    the commit.  Where the history cannot be read (the promise rejects) or
    holds no commit, and trimming a blank leaves nothing, the context has
    neither committer nor message. *)
Theorem gitInfo_committer
    {platform : Git.Platform} {services : Git.Services} (context : Git.GitContext.t) :
  (Git.gitInfo).2 = ServiceCheck.Normal (Some context) →
  truthyOpt gitLocation = true →
  let history := Git.gitToJs (default "" gitLocation) in
  (∀ commit commits,
     history = ServiceCheck.Normal (Some (commit :: commits)) →
     Git.GitContext.committer context
     = orUndefined
         (Some
            (Git.String_trim
               (default "" (Git.Commit.authorName commit) +:+ " "
                +:+ (if truthyOpt (Git.Commit.authorEmail commit)
                     then "<" +:+ default "" (Git.Commit.authorEmail commit) +:+ ">"
                     else ""))))
     ∧ Git.GitContext.message context = orUndefined (Git.Commit.message commit))
  ∧ ((∀ commit commits, history ≠ ServiceCheck.Normal (Some (commit :: commits))) →
     Git.String_trim " " = "" →
     Git.GitContext.committer context = None
     ∧ Git.GitContext.message context = None).
Proof.
  intros Hresult Hlocation history.
  destruct (truthyOpt (Git.EnvCi.commit Git.ci)) eqn:Hcommit; cycle 1.
  { unfold Git.gitInfo in Hresult. by rewrite Hcommit in Hresult. }
  rewrite (gitInfo_with_commit Hcommit) in Hresult. cbv zeta in Hresult.
  rewrite Hlocation in Hresult.
  assert (Git.GitContext.committer context
          = orUndefined
              (Some (Git.committerOf (Git.latestCommit (default "" gitLocation))))
          ∧ Git.GitContext.message context
            = orUndefined
                (Git.Commit.message (Git.latestCommit (default "" gitLocation))))
    as [-> ->].
  { destruct (negb (truthyOpt _)).
    - destruct Git.git_branch; [|done]. by injection Hresult as <-.
    - by injection Hresult as <-. }
  unfold Git.latestCommit. fold history. split.
  - intros commit commits ->. done.
  - intros Hnone Hblank.
    assert (match history with
            | ServiceCheck.Normal (Some (commit :: _)) => commit
            | _ => Git.Commit.make None None None
            end = Git.Commit.make None None None) as ->.
    { destruct history as [[[|commit commits]|]|e]; try done.
      by destruct (Hnone commit commits). }
    unfold Git.committerOf. cbn.
    change ("" +:+ " " +:+ "") with " ". by rewrite Hblank.
Qed.

(** In the checkout of the instance whose history cannot be read the
    context has no committer. *)
Lemma gitInfo_committer_witness :
  ∃ context,
    (@Git.gitInfo SampleGit.platform SampleGit.unreadable).2
    = ServiceCheck.Normal (Some context)
    ∧ Git.GitContext.committer context = None.
Proof.
  eexists. split; [reflexivity|].
  refine (proj1 (proj2 (@gitInfo_committer SampleGit.platform SampleGit.unreadable _
                          eq_refl eq_refl) _ eq_refl)).
  intros commit commits. discriminate.
Defined.

(** ** The task of the check command *)

(** The tag for which the schema is resolved: the flag, else the tag of the
    configuration, else [current]. *)
Lemma tag_of_check (config : ServiceCheck.Config.t) (flags : ServiceCheck.Flags.t) :
  (if truthyOpt (ServiceCheck.Flags.tag flags)
   then default "current" (ServiceCheck.Flags.tag flags)
   else if truthyOpt (ServiceCheck.Config.tag config)
        then default "current" (ServiceCheck.Config.tag config)
        else "current")
  = default "current"
      (orUndefined
         (Git.orOpt (ServiceCheck.Flags.tag flags) (ServiceCheck.Config.tag config))).
Proof.
  unfold Git.orOpt.
  destruct (truthyOpt (ServiceCheck.Flags.tag flags)) eqn:Hflag.
  { by rewrite (orUndefined_of_truthy _ Hflag). }
  destruct (truthyOpt (ServiceCheck.Config.tag config)) eqn:Hconfig.
  { by rewrite (orUndefined_of_truthy _ Hconfig). }
  by rewrite (orUndefined_of_falsy _ Hconfig).
Qed.



(** ** The errors of the historic parameters *)

(** [validateHistoricParams] blames the first parameter that is out of
    range, in the order [to], [from], [queryCountThreshold],
    [queryCountThresholdPercentage], and no other: a wrong [--to] hides
    every other mistake.  The comparisons are those of the range, so that
    a [to] or [from] that is not a number, or a threshold that is not an
    integer, is out of range. *)
Theorem validateHistoricParams_first_error (Number : string → ServiceCheck.number)
    (to from : string)
    (queryCountThreshold queryCountThresholdPercentage : ServiceCheck.number) :
  let toInRange :=
    to ≠ "0" ∧ ServiceCheck.Number_isInteger (Number to) = true
    ∧ PrimFloat.leb (Number to) 0 = true in
  let fromInRange :=
    from ≠ "0" ∧ ServiceCheck.Number_isInteger (Number from) = true
    ∧ PrimFloat.ltb (Number from) (Number to) = true in
  let countInRange :=
    ServiceCheck.Number_isInteger queryCountThreshold = true
    ∧ PrimFloat.leb 1 queryCountThreshold = true in
  let result :=
    ServiceCheck.validateHistoricParams Number to from queryCountThreshold
      queryCountThresholdPercentage in
  (¬ toInRange →
   result
   = ServiceCheck.ThrowError
       "Please provide a valid number for the --to flag. Valid numbers are in the range x <= -0.")
  ∧ (toInRange → ¬ fromInRange →
     result
     = ServiceCheck.ThrowError
         "Please provide a valid number for the --from flag. Valid numbers are integers in the range x < -0, and --from must be less than --to.")
  ∧ (toInRange → fromInRange → ¬ countInRange →
     result
     = ServiceCheck.ThrowError
         "Please provide a valid number for the --queryCountThreshold flag. Valid numbers are integers in the range x >= 1.")
  ∧ (toInRange → fromInRange → countInRange →
     PrimFloat.ltb queryCountThresholdPercentage 0 = true
     ∨ PrimFloat.ltb 100 queryCountThresholdPercentage = true →
     result
     = ServiceCheck.ThrowError
         "Please provide a valid number for the --queryCountThresholdPercentage flag. Valid numbers are in the range 0 <= x <= 100.").
Proof.
  intros toInRange fromInRange countInRange result.
  subst toInRange fromInRange countInRange result.
  unfold ServiceCheck.validateHistoricParams. cbv zeta.
  assert (PrimFloat.is_nan 0 = false) as Hzero by (vm_compute; reflexivity).
  assert (PrimFloat.is_nan 1 = false) as Hone by (vm_compute; reflexivity).
  case_bool_decide as Hto; cbn [orb].
  { repeat split; try done; by intros [? _]. }
  destruct (ServiceCheck.Number_isInteger (Number to)) eqn:HtoInteger; cycle 1.
  { rewrite !orb_true_r. repeat split; try done; by intros (_ & ? & _). }
  pose proof (Number_isInteger_not_NaN _ HtoInteger) as HtoNaN.
  rewrite HtoNaN. unfold ServiceCheck.Number_isNaN in HtoNaN. cbn [orb negb].
  rewrite orb_false_r.
  destruct (PrimFloat.ltb 0 (Number to)) eqn:HtoSign.
  { repeat split; try done; intros (_ & _ & Hle);
      apply (ltb_false_leb _ _ Hzero HtoNaN) in Hle; congruence. }
  apply (ltb_false_leb _ _ Hzero HtoNaN) in HtoSign.
  split; [intros Hnot; by destruct Hnot|].
  case_bool_decide as Hfrom; cbn [orb].
  { repeat split; try done; by intros _ [? _]. }
  destruct (ServiceCheck.Number_isInteger (Number from)) eqn:HfromInteger; cycle 1.
  { rewrite !orb_true_r. repeat split; try done; by intros _ (_ & ? & _). }
  pose proof (Number_isInteger_not_NaN _ HfromInteger) as HfromNaN.
  rewrite HfromNaN. unfold ServiceCheck.Number_isNaN in HfromNaN. cbn [orb negb].
  rewrite orb_false_r.
  destruct (PrimFloat.leb (Number to) (Number from)) eqn:Horder.
  { repeat split; try done; intros _ (_ & _ & Hlt);
      apply (leb_false_ltb _ _ HtoNaN HfromNaN) in Hlt; congruence. }
  apply (leb_false_ltb _ _ HtoNaN HfromNaN) in Horder.
  split; [intros _ Hnot; by destruct Hnot|].
  destruct (ServiceCheck.Number_isInteger queryCountThreshold) eqn:HcountInteger;
    cycle 1.
  { cbn [orb negb]. repeat split; try done; by intros _ _ [? _]. }
  pose proof (Number_isInteger_not_NaN _ HcountInteger) as HcountNaN.
  unfold ServiceCheck.Number_isNaN in HcountNaN. cbn [orb negb].
  destruct (PrimFloat.ltb queryCountThreshold 1) eqn:Hcount.
  { repeat split; try done; intros _ _ [_ Hle];
      apply (ltb_false_leb _ _ HcountNaN Hone) in Hle; congruence. }
  apply (ltb_false_leb _ _ HcountNaN Hone) in Hcount.
  split; [intros _ _ Hnot; by destruct Hnot|].
  intros _ _ _ [->| ->]; [done|]. by rewrite orb_true_r.
Qed.

(** With [--to 5] and [--from 0], two mistakes, the error is that of
    [--to]. *)
Lemma validateHistoricParams_first_error_witness :
  ServiceCheck.validateHistoricParams ServiceCheck.NumberOfDecimal "5" "0"
    1%float 0%float
  = ServiceCheck.ThrowError
      "Please provide a valid number for the --to flag. Valid numbers are in the range x <= -0.".
Proof.
  apply (proj1 (validateHistoricParams_first_error ServiceCheck.NumberOfDecimal
                  "5" "0" 1%float 0%float)).
  intros (_ & _ & Hle). by vm_compute in Hle.
Defined.

(** ** The check command and the git context together *)

(** [run] with the [gitInfo] of [git.ts], for a service with a name whose
    schema resolves.  Where no commit is known, the check is submitted all
    the same, with an undefined git context, once the flags are valid and
    the introspection of the schema returns.  Where [gitInfo] fails (git
    cannot tell the branch that the environment does not tell), the run
    ends with that error before the flags are validated and the schema is
    introspected, and no check is submitted. *)
Theorem run_with_gitInfo
    {platform : Git.Platform} {services : Git.Services}
    {ChangeType : Type} `{EqDecision ChangeType} (FAILURE : ChangeType)
    {Row Schema IntrospectionSchema : Type}
    (Number : string → ServiceCheck.number)
    (format : ServiceCheck.SchemaChange (ChangeType := ChangeType) → Row)
    (resolveSchema : string → ServiceCheck.Completion Schema)
    (introspectionFromSchema :
       Schema →
       ServiceCheck.Completion
         (ServiceCheck.IntrospectionQuery (IntrospectionSchema := IntrospectionSchema)))
    (config : ServiceCheck.Config.t) (flags : ServiceCheck.Flags.t)
    (name : string) (schema : Schema) :
  ServiceCheck.Config.name config = Some name →
  name ≠ "" →
  resolveSchema
    (default "current"
       (orUndefined
          (Git.orOpt (ServiceCheck.Flags.tag flags) (ServiceCheck.Config.tag config))))
  = ServiceCheck.Normal schema →
  (truthyOpt (Git.EnvCi.commit Git.ci) = false →
   ∀ historicParameters introspection,
     ServiceCheck.validateHistoricParams Number
       (ServiceCheck.Flags.to flags) (ServiceCheck.Flags.from flags)
       (ServiceCheck.Flags.queryCountThreshold flags)
       (ServiceCheck.Flags.queryCountThresholdPercentage flags)
     = ServiceCheck.Normal historicParameters →
     introspectionFromSchema schema = ServiceCheck.Normal introspection →
     ∀ checkSchema,
       ServiceCheck.run FAILURE Number format resolveSchema (Git.gitInfo).2
         introspectionFromSchema checkSchema config flags
       = match
           checkSchema
             (ServiceCheck.makeCheckSchemaVariables name
                (ServiceCheck.__schema introspection)
                (ServiceCheck.Flags.tag flags) None
                (Git.orOpt (ServiceCheck.Flags.frontend flags)
                   (ServiceCheck.EngineConfig.frontend
                      (ServiceCheck.Config.engine config)))
                historicParameters)
         with
         | ServiceCheck.Normal result => ServiceCheck.report FAILURE format result
         | ServiceCheck.ThrowError e => ([], ServiceCheck.thrown e)
         end)
  ∧ (∀ e,
       truthyOpt (Git.EnvCi.commit Git.ci) = true →
       truthyOpt gitLocation = true →
       truthyOpt (Git.EnvCi.branch Git.ci) = false →
       truthyOpt (Git.EnvCi.prBranch Git.ci) = false →
       Git.git_branch = ServiceCheck.ThrowError e →
       ∀ checkSchema,
         ServiceCheck.run FAILURE Number format resolveSchema (Git.gitInfo).2
           introspectionFromSchema checkSchema config flags
         = ([], ServiceCheck.thrown e)).
Proof.
  intros Hname Hnonempty Hschema.
  assert (truthyOpt (ServiceCheck.Config.name config) = true) as Htruthy.
  { rewrite Hname. by destruct name. }
  split.
  - intros Hcommit historicParameters introspection Hvalid Hintrospection checkSchema.
    pose proof (f_equal snd (gitInfo_without_commit Hcommit)) as Hgit.
    cbn [snd] in Hgit.
    unfold ServiceCheck.run, ServiceCheck.checkingServiceForChanges.
    rewrite Htruthy, tag_of_check, Hschema, Hgit, Hvalid, Hname. cbn.
    rewrite Hintrospection. cbn.
    by destruct (checkSchema _).
  - intros e Hcommit Hlocation Hbranch Hpr Hgit checkSchema.
    pose proof (proj2 (gitInfo_throws e)
                  (conj Hcommit (conj Hlocation (conj Hbranch (conj Hpr Hgit)))))
      as Hthrows.
    unfold ServiceCheck.run, ServiceCheck.checkingServiceForChanges.
    by rewrite Htruthy, tag_of_check, Hschema, Hthrows.
Qed.

(** In the detached checkout of the instance git cannot tell the branch,
    and the run ends with its error. *)
Lemma run_with_gitInfo_witness :
  @ServiceCheck.run SampleCheck.ChangeType SampleCheck.ChangeType_eq_dec
    SampleCheck.FAILURE (string * string) string string (option Git.GitContext.t)
    ServiceCheck.NumberOfDecimal SampleCheck.format SampleCheck.resolveSchema
    (@Git.gitInfo SampleGit.platform SampleGit.detached).2
    SampleCheck.introspectionFromSchema
    (λ _, ServiceCheck.Normal
            (ServiceCheck.makeCheckSchemaResult "https://engine.example/check/1"
               SampleCheck.changes))
    SampleCheck.config SampleCheck.flags
  = ([], ServiceCheck.thrown "not a git repository").
Proof.
  refine (proj2 (@run_with_gitInfo SampleGit.platform SampleGit.detached
                   SampleCheck.ChangeType SampleCheck.ChangeType_eq_dec
                   SampleCheck.FAILURE (string * string) string string
                   ServiceCheck.NumberOfDecimal SampleCheck.format
                   SampleCheck.resolveSchema SampleCheck.introspectionFromSchema
                   SampleCheck.config SampleCheck.flags
                   "my-service" "schema@current" eq_refl _ eq_refl)
            "not a git repository" eq_refl eq_refl eq_refl eq_refl eq_refl _).
  done.
Defined.

(** ** Regenerating one file, and the context after a run *)

Section AfterARun.
Context {printing : Printing} {language : Language}.
Context {helpers : Helpers} {visitors : Visitors}.

Lemma withOperationId_filePath context operation :
  Operation.filePath (withOperationId context operation) = Operation.filePath operation.
Proof.
  unfold withOperationId, operationIdentifierDeclaration.
  by destruct (CompilerOptions.generateOperationIds _).
Qed.

Lemma forEachOperation_context context depth outputIndividualFiles selected
    operations operations' out :
  forEachOperation context depth outputIndividualFiles selected operations
  = Ok (operations', out) →
  operations'
  = map (λ entry,
           (entry.1,
            if selected entry.2 then withOperationId context entry.2 else entry.2))
      operations.
Proof.
  intros Hresult. apply forEachOperation_classes in Hresult as [_ Hoperations].
  induction Hoperations as [|[key before] [key' after] operations operations'
                              [Hkey Hafter] _ IH]; [done|].
  cbn [map fst snd] in *. rewrite IH. f_equal. subst key'. f_equal.
  destruct (selected before); [|done].
  destruct Hafter as [declaration Hafter].
  by apply classDeclarationForOperation_Ok in Hafter as (_ & _ & _ & _ & _ & -> & _).
Qed.

(** The loop over the input files changes the operations of the paths that
    are not skipped, each as its declaration leaves it. *)
Lemma forEachInputFile_context context depth only paths current context' files :
  NoDup paths →
  forEachInputFile (withOperations context current) depth only paths
  = Ok (context', files) →
  context'
  = withOperations context
      (map (λ entry,
              (entry.1,
               if bool_decide (Operation.filePath entry.2 ∈ paths)
                  && declaredIn true only entry.2
               then withOperationId context entry.2 else entry.2))
         current).
Proof.
  intros Hdistinct. revert current context' files.
  induction paths as [|inputFilePath paths IH]; intros current context' files Hresult.
  - injection Hresult as <- <-. f_equal.
    rewrite <- (map_id current) at 1. apply map_ext. by intros [key operation].
  - apply NoDup_cons in Hdistinct as [Hfresh Hdistinct].
    specialize (IH Hdistinct). cbn [forEachInputFile] in Hresult.
    destruct (truthyOpt only && negb (bool_decide (Some inputFilePath = only)))
      eqn:Hskip.
    + apply IH in Hresult as ->. f_equal. apply map_ext. intros [key operation].
      cbn [fst snd]. unfold declaredIn. cbn [negb orb].
      apply andb_true_iff in Hskip as [-> Hother]. cbn [negb orb].
      apply negb_true_iff, bool_decide_eq_false in Hother.
      destruct (decide (Some (Operation.filePath operation) = only)) as [Honly|Hnot].
      * rewrite (bool_decide_eq_true_2 _ Honly), !andb_true_r.
        assert (Operation.filePath operation ≠ inputFilePath) by congruence.
        destruct (decide (Operation.filePath operation ∈ paths)) as [Hin|Hout].
        -- rewrite !bool_decide_eq_true_2; [done|by right|done].
        -- rewrite !bool_decide_eq_false_2; [done| |done].
           intros [?|?]%elem_of_cons; done.
      * by rewrite (bool_decide_eq_false_2 _ Hnot), !andb_false_r.
    + apply bind_Ok in Hresult as ([operations classes] & Hclasses & Hresult).
      apply bind_Ok in Hresult as (structs & _ & Hresult).
      apply bind_Ok in Hresult as ([context'' rest] & Hrest & [= <- _]).
      cbn [withOperations CompilerContext.operations CompilerContext.fragments
           CompilerContext.options CompilerContext.typesUsed] in *.
      pose proof (forEachOperation_context _ _ _ _ _ _ _ Hclasses) as ->.
      change (withOperations (withOperations context current) ?o)
        with (withOperations context o) in Hrest.
      apply IH in Hrest as ->. f_equal. rewrite map_map. apply map_ext.
      intros [key operation]. cbn [fst snd].
      change (withOperationId (withOperations context current))
        with (withOperationId context).
      assert (declaredIn true only operation
              = negb (truthyOpt only)
                || bool_decide (Some (Operation.filePath operation) = only)) as Hdeclared
        by done.
      destruct (decide (Operation.filePath operation = inputFilePath)) as [Hhere|Hhere].
      * rewrite (bool_decide_eq_true_2 _ Hhere). rewrite withOperationId_filePath.
        rewrite Hhere, (bool_decide_eq_false_2 _ Hfresh).
        rewrite bool_decide_eq_true_2 by left. cbn [andb].
        rewrite Hdeclared, Hhere.
        destruct (truthyOpt only); [|done]. cbn in Hskip.
        apply negb_false_iff in Hskip. by rewrite Hskip.
      * rewrite (bool_decide_eq_false_2 _ Hhere).
        destruct (decide (Operation.filePath operation ∈ paths)) as [Hin|Hout].
        -- rewrite !bool_decide_eq_true_2; [done|by right|done].
        -- rewrite !bool_decide_eq_false_2; [done| |done].
           intros [?|?]%elem_of_cons; done.
Qed.

(** With a file to regenerate, the loop makes that file, when it is among
    the paths, and no other. *)
Lemma forEachInputFile_only context depth (only : string) paths context' files :
  truthy only = true →
  NoDup paths →
  forEachInputFile context depth (Some only) paths = Ok (context', files) →
  files = if bool_decide (only ∈ paths) then [ fileOf context depth only ] else [].
Proof.
  intros Honly Hdistinct. revert context context' files.
  induction paths as [|inputFilePath paths IH]; intros context context' files Hresult.
  - by injection Hresult as <- <-.
  - apply NoDup_cons in Hdistinct as [Hfresh Hdistinct].
    specialize (IH Hdistinct). cbn [forEachInputFile truthyOpt] in Hresult.
    rewrite Honly in Hresult. cbn [andb] in Hresult.
    destruct (decide (inputFilePath = only)) as [->|Hother].
    + rewrite bool_decide_eq_true_2 in Hresult by done. cbn [negb] in Hresult.
      apply bind_Ok in Hresult as ([operations classes] & Hclasses & Hresult).
      apply bind_Ok in Hresult as (structs & Hstructs & Hresult).
      apply bind_Ok in Hresult as ([context'' rest] & Hrest & [= <- <-]).
      apply forEachOperation_classes in Hclasses as [-> _].
      apply forEachFragment_structs in Hstructs as ->.
      apply IH in Hrest as ->.
      rewrite (bool_decide_eq_false_2 _ Hfresh).
      by rewrite bool_decide_eq_true_2 by left.
    + rewrite bool_decide_eq_false_2 in Hresult by congruence. cbn [negb] in Hresult.
      apply IH in Hresult as ->.
      destruct (decide (only ∈ paths)) as [Hin|Hout].
      * rewrite !bool_decide_eq_true_2; [done|by right|done].
      * rewrite !bool_decide_eq_false_2; [done| |done].
        intros [?|?]%elem_of_cons; done.
Qed.

(** The empty string stands for no file to regenerate. *)
Lemma forEachInputFile_empty_only context depth paths :
  forEachInputFile context depth (Some "") paths
  = forEachInputFile context depth None paths.
Proof.
  revert context. induction paths as [|inputFilePath paths IH]; intros context;
    [done|].
  cbn [forEachInputFile truthyOpt truthy String.eqb negb andb].
  destruct (forEachOperation _ _ _ _ _) as [[operations classes]|e]; [|done]. cbn.
  destruct (forEachFragment _ _ _ _ _) as [structs|e]; [|done]. cbn.
  by rewrite IH.
Qed.

End AfterARun.

(** Regenerating one file.  In the individual-files mode with a path to
    regenerate, [generateSource] makes [Types.graphql.swift] and then the
    file of that path, if the path is the file of some operation or
    fragment, and no other file; the empty string for the path is no path
    at all, and the single-file mode does not look at the path. *)
Theorem generateSource_only
    {printing : Printing} {language : Language} {helpers : Helpers}
    {visitors : Visitors} (context : CompilerContext.t) (depth : nat) (only : string) :
  (truthy only = true →
   ∀ context' out,
     generateSource depth context true (Some only) = Ok (context', out) →
     out
     = typesFile context
       :: (if bool_decide (only ∈ inputFilePaths context)
           then [ fileOf context depth only ] else []))
  ∧ generateSource depth context true (Some "") = generateSource depth context true None
  ∧ generateSource depth context false (Some only)
    = generateSource depth context false None.
Proof.
  split; [|split].
  - intros Honly context' out. unfold generateSource. intros Hresult.
    apply bind_Ok in Hresult as ([context'' files] & Hfiles & [= <- <-]).
    unfold typesFile, typesOf. f_equal.
    by eapply forEachInputFile_only; [|apply inputFilePaths_NoDup|].
  - unfold generateSource. by rewrite forEachInputFile_empty_only.
  - reflexivity.
Qed.

(** Regenerating the file of the query of the instance leaves the file of
    its fragment out. *)
Lemma generateSource_only_witness :
  ∃ context',
    @generateSource Sample.printing Sample.language Sample.helpers Sample.visitors 5
      (Sample.context None false) true (Some "queries/Hero.graphql")
    = Ok (context',
          [ @typesFile Sample.printing Sample.language Sample.helpers
              (Sample.context None false);
            @fileOf Sample.printing Sample.language Sample.helpers Sample.visitors
              (Sample.context None false) 5 "queries/Hero.graphql" ]).
Proof.
  destruct (@generateSource Sample.printing Sample.language Sample.helpers
              Sample.visitors 5 (Sample.context None false) true
              (Some "queries/Hero.graphql"))
    as [[context' out]|failure] eqn:Hresult; [|by vm_compute in Hresult].
  exists context'. f_equal. f_equal.
  exact (proj1 (@generateSource_only Sample.printing Sample.language Sample.helpers
                  Sample.visitors (Sample.context None false) 5
                  "queries/Hero.graphql") eq_refl context' out Hresult).
Defined.

(** The context after a run.  [generateSource] returns the context with
    every operation that it declares as the declaration leaves it (with
    the identifier under [generateOperationIds]) and every other operation,
    the types, the fragments and the options as they were.  Each operation
    is declared once: all of them in the single-file mode and in the
    individual-files mode, the operations of the one file when a file to
    regenerate is given. *)
Theorem generateSource_context
    {printing : Printing} {language : Language} {helpers : Helpers}
    {visitors : Visitors} (context : CompilerContext.t) (depth : nat)
    (outputIndividualFiles : bool) (only : option string)
    (context' : CompilerContext.t) (out : list Emit) :
  generateSource depth context outputIndividualFiles only = Ok (context', out) →
  context'
  = withOperations context
      (map (λ entry,
              (entry.1,
               if declaredIn outputIndividualFiles only entry.2
               then withOperationId context entry.2 else entry.2))
         (CompilerContext.operations context)).
Proof.
  unfold generateSource. destruct outputIndividualFiles.
  - intros Hresult.
    apply bind_Ok in Hresult as ([context'' files] & Hfiles & [= <- _]).
    destruct context as [typesUsed operations fragments options].
    pose proof (forEachInputFile_context
                  (CompilerContext.make typesUsed operations fragments options)
                  depth only _ operations context'' files (inputFilePaths_NoDup _)
                  Hfiles) as ->.
    cbn [CompilerContext.operations]. f_equal.
    apply map_ext_in. intros [key operation] Hin. cbn [fst snd].
    rewrite bool_decide_eq_true_2; [done|].
    unfold inputFilePaths. apply list_elem_of_In in Hin.
    apply foldl_Set_add_elem. left. apply foldl_Set_add_elem. right.
    apply list_elem_of_fmap. exists operation. split; [done|].
    apply list_elem_of_fmap. by exists (key, operation).
  - intros Hresult.
    apply bind_Ok in Hresult as ([operations classes] & Hclasses & Hresult).
    apply bind_Ok in Hresult as (structs & _ & [= <- _]).
    by rewrite (forEachOperation_context _ _ _ _ _ _ _ Hclasses).
Qed.

(** With identifiers, the run over the instance leaves the query with its
    identifier. *)
Lemma generateSource_context_witness :
  ∃ context' out,
    @generateSource Sample.printing Sample.language Sample.helpers Sample.visitors 5
      (Sample.context None true) true None = Ok (context', out)
    ∧ Operation.operationId <$> (CompilerContext.operations context').*2
      = [ Some "Hero+HeroDetails" ].
Proof.
  eexists _, _. split; [reflexivity|].
  by rewrite (@generateSource_context Sample.printing Sample.language Sample.helpers
                Sample.visitors (Sample.context None true) 5 true None _ _ eq_refl).
Defined.

(** ** Operations that are not rendered *)

Section Unsupported.
Context {printing : Printing} {language : Language}.
Context {helpers : Helpers} {visitors : Visitors}.
Variable context : CompilerContext.t.
Variable depth : nat.

(** An operation is fit for the run when it is of a type that is rendered
    and [collectFragmentsReferenced] returns on it. *)
Let fit (operation : Operation.t) : Prop :=
  supportedOperationType (Operation.operationType operation)
  ∧ collectFragmentsReferencedError (Operation.selectionSet operation)
      (CompilerContext.fragments context) = None.

(** The error with which the declaration of an operation stops the run,
    other than the depth bound of the embedding. *)
Let stops (operation : Operation.t) (e : Failure) : Prop :=
  (¬ supportedOperationType (Operation.operationType operation)
   ∧ e = unsupportedOperation operation)
  ∨ (supportedOperationType (Operation.operationType operation)
     ∧ ∃ error,
         collectFragmentsReferencedError (Operation.selectionSet operation)
           (CompilerContext.fragments context) = Some error
         ∧ e = VisitorError error).

Lemma withOperationId_same operation :
  sameExceptOperationId operation (withOperationId context operation).
Proof.
  unfold withOperationId, operationIdentifierDeclaration.
  destruct (CompilerOptions.generateOperationIds _); by repeat split.
Qed.

Lemma classDeclarationForOperation_unfit operation outputIndividualFiles e :
  classDeclarationForOperation context depth operation outputIndividualFiles = Throw e →
  e = DepthExceeded ∨ stops operation e.
Proof.
  intros Hthrow.
  destruct (classDeclarationForOperation_Throw _ _ _ _ _ Hthrow)
    as [?|[?|[_ ->]]]; [right; by left|right; by right|by left].
Qed.

Lemma classDeclarationForOperation_fit operation outputIndividualFiles result :
  classDeclarationForOperation context depth operation outputIndividualFiles
  = Ok result →
  fit operation.
Proof.
  intros Hresult. split; [|by eapply classDeclarationForOperation_collected].
  destruct result as [operation' out].
  apply classDeclarationForOperation_Ok in Hresult as (? & ? & _ & Hname & _).
  apply classNameAndProtocol_Ok in Hname. unfold supportedOperationType. tauto.
Qed.

Lemma forEachFragment_Throw outputIndividualFiles selected fragments e :
  forEachFragment context depth outputIndividualFiles selected fragments = Throw e →
  e = DepthExceeded.
Proof.
  unfold forEachFragment. intros Hthrow.
  apply bind_Throw in Hthrow as [Hthrow|(declarations & _ & [=])].
  apply mapM_Throw in Hthrow as (fragment & _ & Hthrow).
  destruct (selected fragment); [|done].
  by eapply structDeclarationForSelectionSet_Throw.
Qed.

Lemma forEachOperation_withOperations current outputIndividualFiles selected
    operations :
  forEachOperation (withOperations context current) depth outputIndividualFiles
    selected operations
  = forEachOperation context depth outputIndividualFiles selected operations.
Proof.
  induction operations as [|[key operation] operations IH]; [done|].
  cbn [forEachOperation]. by rewrite IH.
Qed.

Lemma forEachFragment_withOperations current outputIndividualFiles selected fragments :
  forEachFragment (withOperations context current) depth outputIndividualFiles
    selected fragments
  = forEachFragment context depth outputIndividualFiles selected fragments.
Proof. reflexivity. Qed.

(** The loop over the operations: it succeeds only when the selected
    operations are fit, and fails with the error of a selected operation. *)
Lemma forEachOperation_fit outputIndividualFiles selected operations :
  match forEachOperation context depth outputIndividualFiles selected operations with
  | Ok _ => ∀ entry, entry ∈ operations → selected entry.2 = true → fit entry.2
  | Throw e =>
      e = DepthExceeded
      ∨ ∃ entry, entry ∈ operations ∧ selected entry.2 = true ∧ stops entry.2 e
  end.
Proof.
  induction operations as [|[key operation] operations IH].
  - cbn. intros entry Hin. by apply elem_of_nil in Hin.
  - cbn [forEachOperation].
    destruct (selected operation) eqn:Hselected.
    + destruct (classDeclarationForOperation _ _ operation _)
        as [[operation' declaration]|e] eqn:Hdeclaration; cbn.
      * destruct (forEachOperation _ _ _ _ operations) as [[rest declarations]|e]; cbn.
        -- intros entry [->|Hin]%elem_of_cons Hentry; [|by apply IH].
           by eapply classDeclarationForOperation_fit.
        -- destruct IH as [->|(entry & Hin & ?)]; [by left|].
           right. exists entry. split; [by right|done].
      * apply classDeclarationForOperation_unfit in Hdeclaration as [->|Hstops];
          [by left|].
        right. exists (key, operation). split; [left|]. by split.
    + cbn. destruct (forEachOperation _ _ _ _ operations) as [[rest declarations]|e];
        cbn.
      * intros entry [->|Hin]%elem_of_cons Hentry; [|by apply IH].
        cbn in Hentry. congruence.
      * destruct IH as [->|(entry & Hin & ?)]; [by left|].
        right. exists entry. split; [by right|done].
Qed.

Lemma fit_same (a b : Operation.t) :
  sameExceptOperationId a b → fit b → fit a.
Proof.
  intros (_ & _ & Htype & _ & _ & Hselection). unfold fit.
  by rewrite Htype, Hselection.
Qed.

Lemma stops_same (a b : Operation.t) e :
  sameExceptOperationId a b → stops b e → stops a e.
Proof.
  intros (_ & _ & Htype & _ & _ & Hselection). unfold stops, unsupportedOperation.
  by rewrite Htype, Hselection.
Qed.

(** The loop over the input files, likewise; [current] holds the operations
    as the files before have left them. *)
Lemma forEachInputFile_fit only paths current :
  let declared (entry : string * Operation.t) :=
    Operation.filePath entry.2 ∈ paths ∧ declaredIn true only entry.2 = true in
  match forEachInputFile (withOperations context current) depth only paths with
  | Ok _ => ∀ entry, entry ∈ current → declared entry → fit entry.2
  | Throw e =>
      e = DepthExceeded
      ∨ ∃ entry, entry ∈ current ∧ declared entry ∧ stops entry.2 e
  end.
Proof.
  revert current.
  induction paths as [|inputFilePath paths IH]; intros current declared.
  - cbn. intros entry _ [Hin _]. by apply elem_of_nil in Hin.
  - cbn [forEachInputFile].
    destruct (truthyOpt only && negb (bool_decide (Some inputFilePath = only)))
      eqn:Hskip.
    + apply andb_true_iff in Hskip as [Honly Hother].
      apply negb_true_iff, bool_decide_eq_false in Hother.
      assert (∀ entry, declared entry →
              Operation.filePath entry.2 ∈ paths ∧ declaredIn true only entry.2 = true)
        as Hdeclared.
      { intros entry [Hin Hentry]. split; [|done].
        apply elem_of_cons in Hin as [Hhere|?]; [|done]. exfalso.
        unfold declaredIn in Hentry. rewrite Honly in Hentry. cbn in Hentry.
        apply bool_decide_eq_true in Hentry. congruence. }
      specialize (IH current). cbv zeta in IH.
      destruct (forEachInputFile _ _ _ paths) as [result|e].
      * intros entry Hin Hentry. apply IH; [done|]. by apply Hdeclared.
      * destruct IH as [->|(entry & Hin & [Hpath Hentry] & ?)]; [by left|].
        right. exists entry. split; [done|]. split; [|done]. split; [by right|done].
    + assert (∀ operation, Operation.filePath operation = inputFilePath →
              declaredIn true only operation = true) as Hhere.
      { intros operation <-. unfold declaredIn. cbn [negb orb].
        destruct (truthyOpt only); [|done]. cbn in Hskip.
        by apply negb_false_iff in Hskip. }
      pose proof (forEachOperation_fit true
                    (λ operation, bool_decide (Operation.filePath operation = inputFilePath))
                    current) as Hoperations.
      pose proof (forEachOperation_context context depth true
                    (λ operation, bool_decide (Operation.filePath operation = inputFilePath))
                    current) as Hcontext.
      cbn [withOperations CompilerContext.operations CompilerContext.fragments].
      rewrite forEachOperation_withOperations, forEachFragment_withOperations.
      destruct (forEachOperation context depth true _ current)
        as [[operations classes]|e]; cbn; cycle 1.
      { destruct Hoperations as [->|(entry & Hin & Hselected & ?)]; [by left|].
        apply bool_decide_eq_true in Hselected.
        right. exists entry. split; [done|]. split; [|done]. split.
        - rewrite Hselected. left.
        - by apply Hhere. }
      specialize (Hcontext _ _ eq_refl). subst operations.
      destruct (forEachFragment context depth true _ _) as [structs|e] eqn:Hstructs;
        cbn; cycle 1.
      { left. by eapply forEachFragment_Throw. }
      change (withOperations (withOperations context current) ?o)
        with (withOperations context o).
      set (after := map _ current).
      assert (∀ entry', entry' ∈ after →
              ∃ entry, entry ∈ current ∧ sameExceptOperationId entry.2 entry'.2)
        as Hafter.
      { intros entry' Hin. apply list_elem_of_fmap in Hin as (entry & -> & Hin).
        exists entry. split; [done|]. cbn [snd].
        destruct (bool_decide (Operation.filePath entry.2 = inputFilePath));
          [apply withOperationId_same|].
        apply sameExceptOperationId_refl. }
      specialize (IH after). cbv zeta in IH.
      destruct (forEachInputFile (withOperations context after) depth only paths)
        as [[context' files]|e]; cbn.
      * intros entry Hin [Hpath Hentry].
        apply elem_of_cons in Hpath as [Hpath|Hpath].
        { apply Hoperations; [done|]. by apply bool_decide_eq_true. }
        assert ((entry.1,
                 if bool_decide (Operation.filePath entry.2 = inputFilePath)
                 then withOperationId context entry.2 else entry.2) ∈ after) as Hin'.
        { apply list_elem_of_fmap. by exists entry. }
        eapply IH in Hin'.
        -- revert Hin'. cbn [snd].
           destruct (bool_decide (Operation.filePath entry.2 = inputFilePath));
             [|done].
           apply fit_same, withOperationId_same.
        -- cbn [snd]. unfold declaredIn in *.
           destruct (bool_decide (Operation.filePath entry.2 = inputFilePath));
             [|done].
           by rewrite withOperationId_filePath.
      * destruct IH as [->|(entry' & Hin' & [Hpath Hentry] & Hstops)]; [by left|].
        destruct (Hafter _ Hin') as (entry & Hin & Hsame).
        pose proof Hsame as (Hfile & _).
        right. exists entry. split; [done|]. split; [split|].
        -- right. by rewrite Hfile.
        -- unfold declaredIn in *. by rewrite Hfile.
        -- by eapply stops_same.
Qed.

(** The outcome of a run and the operations it declares. *)
Lemma generateSource_fit outputIndividualFiles only :
  let declared operation :=
    operation ∈ Object_values (CompilerContext.operations context)
    ∧ declaredIn outputIndividualFiles only operation = true in
  match generateSource depth context outputIndividualFiles only with
  | Ok _ => ∀ operation, declared operation → fit operation
  | Throw e =>
      e = DepthExceeded ∨ ∃ operation, declared operation ∧ stops operation e
  end.
Proof.
  intros declared.
  assert (∀ entry, entry ∈ CompilerContext.operations context →
          Operation.filePath entry.2 ∈ inputFilePaths context) as Hpaths.
  { intros [key operation] Hin. unfold inputFilePaths.
    apply foldl_Set_add_elem. left. apply foldl_Set_add_elem. right.
    apply list_elem_of_fmap. exists operation. split; [done|].
    apply list_elem_of_fmap. by exists (key, operation). }
  unfold generateSource. destruct outputIndividualFiles.
  - pose proof (forEachInputFile_fit only (inputFilePaths context)
                  (CompilerContext.operations context)) as Hfiles.
    cbv zeta in Hfiles. subst declared. revert Hfiles Hpaths. subst fit stops.
    cbv beta.
    destruct context as [typesUsed operations fragments options].
    change (withOperations (CompilerContext.make typesUsed operations fragments options)
              operations)
      with (CompilerContext.make typesUsed operations fragments options).
    intros Hfiles Hpaths.
    destruct (forEachInputFile _ _ _ _) as [[context' files]|e]; cbn.
    + intros operation [Hin Hdeclared].
      apply list_elem_of_fmap in Hin as (entry & -> & Hin).
      apply Hfiles; [done|]. split; [by apply Hpaths|done].
    + destruct Hfiles as [->|(entry & Hin & [_ Hdeclared] & Hstops)]; [by left|].
      right. exists entry.2. split; [|done]. split; [|done].
      apply list_elem_of_fmap. by exists entry.
  - pose proof (forEachOperation_fit false (λ _, true)
                  (CompilerContext.operations context)) as Hclasses.
    destruct (forEachOperation _ _ _ _ _) as [[operations classes]|e]; cbn.
    + destruct (forEachFragment context depth false _ _) as [structs|e] eqn:Hstructs;
        cbn.
      * intros operation [Hin _].
        apply list_elem_of_fmap in Hin as (entry & -> & Hin). by apply Hclasses.
      * left. by eapply forEachFragment_Throw.
    + destruct Hclasses as [->|(entry & Hin & _ & Hstops)]; [by left|].
      right. exists entry.2. split; [|done]. split; [|done].
      apply list_elem_of_fmap. by exists entry.
Qed.

End Unsupported.

(** [generateSource] makes all of its output or none.  It has a result only
    when every operation that the run declares is a query, a mutation or a
    subscription on which [collectFragmentsReferenced] returns: one declared
    operation of another type leaves the run without output.  A run that
    throws [Unsupported operation type] throws it for a declared operation
    of another type, and a run that throws an error of the visitor throws
    that of a declared operation.  An operation that the run does not
    declare (one of another file, when a file to regenerate is given) is
    not looked at. *)
Theorem generateSource_all_or_nothing
    {printing : Printing} {language : Language} {helpers : Helpers}
    {visitors : Visitors} (context : CompilerContext.t) (depth : nat)
    (outputIndividualFiles : bool) (only : option string) :
  let declared operation :=
    operation ∈ Object_values (CompilerContext.operations context)
    ∧ declaredIn outputIndividualFiles only operation = true in
  let result := generateSource depth context outputIndividualFiles only in
  (∀ context' out,
     result = Ok (context', out) →
     ∀ operation,
       declared operation →
       supportedOperationType (Operation.operationType operation)
       ∧ collectFragmentsReferencedError (Operation.selectionSet operation)
           (CompilerContext.fragments context) = None)
  ∧ (∀ operation,
       declared operation →
       ¬ supportedOperationType (Operation.operationType operation) →
       ∃ e, result = Throw e)
  ∧ (∀ message,
       result = Throw (GraphQLError message) →
       ∃ operation,
         declared operation
         ∧ ¬ supportedOperationType (Operation.operationType operation)
         ∧ GraphQLError message = unsupportedOperation operation)
  ∧ (∀ error,
       result = Throw (VisitorError error) →
       ∃ operation,
         declared operation
         ∧ collectFragmentsReferencedError (Operation.selectionSet operation)
             (CompilerContext.fragments context) = Some error).
Proof.
  intros declared result.
  pose proof (generateSource_fit context depth outputIndividualFiles only) as Hresult.
  cbv zeta in Hresult. fold result in Hresult. fold declared in Hresult.
  split; [|split; [|split]].
  - intros context' out Hok operation Hdeclared. rewrite Hok in Hresult.
    by apply Hresult.
  - intros operation Hdeclared Hunfit.
    destruct result as [[context' out]|e]; [|by exists e].
    destruct Hunfit. by apply Hresult.
  - intros message Hthrow. rewrite Hthrow in Hresult.
    destruct Hresult as [[=]|(operation & Hdeclared & [[Hunfit He]|(_ & error & _ & [=])])].
    by exists operation.
  - intros error Hthrow. rewrite Hthrow in Hresult.
    destruct Hresult as [[=]|(operation & Hdeclared & [[_ [=]]|(_ & error' & He & [= ->])])].
    by exists operation.
Qed.

(** The run over the instance has a result, so its one operation is of a
    type that is rendered. *)
Lemma generateSource_all_or_nothing_witness :
  (∃ context' out,
     @generateSource Sample.printing Sample.language Sample.helpers Sample.visitors 5
       (Sample.context None false) true None = Ok (context', out))
  ∧ supportedOperationType (Operation.operationType Sample.heroQuery).
Proof.
  split; [by eexists _, _|].
  refine (proj1 (proj1 (@generateSource_all_or_nothing Sample.printing Sample.language
                          Sample.helpers Sample.visitors (Sample.context None false)
                          5 true None) _ _ eq_refl Sample.heroQuery _)).
  split; [|reflexivity]. apply list_elem_of_singleton. reflexivity.
Defined.

(** ** Equality of the values of an enumeration *)

Section EqualityOfEnumerations.
Context {printing : Printing} {language : Language}.
Context {helpers : Helpers} {visitors : Visitors}.

Lemma evalEquality_cases (names : list string) (lhs rhs : Swift.EnumValue) :
  evalEquality (map BothCase names ++ [ BothUnknown; Otherwise ]) lhs rhs
  = Some
      match lhs, rhs with
      | Swift.Known l, Swift.Known r => bool_decide (l = r) && bool_decide (l ∈ names)
      | Swift.__unknown l, Swift.__unknown r => bool_decide (l = r)
      | _, _ => false
      end.
Proof.
  induction names as [|name names IH].
  - destruct lhs, rhs; cbn; try done. by rewrite andb_false_r.
  - cbn [map app evalEquality]. rewrite IH. destruct lhs as [l|l], rhs as [r|r];
      try done.
    destruct (decide (l = name)) as [->|Hl].
    + rewrite (bool_decide_eq_true_2 (name = name)) by done. cbn [andb].
      rewrite (bool_decide_eq_true_2 (name ∈ name :: names)) by left.
      rewrite andb_true_r.
      destruct (decide (r = name)) as [->|Hr].
      * by rewrite !bool_decide_eq_true_2.
      * rewrite (bool_decide_eq_false_2 (r = name)) by done.
        rewrite (bool_decide_eq_false_2 (name = r)) by done. done.
    + rewrite (bool_decide_eq_false_2 (l = name)) by done. cbn [andb].
      do 2 f_equal. apply bool_decide_ext. rewrite elem_of_cons.
      split; [by right|]. by intros [?|?].
Qed.

Lemma enumerationDeclaration_equality (type : GraphQLEnumType.t) :
  ∃ heading members,
    enumerationDeclaration type = heading ++ [ withinBlock members ]
    ∧ withinBlock
        [ printOnNewline "switch (lhs, rhs)";
          withinBlock
            (map (λ arm, printOnNewline (renderEqualityArm arm)) (equalityArms type)) ]
      ∈ members.
Proof.
  unfold enumerationDeclaration. eexists [_; _; _], _. split; [reflexivity|].
  rewrite !elem_of_app. right. right. unfold equalityArms.
  rewrite map_app, map_map. do 10 (apply elem_of_cons; right). by left.
Qed.

End EqualityOfEnumerations.

(** The [==] that an enumeration declares is the equality of its values:
    the arms of its [switch (lhs, rhs)], taken in order, answer [true] for
    two values of the enumeration exactly when these are the same case or
    two unknown values with the same raw string. *)
Theorem enumeration_equality
    {printing : Printing} {language : Language} {helpers : Helpers}
    (type : GraphQLEnumType.t) :
  (∃ heading members,
     enumerationDeclaration type = heading ++ [ withinBlock members ]
     ∧ withinBlock
         [ printOnNewline "switch (lhs, rhs)";
           withinBlock
             (map (λ arm, printOnNewline (renderEqualityArm arm)) (equalityArms type)) ]
       ∈ members)
  ∧ ∀ lhs rhs,
      valueOf type lhs → valueOf type rhs →
      evalEquality (equalityArms type) lhs rhs = Some (bool_decide (lhs = rhs)).
Proof.
  split; [apply enumerationDeclaration_equality|].
  intros lhs rhs Hlhs Hrhs. unfold equalityArms.
  rewrite <- (map_map dotCase BothCase). rewrite evalEquality_cases. f_equal.
  destruct lhs as [l|l], rhs as [r|r]; cbn in *.
  - rewrite (bool_decide_eq_true_2 _ Hlhs), andb_true_r.
    apply bool_decide_ext. naive_solver.
  - by rewrite bool_decide_eq_false_2.
  - by rewrite bool_decide_eq_false_2.
  - apply bool_decide_ext. naive_solver.
Qed.

(** Two cases of the enumeration of the instance are not equal. *)
Lemma enumeration_equality_witness :
  evalEquality (@equalityArms Sample.language Sample.helpers Sample.Episode)
    (Swift.Known ".JEDI") (Swift.Known ".EMPIRE")
  = Some false.
Proof.
  refine (proj2 (@enumeration_equality Sample.printing Sample.language Sample.helpers
                   Sample.Episode) (Swift.Known ".JEDI") (Swift.Known ".EMPIRE") _ _).
  - vm_compute. set_solver.
  - vm_compute. set_solver.
Defined.

(** ** The struct of a fragment *)

(** The struct declared for a fragment has the name the helpers give for
    the fragment name, adopts [GraphQLFragment] and lies in the namespace
    of the context.  With a source, its body starts with the source as a
    comment and the constant [fragmentDefinition] that holds it; with the
    empty source nothing goes before the possible types, so that the
    struct has no [fragmentDefinition]. *)
Theorem fragment_struct
    {printing : Printing} {language : Language} {helpers : Helpers}
    {visitors : Visitors} (context : CompilerContext.t) (depth : nat)
    (fragment : Fragment.t) (outputIndividualFiles : bool) (out : list Emit) :
  structDeclarationForFragment context depth fragment outputIndividualFiles = Ok out →
  let source := Fragment.source fragment in
  let variant :=
    TypeCase.default
      (typeCaseForSelectionSet (Fragment.selectionSet fragment)
         (CompilerOptions.mergeInFieldsFromFragmentSpreads
            (CompilerContext.options context))) in
  ∃ members,
    out
    = [ structDeclaration
          (Struct.make (structNameForFragmentName (Fragment.fragmentName fragment))
             None (Some ["GraphQLFragment"])
             (CompilerOptions.namespace (CompilerContext.options context)))
          outputIndividualFiles
          ((if truthy source
            then [ commentWithoutTrimming source;
                   printOnNewline "public static let fragmentDefinition =";
                   withIndent [ multilineString source ] ]
            else [])
           ++ possibleTypesDeclaration variant ++ members) ].
Proof.
  unfold structDeclarationForFragment. destruct depth as [|depth]; [discriminate|].
  cbn [structDeclarationForSelectionSet]. unfold structDeclarationForVariant.
  intros Hout.
  apply bind_Ok in Hout as (nested & _ & Hout).
  apply bind_Ok in Hout as (afterwards & _ & [= <-]).
  cbn [default from_option]. eexists. do 3 f_equal.
Qed.

(** The struct of the fragment of the instance holds its source. *)
Lemma fragment_struct_witness :
  ∃ heading possibleTypes members,
    @structDeclarationForFragment Sample.printing Sample.language Sample.helpers
      Sample.visitors (Sample.context None false) 5 Sample.heroDetails false
    = Ok [ structDeclaration heading false
             ([ commentWithoutTrimming
                  "fragment HeroDetails on Droid { __typename primaryFunction }";
                printOnNewline "public static let fragmentDefinition =";
                withIndent
                  [ multilineString
                      "fragment HeroDetails on Droid { __typename primaryFunction }" ] ]
              ++ possibleTypes ++ members) ].
Proof.
  destruct (@structDeclarationForFragment Sample.printing Sample.language
              Sample.helpers Sample.visitors (Sample.context None false) 5
              Sample.heroDetails false) as [out|failure] eqn:Hout;
    [|by vm_compute in Hout].
  destruct (@fragment_struct Sample.printing Sample.language Sample.helpers
              Sample.visitors (Sample.context None false) 5 Sample.heroDetails false
              out Hout) as [members ->].
  by eexists _, _, _.
Defined.

(** ** Initializers of a struct with a type case *)

Section Initializers.
Context {printing : Printing} {language : Language}.
Context {helpers : Helpers} {visitors : Visitors}.

(** Without [useInitializerIfPossible] only factories are printed: the
    lines are the headings of the factories of the possible types whose
    properties are known. *)
Lemma initializersForVariant_factories enclosing variant namespace line :
  printOnNewline line ∈ initializersForVariant enclosing variant namespace false ↔
  ∃ possibleType,
    possibleType ∈ Variant.possibleTypes variant
    ∧ propertiesForSelectionSet
        (SelectionSet.make [possibleType] (Variant.selections variant)) namespace
      ≠ None
    ∧ line = "public static func make" +:+ GraphQLObjectType.name possibleType.
Proof.
  unfold initializersForVariant. rewrite list_elem_of_In, in_flat_map. split.
  - intros (possibleType & Hin & Hline). exists possibleType.
    apply list_elem_of_In in Hin, Hline. split; [done|].
    destruct (propertiesForSelectionSet _ _); [|by apply elem_of_nil in Hline].
    split; [done|]. unfold parametersForProperties in Hline.
    rewrite !elem_of_app, !elem_of_cons, !elem_of_nil in Hline.
    destruct Hline as [[?|[?|?]]|[[?|[?|[?|?]]]|[?|[?|?]]]]; by simplify_eq.
  - intros (possibleType & Hin & Hproperties & ->). exists possibleType.
    split; [by apply list_elem_of_In|]. apply list_elem_of_In.
    destruct (propertiesForSelectionSet _ _); [|done].
    apply elem_of_cons. right. by left.
Qed.

End Initializers.

(** The initializers of a struct with a type case.  Without variants they
    are the initializers of the default variant.  With variants no
    initializer [public init] with the properties as parameters is
    declared: the lines printed are the headings of factories
    [make<Type>], one for each possible type of the remainder and of every
    variant for which the helpers know the properties, and each such
    possible type has its factory. *)
Theorem initializers_of_type_case
    {printing : Printing} {language : Language} {helpers : Helpers}
    (enclosing : string) (typeCase : TypeCase.t) :
  let variants := TypeCase.variants typeCase in
  (variants = [] →
   initializersForTypeCase enclosing typeCase
   = initializersForVariant enclosing (TypeCase.default typeCase) None true)
  ∧ (variants ≠ [] →
     (printOnNewline "public init" ∉ initializersForTypeCase enclosing typeCase)
     ∧ ∀ line,
         printOnNewline line ∈ initializersForTypeCase enclosing typeCase ↔
         ∃ variant namespace possibleType,
           ((Some variant = TypeCase.remainder typeCase ∧ namespace = None)
            ∨ (variant ∈ variants ∧ namespace = Some (structNameForVariant variant)))
           ∧ possibleType ∈ Variant.possibleTypes variant
           ∧ propertiesForSelectionSet
               (SelectionSet.make [possibleType] (Variant.selections variant))
               namespace
             ≠ None
           ∧ line = "public static func make" +:+ GraphQLObjectType.name possibleType).
Proof.
  intros variants. subst variants. split.
  - intros Hnone. unfold initializersForTypeCase. by rewrite Hnone.
  - intros Hsome.
    assert (∀ line,
      printOnNewline line ∈ initializersForTypeCase enclosing typeCase ↔
      ∃ variant namespace possibleType,
        ((Some variant = TypeCase.remainder typeCase ∧ namespace = None)
         ∨ (variant ∈ TypeCase.variants typeCase
            ∧ namespace = Some (structNameForVariant variant)))
        ∧ possibleType ∈ Variant.possibleTypes variant
        ∧ propertiesForSelectionSet
            (SelectionSet.make [possibleType] (Variant.selections variant)) namespace
          ≠ None
        ∧ line = "public static func make" +:+ GraphQLObjectType.name possibleType)
      as Hlines.
    { intros line. unfold initializersForTypeCase.
      destruct (TypeCase.variants typeCase) as [|first rest] eqn:Hvariants; [done|].
      cbn [length Nat.eqb]. rewrite elem_of_app. split.
      - intros [Hremainder|Hvariant].
        + destruct (TypeCase.remainder typeCase) as [remainder|];
            [|by apply elem_of_nil in Hremainder].
          apply initializersForVariant_factories in Hremainder
            as (possibleType & ? & ? & ->).
          exists remainder, None, possibleType. auto.
        + apply list_elem_of_In, in_flat_map in Hvariant as (variant & Hin & Hline).
          apply list_elem_of_In in Hin, Hline.
          apply initializersForVariant_factories in Hline
            as (possibleType & ? & ? & ->).
          exists variant, (Some (structNameForVariant variant)), possibleType. auto.
      - intros (variant & namespace & possibleType
                & [[Hremainder ->]|[Hin ->]] & Htype & Hproperties & ->).
        + left. rewrite <- Hremainder. apply initializersForVariant_factories.
          by exists possibleType.
        + right. apply list_elem_of_In, in_flat_map. exists variant.
          split; [by apply list_elem_of_In|]. apply list_elem_of_In.
          apply initializersForVariant_factories. by exists possibleType. }
    split; [|done]. intros Hinit. apply Hlines in Hinit
      as (_ & _ & possibleType & _ & _ & _ & Hline).
    discriminate Hline.
Qed.

(** The struct of the hero of the instance, which has the variant
    [AsDroid], gets no initializer [public init]. *)
Lemma initializers_witness :
  printOnNewline "public init"
  ∉ @initializersForTypeCase Sample.printing Sample.language Sample.helpers "Hero"
      (Sample.typeCaseForSelectionSet Sample.heroSelectionSet false).
Proof.
  apply (proj2 (@initializers_of_type_case Sample.printing Sample.language
                  Sample.helpers "Hero"
                  (Sample.typeCaseForSelectionSet Sample.heroSelectionSet false))).
  discriminate.
Defined.

(** ** Input objects *)

(** The struct of an input object type.  It has the name and the
    description of the type, adopts [GraphQLMapConvertible] and has no
    namespace.  For each field of the type it declares a property; the
    type of the property of an optional field is wrapped in
    [Swift.Optional<...>], its getter reads the map with [as?] and falls
    back on [.none], and its parameter of the initializer ends with the
    default [ = nil]; the property of any other field keeps its type, is
    read with [as!] and has a parameter without default.  The two
    hypotheses say how [join] treats an array of two strings, or of one
    string and [false], without a separator. *)
Theorem input_object_fields
    {printing : Printing} {language : Language} {helpers : Helpers}
    (type : GraphQLInputObjectType.t GraphQLType) (outputIndividualFiles : bool) :
  (∀ a b, join [Some a; Some b] None = a +:+ b) →
  (∀ a, join [Some a; None] None = a) →
  ∃ body,
    structDeclarationForInputObjectType type outputIndividualFiles
    = [ structDeclaration
          (Struct.make (GraphQLInputObjectType.name type)
             (orUndefined (GraphQLInputObjectType.description type))
             (Some ["GraphQLMapConvertible"]) None)
          outputIndividualFiles body ]
    ∧ ∀ key field,
        (key, field) ∈ GraphQLInputObjectType.getFields type →
        let property := propertyFromInputField field in
        let name := InputFieldProperty.name property in
        let propertyName :=
          escapeIdentifierIfNeeded
            (Property.propertyName (InputFieldProperty.property property)) in
        let isOptional := Property.isOptional (InputFieldProperty.property property) in
        let typeName :=
          if isOptional
          then "Swift.Optional<"
               +:+ Property.typeName (InputFieldProperty.property property) +:+ ">"
          else Property.typeName (InputFieldProperty.property property) in
        printOnNewline ("public var " +:+ propertyName +:+ ": " +:+ typeName) ∈ body
        ∧ withinBlock
            [ printOnNewline "get";
              withinBlock
                [ printOnNewline
                    (if isOptional
                     then "return graphQLMap[" +:+ quoted name +:+ "] as? " +:+ typeName
                          +:+ " ?? .none"
                     else "return graphQLMap[" +:+ quoted name +:+ "] as! " +:+ typeName) ];
              printOnNewline "set";
              withinBlock
                [ printOnNewline
                    ("graphQLMap.updateValue(newValue, forKey: " +:+ quoted name +:+ ")") ] ]
          ∈ body
        ∧ ∃ parameters,
            print (join parameters (Some ", ")) ∈ body
            ∧ Some (propertyName +:+ ": " +:+ typeName
                    +:+ (if isOptional then " = nil" else ""))
              ∈ parameters.
Proof.
  intros Htwo Hone. unfold structDeclarationForInputObjectType.
  eexists. split; [reflexivity|]. intros key field Hfield. cbv zeta.
  change (λ field : GraphQLInputField.t GraphQLType,
            if Property.isOptional
                 (InputFieldProperty.property (propertyFromInputField field))
            then _ else propertyFromInputField field)
    with declaredInputProperty.
  assert (declaredInputProperty field
          ∈ map declaredInputProperty
              (Object_values (GraphQLInputObjectType.getFields type))) as Hin.
  { apply list_elem_of_fmap_2, list_elem_of_fmap. by exists (key, field). }
  assert (InputFieldProperty.name (declaredInputProperty field)
          = InputFieldProperty.name (propertyFromInputField field)
          ∧ Property.propertyName (InputFieldProperty.property (declaredInputProperty field))
            = Property.propertyName
                (InputFieldProperty.property (propertyFromInputField field))
          ∧ Property.isOptional (InputFieldProperty.property (declaredInputProperty field))
            = Property.isOptional
                (InputFieldProperty.property (propertyFromInputField field))
          ∧ Property.typeName (InputFieldProperty.property (declaredInputProperty field))
            = if Property.isOptional
                   (InputFieldProperty.property (propertyFromInputField field))
              then "Swift.Optional<"
                   +:+ Property.typeName
                         (InputFieldProperty.property (propertyFromInputField field))
                   +:+ ">"
              else Property.typeName
                     (InputFieldProperty.property (propertyFromInputField field)))
    as (Hname & HpropertyName & Hoptional & HtypeName).
  { unfold declaredInputProperty. cbv zeta.
    by destruct (Property.isOptional _) eqn:Hoptional. }
  split; [|split].
  - rewrite elem_of_app. right. apply list_elem_of_In, in_flat_map.
    exists (declaredInputProperty field). split; [by apply list_elem_of_In|].
    right. right. left. by rewrite HpropertyName, HtypeName.
  - rewrite elem_of_app. right. apply list_elem_of_In, in_flat_map.
    exists (declaredInputProperty field). split; [by apply list_elem_of_In|].
    right. right. right. left. rewrite Hname, Hoptional, HtypeName.
    by destruct (Property.isOptional
                   (InputFieldProperty.property (propertyFromInputField field))).
  - eexists. split.
    + rewrite elem_of_app. left. do 4 (apply elem_of_cons; right). by left.
    + apply list_elem_of_fmap. exists (declaredInputProperty field). split; [|done].
      f_equal. unfold parameterForProperty.
      rewrite HpropertyName, HtypeName, Hoptional.
      destruct (Property.isOptional
                  (InputFieldProperty.property (propertyFromInputField field))).
      * by rewrite Htwo, ?string_app_assoc.
      * by rewrite Hone, ?string_app_assoc, ?string_app_nil_r.
Qed.

(** The optional field of an input object of the instance. *)
Lemma input_object_fields_witness :
  ∃ heading rest,
    @structDeclarationForInputObjectType Sample.printing Sample.language Sample.helpers
      (GraphQLInputObjectType.make "ReviewInput" None
         [ ("commentary",
            GraphQLInputField.make "commentary" None (ScalarType "String")) ])
      false
    = [ structDeclaration heading false rest ]
    ∧ printOnNewline "public var commentary: Swift.Optional<String?>" ∈ rest.
Proof.
  destruct (@input_object_fields Sample.printing Sample.language Sample.helpers
              (GraphQLInputObjectType.make "ReviewInput" None
                 [ ("commentary",
                    GraphQLInputField.make "commentary" None (ScalarType "String")) ])
              false Sample_join_two Sample_join_one) as (body & Hbody & Hfields).
  eexists _, body. split; [exact Hbody|].
  apply (Hfields "commentary"
           (GraphQLInputField.make "commentary" None (ScalarType "String"))).
  by left.
Defined.
